(** * RoofTop rain-water harvesting: the location and property form

    A shallow embedding of [static/js/location-input.js], the script behind
    the location-input page: the debounce utility, the handlers that keep the
    map marker, the coordinate fields and the address fields together, the
    area calculator, the radio options, the map style switch, the two-step
    navigation and the hidden-form submission; and of the script of the
    sign-in page: the OTP panels, the consent boxes and the three ways in.

    Conventions.
    - A JavaScript Number is an IEEE 754 binary64 value, modelled by the
      Standard Library's [spec_float] at precision 53 and [emax] 1024, so
      that products and decimal literals are rounded as the engine rounds
      them.
    - A JavaScript string is a Rocq [string]; each character stands for one
      UTF-16 code unit below 256, so [String.length] is the [length]
      property.
    - The page is a record of what the script reads and writes; alerts,
      console errors, network requests and submitted forms are logs. The
      HTML of the page is not part of the sources: its controls are taken
      to hold the text assigned to them, and [#state] to be the drop-down
      the script fills.
    - An asynchronous function is split where it awaits: the part before
      the request is sent, and the part run on the response.
    - Time is a number of milliseconds; timers fire when the clock, advanced
      by the [Elapse] event, reaches their deadline. *)

From Stdlib Require Import ZArith NArith Lia Bool List.
From Stdlib Require Import String Ascii DecimalString.
From Stdlib Require Import Floats.SpecFloat.
From stdpp Require Import base option list strings gmap.

Local Open Scope string_scope.
Local Open Scope Z_scope.

(** ** Numbers *)

Module Number.

Abbreviation number := spec_float.

Definition prec : Z := 53.
Definition emax : Z := 1024.

Definition NaN : number := S754_nan.

(** The binary64 value nearest to the integer [n] (ties to even). *)
Definition of_Z (n : Z) : number := binary_normalize prec emax n 0 false.

(** The binary64 value nearest to [s * n * 10^e], the value of a decimal
    literal with digits [n] and decimal exponent [e]. *)
Definition of_decimal (s : bool) (n : N) (e : Z) : number :=
  match n with
  | N0 => S754_zero s
  | Npos p =>
      if 0 <=? e then binary_round prec emax s (Z.to_pos (Zpos p * 10 ^ e)) 0
      else
        let '(q, e', l) :=
          SFdiv_core_binary prec emax (Zpos p) 0 (10 ^ (- e)) 0 in
        binary_round_aux prec emax s q e' l
  end.

Definition mul : number -> number -> number := SFmul prec emax.
Definition opp : number -> number := SFopp.
Definition leb : number -> number -> bool := SFleb.
Definition geb (x y : number) : bool := SFleb y x.

Definition isNaN (x : number) : bool :=
  match x with S754_nan => true | _ => false end.

(** ToBoolean on a Number: NaN and the two zeros are falsy. *)
Definition truthy (x : number) : bool :=
  match x with
  | S754_nan | S754_zero _ => false
  | _ => true
  end.

(** [x || y] on Numbers. *)
Definition or_else (x y : number) : number := if truthy x then x else y.

(** The magnitude of a finite number is [m * 2^e], kept as the fraction
    [num / den] of two non-negative integers. *)
Definition magnitude (x : number) : Z * Z :=
  match x with
  | S754_finite _ m e =>
      if 0 <=? e then (Zpos m * 2 ^ e, 1) else (Zpos m, 2 ^ (- e))
  | _ => (0, 1)
  end.

Definition negative (x : number) : bool :=
  match x with
  | S754_finite s _ _ => s
  | _ => false
  end.

(** The integer [n] for which [n / 10^f] is nearest to [num / den], the
    larger one when two are equally near. *)
Definition nearest_scaled (f : nat) (q : Z * Z) : Z :=
  let '(num, den) := q in
  (2 * num * 10 ^ Z.of_nat f + den) / (2 * den).

End Number.

(** ** Strings *)

Module Str.

Definition code (c : ascii) : N := N_of_ascii c.

(** WhiteSpace and LineTerminator code units (those below 256). *)
Definition is_space (c : ascii) : bool :=
  let n := code c in
  ((9 <=? n) && (n <=? 13) || (n =? 32) || (n =? 160))%N.

(** The value of a digit in base 36, as [parseInt] reads it. *)
Definition digit_value (c : ascii) : option N :=
  let n := code c in
  if ((48 <=? n) && (n <=? 57))%N then Some (n - 48)%N
  else if ((97 <=? n) && (n <=? 122))%N then Some (n - 87)%N
  else if ((65 <=? n) && (n <=? 90))%N then Some (n - 55)%N
  else None.

Fixpoint trim_start (s : string) : string :=
  match s with
  | String c r => if is_space c then trim_start r else s
  | EmptyString => s
  end.

(** Reads the longest run of digits of base [radix]: the value read after
    [acc], how many digits were read, and what follows them. *)
Fixpoint read_digits (radix acc : N) (s : string) : N * nat * string :=
  match s with
  | String c r =>
      match digit_value c with
      | Some d =>
          if (d <? radix)%N then
            let '(v, k, rest) := read_digits radix (acc * radix + d)%N r in
            (v, S k, rest)
          else (acc, O, s)
      | None => (acc, O, s)
      end
  | EmptyString => (acc, O, s)
  end.

Definition read_sign (s : string) : bool * string :=
  match s with
  | String "-" r => (true, r)
  | String "+" r => (false, r)
  | _ => (false, s)
  end.

(** [s.split(sep)] for a separator of one character. *)
Fixpoint split (sep : ascii) (s : string) : list string :=
  match s with
  | EmptyString => [""]
  | String c r =>
      if Ascii.eqb c sep then "" :: split sep r
      else match split sep r with
           | w :: ws => String c w :: ws
           | [] => [String c ""]
           end
  end.

(** [a.join(sep)]. *)
Fixpoint join (sep : string) (a : list string) : string :=
  match a with
  | [] => ""
  | [x] => x
  | x :: r => x ++ sep ++ join sep r
  end.

Definition of_N (n : N) : string := NilZero.string_of_uint (N.to_uint n).

Fixpoint zeros (k : nat) : string :=
  match k with
  | O => ""
  | S k' => String "0" (zeros k')
  end.

End Str.

(** ** Built-in conversions between numbers and strings *)

Module Builtin.
Import Number Str.

(** [parseFloat(s)]: the longest prefix of [s], after leading white space,
    that is a decimal literal; NaN when there is none. *)
Definition parseFloat (s : string) : number :=
  let '(sg, r0) := read_sign (trim_start s) in
  if String.prefix "Infinity" r0 then S754_infinity sg
  else
    let '(ip, ni, r1) := read_digits 10 0 r0 in
    let '(mant, nf, r2) :=
      match r1 with
      | String "." r => read_digits 10 ip r
      | _ => (ip, O, r1)
      end in
    if ((ni =? 0) && (nf =? 0))%nat then NaN
    else
      let ex :=
        match r2 with
        | String c r =>
            if (Ascii.eqb c "e" || Ascii.eqb c "E")%bool then
              let '(es, r3) := read_sign r in
              let '(ev, ne, _) := read_digits 10 0 r3 in
              if (ne =? 0)%nat then 0
              else if es then - Z.of_N ev else Z.of_N ev
            else 0
        | EmptyString => 0
        end in
      of_decimal sg mant (ex - Z.of_nat nf).

(** [parseInt(s)] with no radix argument. *)
Definition parseInt (s : string) : number :=
  let '(sg, r0) := read_sign (trim_start s) in
  let '(radix, r1) :=
    match r0 with
    | String "0" (String "x" r) | String "0" (String "X" r) => (16%N, r)
    | _ => (10%N, r0)
    end in
  let '(v, k, _) := read_digits radix 0 r1 in
  if (k =? 0)%nat then NaN else of_decimal sg v 0.

(** The digits of [n] with a point before the last [f] of them. *)
Definition fixed_digits (f : nat) (n : Z) : string :=
  let m := of_N (Z.to_N n) in
  if (f =? 0)%nat then m
  else
    let m := if (String.length m <=? f)%nat
             then zeros (f + 1 - String.length m) ++ m else m in
    let k := String.length m in
    substring 0 (k - f) m ++ "." ++ substring (k - f) f m.

(** Number::toString for a finite [x] of magnitude [v >= 10^21], an
    integer: the shortest digits [s] with [s * 10^(n-k)] rounding to [x],
    in exponent notation. *)
Definition shortest_candidate (x : number) (v : Z) (n0 k : nat)
  : option (Z * nat) :=
  let p := 10 ^ Z.of_nat (n0 - k) in
  let lo := v / p in
  let hi := lo + 1 in
  let ok s := SFeqb (of_Z (s * p)) (SFabs x) in
  let norm s :=
    if s =? 10 ^ Z.of_nat k then (10 ^ Z.of_nat (k - 1), S n0) else (s, n0) in
  match ok lo, ok hi with
  | true, true => Some (norm (if v - lo * p <=? hi * p - v then lo else hi))
  | true, false => Some (norm lo)
  | false, true => Some (norm hi)
  | false, false => None
  end.

Fixpoint shortest_digits (x : number) (v : Z) (n0 k fuel : nat) : Z * nat :=
  match fuel with
  | O => (v, n0)
  | S fuel' =>
      match shortest_candidate x v n0 k with
      | Some r => r
      | None => shortest_digits x v n0 (S k) fuel'
      end
  end.

Definition toString_large (x : number) : string :=
  let v := fst (magnitude x) in
  let n0 := String.length (of_N (Z.to_N v)) in
  let '(s, n) := shortest_digits x v n0 1 n0 in
  let d := of_N (Z.to_N s) in
  let frac := substring 1 (String.length d - 1) d in
  substring 0 1 d ++ (if (String.length d =? 1)%nat then "" else "." ++ frac)
    ++ "e+" ++ of_N (N.of_nat (n - 1)).

(** [x.toFixed(f)] for [0 <= f <= 100]. *)
Definition toFixed (f : nat) (x : number) : string :=
  match x with
  | S754_nan => "NaN"
  | S754_infinity false => "Infinity"
  | S754_infinity true => "-Infinity"
  | S754_zero _ => fixed_digits f 0
  | S754_finite s _ _ =>
      let '(num, den) := magnitude x in
      (if s then "-" else "") ++
      (if 10 ^ 21 * den <=? num then toString_large x
       else fixed_digits f (nearest_scaled f (num, den)))
  end.

End Builtin.

(** ** The debounce utility *)

Module Debounce.
Section Closure.
Context {A : Type}.

(** The closure returned by [debounce(func, delay)]: its [delay] and its
    [timeout] variable, a pending timer with the time it is due and the
    arguments of the call that set it. *)
Record t := { delay : N; timeout : option (N * A) }.

Definition debounce (delay : N) : t :=
  {| delay := delay; timeout := None |}.

(** A call of the closure at time [now]: [clearTimeout(timeout)], then
    [timeout = setTimeout(() => func(args), delay)]. *)
Definition call (now : N) (args : A) (d : t) : t :=
  {| delay := delay d; timeout := Some ((now + delay d)%N, args) |}.

(** The arguments [func] is applied to if the timer is due at [now]. *)
Definition due (now : N) (d : t) : option (N * A) :=
  match timeout d with
  | Some (at_, args) => if (at_ <=? now)%N then Some (at_, args) else None
  | None => None
  end.

(** The timer has run; a later [clearTimeout] of it does nothing. *)
Definition fired (d : t) : t := {| delay := delay d; timeout := None |}.
End Closure.
Arguments t : clear implicits.
End Debounce.

(** ** The page *)

Import Number Str Builtin.

Record LngLat := { lng : number; lat : number }.

Record Camera := { center : LngLat; zoom : Z; pitch : Z; bearing : Z }.

(** One entry of a geocoding feature's [context] array. *)
Record ContextEntry := { ctx_id : string; ctx_text : string }.

Record Feature := {
  place_name : string;
  context : option (list ContextEntry);
  place_center : LngLat
}.

(** How a [fetch] followed by [response.json()] ends: either promise is
    rejected, or the body is an object whose [features] may be missing. *)
Inductive Response :=
| NetworkError (e : string)
| ParseError (e : string)
| Json (features : option (list Feature)).

(** The two requests the script sends to the geocoding service:
    [geocoding/${lng},${lat}.json] and
    [geocoding/${encodeURIComponent(input)}.json] with its fixed country,
    types and limit parameters. *)
Inductive Request :=
| ReverseGeocode (lng lat : string)
| ForwardGeocode (query : string).

(** A value stored in a field of [dataToSubmit]: a string, a number, or a
    member that the object literal inherits from [Object.prototype]. *)
Inductive Value :=
| VString (s : string)
| VNumber (x : number)
| VInherited (name : string).

(** The hidden form: its method, its action, and the name and value of each
    hidden input in the order they were appended. *)
Record Form := {
  method : string;
  action : string;
  inputs : list (string * Value)
}.

Record Page := {
  (** the string each element holds, by id: [.value] of a control,
      [.textContent] of [#coords]; an absent id reads as the empty string *)
  values : gmap string string;
  (** the options of the [#state] drop-down *)
  stateOptions : list string;
  (** value of the checked radio button of each group *)
  radios : gmap string string;
  (** values of the checked [existing_water_sources] boxes *)
  waterSources : list string;
  marker : LngLat;
  camera : Camera;
  suggestions : list Feature;
  suggestionsHidden : bool;
  locationActive : bool;
  dataActive : bool;
  submitBtn : string * bool;
  alerts : list string;
  console : list string;
  requests : list Request;
  forms : list Form;
  now : N;
  debouncedUpdateFromMarker : Debounce.t LngLat;
  debouncedAddressSearch : Debounce.t string
}.

Definition set_values v p := Build_Page v (stateOptions p) (radios p) (waterSources p) (marker p) (camera p) (suggestions p) (suggestionsHidden p) (locationActive p) (dataActive p) (submitBtn p) (alerts p) (console p) (requests p) (forms p) (now p) (debouncedUpdateFromMarker p) (debouncedAddressSearch p).
Definition set_marker v p := Build_Page (values p) (stateOptions p) (radios p) (waterSources p) v (camera p) (suggestions p) (suggestionsHidden p) (locationActive p) (dataActive p) (submitBtn p) (alerts p) (console p) (requests p) (forms p) (now p) (debouncedUpdateFromMarker p) (debouncedAddressSearch p).
Definition set_camera v p := Build_Page (values p) (stateOptions p) (radios p) (waterSources p) (marker p) v (suggestions p) (suggestionsHidden p) (locationActive p) (dataActive p) (submitBtn p) (alerts p) (console p) (requests p) (forms p) (now p) (debouncedUpdateFromMarker p) (debouncedAddressSearch p).
Definition set_suggestions v p := Build_Page (values p) (stateOptions p) (radios p) (waterSources p) (marker p) (camera p) v (suggestionsHidden p) (locationActive p) (dataActive p) (submitBtn p) (alerts p) (console p) (requests p) (forms p) (now p) (debouncedUpdateFromMarker p) (debouncedAddressSearch p).
Definition set_suggestionsHidden v p := Build_Page (values p) (stateOptions p) (radios p) (waterSources p) (marker p) (camera p) (suggestions p) v (locationActive p) (dataActive p) (submitBtn p) (alerts p) (console p) (requests p) (forms p) (now p) (debouncedUpdateFromMarker p) (debouncedAddressSearch p).
Definition set_locationActive v p := Build_Page (values p) (stateOptions p) (radios p) (waterSources p) (marker p) (camera p) (suggestions p) (suggestionsHidden p) v (dataActive p) (submitBtn p) (alerts p) (console p) (requests p) (forms p) (now p) (debouncedUpdateFromMarker p) (debouncedAddressSearch p).
Definition set_dataActive v p := Build_Page (values p) (stateOptions p) (radios p) (waterSources p) (marker p) (camera p) (suggestions p) (suggestionsHidden p) (locationActive p) v (submitBtn p) (alerts p) (console p) (requests p) (forms p) (now p) (debouncedUpdateFromMarker p) (debouncedAddressSearch p).
Definition set_submitBtn v p := Build_Page (values p) (stateOptions p) (radios p) (waterSources p) (marker p) (camera p) (suggestions p) (suggestionsHidden p) (locationActive p) (dataActive p) v (alerts p) (console p) (requests p) (forms p) (now p) (debouncedUpdateFromMarker p) (debouncedAddressSearch p).
Definition set_alerts v p := Build_Page (values p) (stateOptions p) (radios p) (waterSources p) (marker p) (camera p) (suggestions p) (suggestionsHidden p) (locationActive p) (dataActive p) (submitBtn p) v (console p) (requests p) (forms p) (now p) (debouncedUpdateFromMarker p) (debouncedAddressSearch p).
Definition set_console v p := Build_Page (values p) (stateOptions p) (radios p) (waterSources p) (marker p) (camera p) (suggestions p) (suggestionsHidden p) (locationActive p) (dataActive p) (submitBtn p) (alerts p) v (requests p) (forms p) (now p) (debouncedUpdateFromMarker p) (debouncedAddressSearch p).
Definition set_requests v p := Build_Page (values p) (stateOptions p) (radios p) (waterSources p) (marker p) (camera p) (suggestions p) (suggestionsHidden p) (locationActive p) (dataActive p) (submitBtn p) (alerts p) (console p) v (forms p) (now p) (debouncedUpdateFromMarker p) (debouncedAddressSearch p).
Definition set_forms v p := Build_Page (values p) (stateOptions p) (radios p) (waterSources p) (marker p) (camera p) (suggestions p) (suggestionsHidden p) (locationActive p) (dataActive p) (submitBtn p) (alerts p) (console p) (requests p) v (now p) (debouncedUpdateFromMarker p) (debouncedAddressSearch p).
Definition set_now v p := Build_Page (values p) (stateOptions p) (radios p) (waterSources p) (marker p) (camera p) (suggestions p) (suggestionsHidden p) (locationActive p) (dataActive p) (submitBtn p) (alerts p) (console p) (requests p) (forms p) v (debouncedUpdateFromMarker p) (debouncedAddressSearch p).
Definition set_debouncedUpdateFromMarker v p := Build_Page (values p) (stateOptions p) (radios p) (waterSources p) (marker p) (camera p) (suggestions p) (suggestionsHidden p) (locationActive p) (dataActive p) (submitBtn p) (alerts p) (console p) (requests p) (forms p) (now p) v (debouncedAddressSearch p).
Definition set_debouncedAddressSearch v p := Build_Page (values p) (stateOptions p) (radios p) (waterSources p) (marker p) (camera p) (suggestions p) (suggestionsHidden p) (locationActive p) (dataActive p) (submitBtn p) (alerts p) (console p) (requests p) (forms p) (now p) (debouncedUpdateFromMarker p) v.

(** [document.getElementById(id).value] *)
Definition value (id : string) (p : Page) : string :=
  default "" (values p !! id).

(** [document.getElementById(id).value = v] on a text control, and
    [.textContent = v] *)
Definition set_value (id v : string) (p : Page) : Page :=
  set_values (<[id := v]> (values p)) p.

(** [.value = v] on the [#state] drop-down selects the option with that
    value; with no such option nothing is selected and the value reads as
    the empty string. *)
Definition set_state (v : string) (p : Page) : Page :=
  set_value "state" (if bool_decide (v ∈ stateOptions p) then v else "") p.

Definition alert (msg : string) (p : Page) : Page :=
  set_alerts (alerts p ++ [msg]) p.

Definition console_error (msg : string) (p : Page) : Page :=
  set_console (console p ++ [msg]) p.

Definition fetch (r : Request) (p : Page) : Page :=
  set_requests (requests p ++ [r]) p.

(** ** Map and geocoding handlers *)

Definition indianStates : list string := [
  "Andaman and Nicobar Islands"; "Andhra Pradesh"; "Arunachal Pradesh";
  "Assam"; "Bihar"; "Chandigarh"; "Chhattisgarh";
  "Dadra and Nagar Haveli and Daman and Diu"; "Delhi"; "Goa"; "Gujarat";
  "Haryana"; "Himachal Pradesh"; "Jammu and Kashmir"; "Jharkhand";
  "Karnataka"; "Kerala"; "Ladakh"; "Lakshadweep"; "Madhya Pradesh";
  "Maharashtra"; "Manipur"; "Meghalaya"; "Mizoram"; "Nagaland"; "Odisha";
  "Puducherry"; "Punjab"; "Rajasthan"; "Sikkim"; "Tamil Nadu"; "Telangana";
  "Tripura"; "Uttar Pradesh"; "Uttarakhand"; "West Bengal" ].

(** [map.flyTo({center: [lngLat.lng, lngLat.lat], zoom: 18, pitch: 60,
    bearing: 90})] *)
Definition updateTo3DView (lngLat : LngLat) (p : Page) : Page :=
  set_camera {| center := lngLat; zoom := 18; pitch := 60; bearing := 90 |} p.

Definition coords_label (lat lng : string) : string :=
  "Latitude: " ++ lat ++ ", Longitude: " ++ lng.

(** [updateFromMarker] up to its first [await]: the coordinate fields and
    the label are written and the reverse-geocoding request is sent. *)
Definition updateFromMarker (lngLat : LngLat) (p : Page) : Page :=
  let lat := toFixed 5 (lat lngLat) in
  let lng := toFixed 5 (lng lngLat) in
  fetch (ReverseGeocode lng lat)
    (set_value "coords" (coords_label lat lng)
      (set_value "longitude" lng
        (set_value "latitude" lat p))).

(** [topResult.context?.find(c => c.id.startsWith(kind))?.text || ''] *)
Definition context_text (kind : string) (top : Feature) : string :=
  match context top with
  | Some cs =>
      match List.find (fun c => String.prefix kind (ctx_id c)) cs with
      | Some c => ctx_text c
      | None => ""
      end
  | None => ""
  end.

(** The rest of [updateFromMarker], run when the request settles. *)
Definition updateFromMarker_response (r : Response) (p : Page) : Page :=
  match r with
  | Json (Some (topResult :: _)) =>
      let pincode := context_text "postcode" topResult in
      let district := context_text "district" topResult in
      let city := context_text "place" topResult in
      let state := context_text "region" topResult in
      set_value "town" city
        (set_value "district" district
          (set_state state
            (set_value "pincode" pincode
              (set_value "address" (place_name topResult) p))))
  | Json _ => p
  | NetworkError e | ParseError e =>
      console_error ("Reverse geocoding failed: " ++ e) p
  end.

(** The guard of [updateMarkerFromInputs]: both fields parse to numbers and
    lie in the valid ranges. *)
Definition valid_coordinate (lat lng : number) : bool :=
  negb (isNaN lat) && negb (isNaN lng)
  && geb lat (opp (of_Z 90)) && leb lat (of_Z 90)
  && geb lng (opp (of_Z 180)) && leb lng (of_Z 180).

Definition updateMarkerFromInputs (p : Page) : Page :=
  let lat := parseFloat (value "latitude" p) in
  let lng := parseFloat (value "longitude" p) in
  if valid_coordinate lat lng then
    let lngLat := {| lng := lng; lat := lat |} in
    set_debouncedUpdateFromMarker
      (Debounce.call (now p) lngLat (debouncedUpdateFromMarker p))
      (set_value "coords" (coords_label (toFixed 5 lat) (toFixed 5 lng))
        (set_marker lngLat p))
  else p.

(** What the browser answers to the geolocation button. *)
Inductive Geolocation :=
| GeoUnsupported
| GeoDenied
| GeoPosition (longitude latitude : number).

Definition geolocation_click (g : Geolocation) (p : Page) : Page :=
  match g with
  | GeoPosition longitude latitude =>
      let lngLat := {| lng := longitude; lat := latitude |} in
      updateFromMarker lngLat (updateTo3DView lngLat (set_marker lngLat p))
  | GeoDenied => alert "Geolocation not available or permission denied." p
  | GeoUnsupported => alert "Geolocation is not supported by your browser." p
  end.

(** The function wrapped by [debouncedAddressSearch], up to its [await]. *)
Definition addressSearch (input : string) (p : Page) : Page :=
  if (String.length input <? 3)%nat then set_suggestionsHidden true p
  else fetch (ForwardGeocode input) p.

(** The rest of the search function, run when the request settles. *)
Definition addressSearch_response (r : Response) (p : Page) : Page :=
  match r with
  | Json (Some (f :: fs)) =>
      set_suggestions (f :: fs) (set_suggestionsHidden false p)
  | Json _ => set_suggestionsHidden true (set_suggestions [] p)
  | NetworkError e | ParseError e =>
      console_error ("Address search failed: " ++ e) p
  end.

(** The [onclick] of a suggestion. *)
Definition suggestion_click (place : Feature) (p : Page) : Page :=
  let lngLat := place_center place in
  set_suggestionsHidden true
    (updateFromMarker lngLat (updateTo3DView lngLat (set_marker lngLat p))).

(** ** Section navigation *)

Definition nextSection (p : Page) : Page :=
  let lat := value "latitude" p in
  let lng := value "longitude" p in
  if (String.eqb lat "" || String.eqb lng "")%bool then
    alert "Please provide valid coordinates before proceeding." p
  else set_dataActive true (set_locationActive false p).

Definition previousSection (p : Page) : Page :=
  set_locationActive true (set_dataActive false p).

(** ** Submission *)

Record Location := {
  latitude : string; longitude : string; address : string;
  pincode : string; state : string; district : string; town : string
}.

Record BasicDetails := {
  fullName : string; contactNumber : string; householdSize : string
}.

Record PropertyDetails := {
  propertyType : string; roofType : string; rooftopArea : string;
  openSpaceArea : string; budgetPreference : string; intendedUse : string;
  storageMonths : string
}.

(** The [formData] object, without its [timestamp], which nothing reads. *)
Record FormData := {
  location : Location;
  basicDetails : BasicDetails;
  propertyDetails : PropertyDetails;
  formWaterSources : list string
}.

(** [document.querySelector('input[name=...]:checked')?.value || fallback] *)
Definition checked_radio (name fallback : string) (p : Page) : string :=
  match radios p !! name with
  | Some v => if String.eqb v "" then fallback else v
  | None => fallback
  end.

Definition collect (p : Page) : FormData := {|
  location := {|
    latitude := value "latitude" p;
    longitude := value "longitude" p;
    address := value "address" p;
    pincode := value "pincode" p;
    state := value "state" p;
    district := value "district" p;
    town := value "town" p |};
  basicDetails := {|
    fullName := value "fullName" p;
    contactNumber := value "contactNumber" p;
    householdSize := value "householdSize" p |};
  propertyDetails := {|
    propertyType := checked_radio "propertyType" "Residential" p;
    roofType := checked_radio "roofType" "mixed" p;
    rooftopArea := value "rooftopArea" p;
    openSpaceArea := value "openSpaceArea" p;
    budgetPreference := value "budgetRange" p;
    intendedUse := value "intendedUse" p;
    storageMonths := value "storageMonths" p |};
  formWaterSources := waterSources p
|}.

Definition requiredFields (d : FormData) : list (string * string) := [
  (latitude (location d), "Latitude");
  (longitude (location d), "Longitude");
  (fullName (basicDetails d), "Full Name");
  (rooftopArea (propertyDetails d), "Rooftop Area");
  (openSpaceArea (propertyDetails d), "Open Space Area") ].

(** The first required field that is falsy, that is, the empty string. *)
Definition first_missing (d : FormData) : option string :=
  snd <$> List.find (fun req => String.eqb (fst req) "") (requiredFields d).

(** The names every object literal inherits from [Object.prototype]. *)
Definition object_prototype : list string := [
  "constructor"; "hasOwnProperty"; "isPrototypeOf"; "propertyIsEnumerable";
  "toLocaleString"; "toString"; "valueOf"; "__proto__";
  "__defineGetter__"; "__defineSetter__"; "__lookupGetter__";
  "__lookupSetter__" ].

(** [obj[key]] on an object literal with numeric fields [own]: an own
    field, else an inherited member, else [undefined]. *)
Definition get (own : gmap string number) (key : string) : option Value :=
  match own !! key with
  | Some x => Some (VNumber x)
  | None =>
      if bool_decide (key ∈ object_prototype) then Some (VInherited key)
      else None
  end.

(** [{'none': 0, 'small': 10, 'medium': 60, 'large': 150}] *)
Definition open_space_buckets : gmap string number :=
  <["none" := of_Z 0]> (<["small" := of_Z 10]>
    (<["medium" := of_Z 60]> (<["large" := of_Z 150]> ∅))).

(** [open_space_buckets[category] || 0] *)
Definition open_space_area (category : string) : Value :=
  match get open_space_buckets category with
  | Some (VNumber x) => VNumber (or_else x (of_Z 0))
  | Some v => v
  | None => VNumber (of_Z 0)
  end.

(** [parseInt((householdSize || "0").split('-')[0]) || 0] *)
Definition household_size (householdSize : string) : number :=
  let text := if String.eqb householdSize "" then "0" else householdSize in
  let first := match split "-" text with
               | w :: _ => parseInt w
               | [] => NaN
               end in
  or_else first (of_Z 0).

(** The literal [0.092903]. *)
Definition sqft_to_sqm : number := of_decimal false 92903 (-6).

(** [(parseFloat(rooftopArea || 0) * 0.092903).toFixed(2)] *)
Definition rooftop_area (rooftopArea : string) : string :=
  let text := if String.eqb rooftopArea "" then "0" else rooftopArea in
  toFixed 2 (mul (parseFloat text) sqft_to_sqm).

Definition dataToSubmit (d : FormData) : list (string * Value) := [
  ("name", VString (fullName (basicDetails d)));
  ("location_name", VString (address (location d)));
  ("user_lat", VString (latitude (location d)));
  ("user_lon", VString (longitude (location d)));
  ("roof_type", VString (roofType (propertyDetails d)));
  ("household_size", VNumber (household_size (householdSize (basicDetails d))));
  ("rooftop_area", VString (rooftop_area (rooftopArea (propertyDetails d))));
  ("open_space_area", open_space_area (openSpaceArea (propertyDetails d)));
  ("property_type", VString (propertyType (propertyDetails d)));
  ("existing_water_sources", VString (join "," (formWaterSources d)));
  ("budget_preference", VString (budgetPreference (propertyDetails d)));
  ("intended_use", VString (intendedUse (propertyDetails d))) ].

Definition quote : string := String (ascii_of_nat 34) "".

Definition processing_label : string :=
  "<i class=" ++ quote ++ "fas fa-spinner fa-spin mr-2" ++ quote
    ++ "></i>Processing...".

(** The hidden form built from [dataToSubmit]: one hidden input for each own
    key, in the order of the literal. *)
Definition hidden_form (d : FormData) : Form :=
  {| method := "POST"; action := "/submit_form"; inputs := dataToSubmit d |}.

Definition submitData (p : Page) : Page :=
  let formData := collect p in
  match first_missing formData with
  | Some name => alert ("Please provide " ++ name) p
  | None =>
      set_forms (forms p ++ [hidden_form formData])
        (set_submitBtn (processing_label, true) p)
  end.

(** ** Events *)

Inductive CoordField := Latitude | Longitude.

Definition field_id (f : CoordField) : string :=
  match f with Latitude => "latitude" | Longitude => "longitude" end.

Inductive Event :=
| MapClick (lngLat : LngLat)
| MarkerDragEnd (lngLat : LngLat)
| CoordInput (f : CoordField) (text : string)
| GeolocationClick (g : Geolocation)
| AddressInput (text : string)
| SuggestionClick (i : nat)
| GeocodeResponse (r : Response)
| SearchResponse (r : Response)
| NextSection
| PreviousSection
| SubmitData
| Elapse (dt : N).

(** The timer of [debouncedUpdateFromMarker] runs [updateFromMarker]. *)
Definition fire_geocode (p : Page) : Page :=
  match Debounce.due (now p) (debouncedUpdateFromMarker p) with
  | Some (_, lngLat) =>
      updateFromMarker lngLat
        (set_debouncedUpdateFromMarker
           (Debounce.fired (debouncedUpdateFromMarker p)) p)
  | None => p
  end.

(** The timer of [debouncedAddressSearch] runs the search function. *)
Definition fire_search (p : Page) : Page :=
  match Debounce.due (now p) (debouncedAddressSearch p) with
  | Some (_, input) =>
      addressSearch input
        (set_debouncedAddressSearch
           (Debounce.fired (debouncedAddressSearch p)) p)
  | None => p
  end.

(** Timers that are due run in the order of their deadlines; with equal
    deadlines the geocoding timer, set 200ms before the other, runs first. *)
Definition run_timers (p : Page) : Page :=
  match Debounce.due (now p) (debouncedUpdateFromMarker p),
        Debounce.due (now p) (debouncedAddressSearch p) with
  | Some (tg, _), Some (ts, _) =>
      if (tg <=? ts)%N then fire_search (fire_geocode p)
      else fire_geocode (fire_search p)
  | _, _ => fire_search (fire_geocode p)
  end.

Definition step (e : Event) (p : Page) : Page :=
  match e with
  | MapClick lngLat =>
      updateFromMarker lngLat (updateTo3DView lngLat (set_marker lngLat p))
  | MarkerDragEnd lngLat =>
      (* the drag has left the marker at [lngLat] *)
      let p := set_marker lngLat p in
      let lngLat := marker p in
      updateFromMarker lngLat (updateTo3DView lngLat p)
  | CoordInput f text =>
      updateMarkerFromInputs (set_value (field_id f) text p)
  | GeolocationClick g => geolocation_click g p
  | AddressInput text =>
      let p := set_value "address" text p in
      set_debouncedAddressSearch
        (Debounce.call (now p) text (debouncedAddressSearch p)) p
  | SuggestionClick i =>
      match suggestions p !! i with
      | Some place => suggestion_click place p
      | None => p
      end
  | GeocodeResponse r => updateFromMarker_response r p
  | SearchResponse r => addressSearch_response r p
  | NextSection => nextSection p
  | PreviousSection => previousSection p
  | SubmitData => submitData p
  | Elapse dt => run_timers (set_now (now p + dt)%N p)
  end.

Definition run (es : list Event) (p : Page) : Page :=
  fold_left (fun q e => step e q) es p.

(** The page as the script leaves it after loading, given what the HTML
    put in the drop-down and which boxes and radio buttons are checked. *)
Definition loaded (htmlStateOptions : list string)
    (radios : gmap string string) (waterSources : list string) : Page := {|
  values := ∅;
  stateOptions := htmlStateOptions ++ indianStates;
  radios := radios;
  waterSources := waterSources;
  marker := {| lng := of_decimal false 789629 (-4);
               lat := of_decimal false 205937 (-4) |};
  camera := {| center := {| lng := of_decimal false 789629 (-4);
                            lat := of_decimal false 205937 (-4) |};
               zoom := 5; pitch := 0; bearing := 0 |};
  suggestions := [];
  suggestionsHidden := true;
  locationActive := true;
  dataActive := false;
  submitBtn := ("", false);
  alerts := [];
  console := [];
  requests := [];
  forms := [];
  now := 0%N;
  debouncedUpdateFromMarker := Debounce.debounce 500;
  debouncedAddressSearch := Debounce.debounce 300
|}.

Definition reverse_requests (p : Page) : list Request :=
  List.filter (fun r => match r with ReverseGeocode _ _ => true | _ => false end)
    (requests p).

Definition forward_requests (p : Page) : list Request :=
  List.filter (fun r => match r with ForwardGeocode _ => true | _ => false end)
    (requests p).

(** The coordinate an event sets, if it sets one: the clicked or dragged-to
    position, the position found by the browser, the centre of the chosen
    suggestion, or what the two fields read once the typed text is in, when
    that passes the range guard. *)
Definition coordinate_set (e : Event) (p : Page) : option LngLat :=
  match e with
  | MapClick c | MarkerDragEnd c => Some c
  | GeolocationClick (GeoPosition longitude latitude) =>
      Some {| lng := longitude; lat := latitude |}
  | SuggestionClick i => place_center <$> suggestions p !! i
  | CoordInput f text =>
      let q := set_value (field_id f) text p in
      let c := {| lng := parseFloat (value "longitude" q);
                  lat := parseFloat (value "latitude" q) |} in
      if valid_coordinate (lat c) (lng c) then Some c else None
  | _ => None
  end.

Definition typed (e : Event) : bool :=
  match e with CoordInput _ _ => true | _ => false end.

(** Both debounced closures carry the delays they were created with. *)
Definition well_formed (p : Page) : Prop :=
  Debounce.delay (debouncedUpdateFromMarker p) = 500%N
  ∧ Debounce.delay (debouncedAddressSearch p) = 300%N.

(** An example page: the user has entered a location and the property
    details of a household. *)
Definition example_page : Page :=
  set_values
    (<["latitude" := "12.97160"]> (<["longitude" := "77.59460"]>
      (<["address" := "MG Road, Bengaluru"]> (<["fullName" := "Asha Rao"]>
        (<["householdSize" := "2-4"]> (<["rooftopArea" := "100"]>
          (<["openSpaceArea" := "medium"]> (<["budgetRange" := "low"]>
            (<["intendedUse" := "domestic"]> ∅)))))))))
    (loaded ["Select State"] (<["roofType" := "concrete"]> ∅)
       ["borewell"; "municipal"]).

(** ** Notions used to state the properties *)

(** The field set of the payload, as the endpoint expects it. *)
Definition payload_fields : list string := [
  "name"; "location_name"; "user_lat"; "user_lon"; "roof_type";
  "household_size"; "rooftop_area"; "open_space_area"; "property_type";
  "existing_water_sources"; "budget_preference"; "intended_use" ].

(** The part of [s] before the first occurrence of [sep]; all of [s] when
    there is none. *)
Fixpoint before (sep : ascii) (s : string) : string :=
  match s with
  | EmptyString => ""
  | String c r => if Ascii.eqb c sep then "" else String c (before sep r)
  end.

(** The character [c] occurs in [s]. *)
Fixpoint occurs (c : ascii) (s : string) : bool :=
  match s with
  | EmptyString => false
  | String a r => Ascii.eqb a c || occurs c r
  end.

(** Neither NaN nor an infinity. *)
Definition is_finite (x : number) : bool :=
  match x with
  | S754_finite _ _ _ | S754_zero _ => true
  | _ => false
  end.

(** The magnitude of [x] is below [10^21], where [toFixed] starts to
    answer in exponent notation. *)
Definition below_1e21 (x : number) : bool :=
  fst (magnitude x) <? 10 ^ 21 * snd (magnitude x).

(** [str] is the sign of [x] and the digits of [n] with [f] decimals, for
    the integer [n] with [n / 10^f] nearest to the magnitude [num / den] of
    [x]: the distance is at most half of [1 / 10^f], and of two nearest
    integers [n] is the larger. *)
Definition rounds_to (f : nat) (x : number) (str : string) : Prop :=
  ∃ n : Z,
    0 ≤ n
    ∧ str = ((if negative x then "-" else "") ++ fixed_digits f n)%string
    ∧ - snd (magnitude x)
        < 2 * (n * snd (magnitude x) - fst (magnitude x) * 10 ^ Z.of_nat f)
        ≤ snd (magnitude x).

(** An example of a feature as the geocoding service returns it. *)
Definition example_feature : Feature := {|
  place_name := "Cubbon Park, Bengaluru, Karnataka 560001, India";
  context := Some [
    {| ctx_id := "postcode.1"; ctx_text := "560001" |};
    {| ctx_id := "place.22"; ctx_text := "Bengaluru" |};
    {| ctx_id := "region.7"; ctx_text := "Karnataka" |};
    {| ctx_id := "country.3"; ctx_text := "India" |} ];
  place_center := {| lng := of_decimal false 775946 (-4);
                     lat := of_decimal false 129716 (-4) |}
|}.

(** The claim as the specification words it: whatever the source, the two
    fields show the rounded coordinate and the marker stands on it as soon
    as the coordinate is set. *)
Definition fields_follow_every_source : Prop :=
  ∀ (e : Event) (p : Page) (c : LngLat),
    coordinate_set e p = Some c →
    valid_coordinate (lat c) (lng c) = true →
    value "latitude" (step e p) = toFixed 5 (lat c)
    ∧ value "longitude" (step e p) = toFixed 5 (lng c)
    ∧ marker (step e p) = c.

(** The claim as the specification words it, for two coordinate changes
    with no time between them: whatever their sources, at most one
    reverse-geocoding request is sent. *)
Definition debounced_for_every_source : Prop :=
  ∀ (p : Page) (e1 e2 : Event) (c1 c2 : LngLat),
    well_formed p →
    coordinate_set e1 p = Some c1 →
    coordinate_set e2 (step e1 p) = Some c2 →
    (length (reverse_requests (run [e1; e2] p))
     ≤ length (reverse_requests p) + 1)%nat.

(** One keystroke of a burst: the time since the event before it, the field
    typed in, and the text the field then holds. *)
Definition Keystroke : Type := N * CoordField * string.

Definition keystroke_events (k : Keystroke) : list Event :=
  let '(gap, f, text) := k in [Elapse gap; CoordInput f text].

(** Every keystroke comes less than 500ms after the event before it and
    leaves a pair that passes the range guard. *)
Fixpoint burst (p : Page) (ks : list Keystroke) : bool :=
  match ks with
  | [] => true
  | (gap, f, text) :: ks' =>
      let q := step (Elapse gap) p in
      (gap <? 500)%N
      && bool_decide (is_Some (coordinate_set (CoordInput f text) q))
      && burst (step (CoordInput f text) q) ks'
  end.

(** The state between two keystrokes: the timer is set, 500ms ahead of the
    last keystroke, for the pair the fields read; [sent] are the reverse
    requests so far. *)
Definition pending_for (sent : list Request) (since : N) (q : Page) : Prop :=
  well_formed q
  ∧ reverse_requests q = sent
  ∧ now q = since
  ∧ Debounce.timeout (debouncedUpdateFromMarker q)
    = Some ((since + 500)%N,
            {| lng := parseFloat (value "longitude" q);
               lat := parseFloat (value "latitude" q) |}).

(** ** Notions used to state the validation and the conversion *)

(** The submission is refused with the alert [msg]: the alert is raised,
    and no form is posted, no request sent and the submit button left
    alone. *)
Definition submission_blocked (msg : string) (p : Page) : Prop :=
  alerts (submitData p) = (alerts p ++ [msg])%list
  ∧ forms (submitData p) = forms p
  ∧ submitBtn (submitData p) = submitBtn p
  ∧ requests (submitData p) = requests p.


(** ** Notions used for the properties of the event handlers *)

(** A forward-geocoding request carries a query of at least 3 characters. *)
Definition query_long_enough (r : Request) : bool :=
  match r with
  | ForwardGeocode q => (3 <=? String.length q)%nat
  | ReverseGeocode _ _ => true
  end.


(** Exactly one of the two sections is active. *)
Definition one_section_active (p : Page) : Prop :=
  locationActive p = negb (dataActive p).


(** One keystroke in the address field: the time since the event before it
    and the text the field then holds. *)
Definition address_events (k : N * string) : list Event :=
  let '(gap, text) := k in [Elapse gap; AddressInput text].

(** Every keystroke comes less than 300ms after the event before it. *)
Definition quick (ks : list (N * string)) : bool :=
  forallb (λ k, (fst k <? 300)%N) ks.

(** The state between two keystrokes in the address field: the search timer
    is set, 300ms ahead of the last keystroke, for the text typed last;
    [sent] are the forward requests so far. *)
Definition search_pending_for (sent : list Request) (since : N)
    (text : string) (q : Page) : Prop :=
  well_formed q
  ∧ forward_requests q = sent
  ∧ now q = since
  ∧ Debounce.timeout (debouncedAddressSearch q) = Some ((since + 300)%N, text).

(** The request the search function sends for [text], if any. *)
Definition search_request (text : string) : list Request :=
  if (String.length text <? 3)%nat then [] else [ForwardGeocode text].


(** The sign of a number, also of a zero or an infinity. *)
Definition sign_bit (x : number) : bool :=
  match x with
  | S754_zero s | S754_infinity s | S754_finite s _ _ => s
  | S754_nan => false
  end.


(** ** Number to string, and the area calculator *)

(** The decimal exponent [n] of a fraction [num / den] below 1 and above 0:
    [10^(n-1) <= num / den < 10^n]. *)
Fixpoint exponent_below_one (fuel : nat) (num den n : Z) : Z :=
  match fuel with
  | O => n
  | S fuel' =>
      if den <=? num * 10 then n
      else exponent_below_one fuel' (num * 10) den (n - 1)
  end.

Definition decimal_exponent (num den : Z) : Z :=
  if den <=? num then Z.of_nat (String.length (of_N (Z.to_N (num / den))))
  else exponent_below_one (S (Z.to_nat (Z.log2 den))) num den 0.

(** The [k] digits [s] nearest to [num / den] scaled by [10^(k-n)], if they
    identify [x]; with the exponent [n], one more when [s] rounds up to
    [10^k]. *)
Definition digits_candidate (x : number) (num den n : Z) (k : nat)
    : option (Z * Z) :=
  let e10 := n - Z.of_nat k in
  let '(a, b) := if 0 <=? e10 then (num, den * 10 ^ e10)
                 else (num * 10 ^ (- e10), den) in
  let lo := a / b in
  let hi := lo + 1 in
  let ok s := SFeqb (of_decimal false (Z.to_N s) e10) (SFabs x) in
  let norm s :=
    if s =? 10 ^ Z.of_nat k then (10 ^ Z.of_nat (k - 1), n + 1) else (s, n) in
  match ok lo, ok hi with
  | true, true =>
      let below := a - lo * b in
      let above := hi * b - a in
      Some (norm (if below <? above then lo
                  else if above <? below then hi
                  else if Z.even lo then lo else hi))
  | true, false => Some (norm lo)
  | false, true => Some (norm hi)
  | false, false => None
  end.

(** The fewest digits that identify [x], tried from [k] digits on; 17
    digits identify every binary64 number. *)
Fixpoint fewest_digits (x : number) (num den n : Z) (k fuel : nat) : Z * Z :=
  match fuel with
  | O => (num / den, n)
  | S fuel' =>
      match digits_candidate x num den n k with
      | Some r => r
      | None => fewest_digits x num den n (S k) fuel'
      end
  end.

(** Number::toString, in base 10. *)
Definition toString (x : number) : string :=
  match x with
  | S754_nan => "NaN"
  | S754_zero _ => "0"
  | S754_infinity s => if s then "-Infinity" else "Infinity"
  | S754_finite sg _ _ =>
      let '(num, den) := magnitude x in
      let '(s, n) :=
        fewest_digits x num den (decimal_exponent num den) 1 17 in
      let d := of_N (Z.to_N s) in
      let k := Z.of_nat (String.length d) in
      let body :=
        if (k <=? n) && (n <=? 21) then d ++ zeros (Z.to_nat (n - k))
        else if (0 <? n) && (n <=? 21) then
          substring 0 (Z.to_nat n) d ++ "."
            ++ substring (Z.to_nat n) (Z.to_nat (k - n)) d
        else if (-6 <? n) && (n <=? 0) then "0." ++ zeros (Z.to_nat (- n)) ++ d
        else
          let e := n - 1 in
          let mantissa :=
            if k =? 1 then d
            else substring 0 1 d ++ "."
                   ++ substring 1 (String.length d - 1) d in
          mantissa ++ "e" ++ (if e <? 0 then "-" else "+")
            ++ of_N (Z.to_N (Z.abs e)) in
      ((if sg then "-" else "") ++ body)%string
  end.

(** [x > 0] *)
Definition is_positive (x : number) : bool := SFltb (S754_zero false) x.

(** [parseFloat(document.getElementById(id).value) || 0] *)
Definition dimension (id : string) (p : Page) : number :=
  or_else (parseFloat (value id p)) (of_Z 0).

(** [window.calculateArea] *)
Definition calculateArea (p : Page) : Page :=
  let len := dimension "length" p in
  let wid := dimension "width" p in
  let area := mul len wid in
  if is_positive area then set_value "rooftopArea" (toString area) p else p.

(** The [input] listener of [#length] and of [#width], run once the typed
    text is in the field [id]. *)
Definition dimension_input (id text : string) (p : Page) : Page :=
  let p := set_value id text p in
  let len := dimension "length" p in
  let wid := dimension "width" p in
  if is_positive len && is_positive wid
  then set_value "rooftopArea" (toString (mul len wid)) p
  else p.


(** ** The sign-in page

    The second script drives the sign-in page: the mobile-number and OTP
    panels, the consent boxes and the step to the assessment. It looks
    every element up with [?.] or checks it for [null], so an element may
    be missing from the page. *)

Module Login.

Record Element := {
  classes : gset string;
  el_value : string;
  textContent : string;
  checked : bool;
  disabled : bool
}.

Record State := {
  (** the elements of the page, by id *)
  elements : gmap string Element;
  (** the values of the text inputs inside [#otpVerification], in order *)
  otpInputs : list string;
  alerts : list string;
  log : list string;
  (** [window.location.href], once the script has set it *)
  href : option string;
  (** when each pending [showAwarenessSection] timer is due *)
  timers : list N;
  now : N
}.

Definition set_elements v s := Build_State v (otpInputs s) (alerts s) (log s) (href s) (timers s) (now s).
Definition set_alerts v s := Build_State (elements s) (otpInputs s) v (log s) (href s) (timers s) (now s).
Definition set_log v s := Build_State (elements s) (otpInputs s) (alerts s) v (href s) (timers s) (now s).
Definition set_href v s := Build_State (elements s) (otpInputs s) (alerts s) (log s) v (timers s) (now s).
Definition set_timers v s := Build_State (elements s) (otpInputs s) (alerts s) (log s) (href s) v (now s).
Definition set_now v s := Build_State (elements s) (otpInputs s) (alerts s) (log s) (href s) (timers s) v.

Definition with_classes (c : gset string) (e : Element) : Element :=
  Build_Element c (el_value e) (textContent e) (checked e) (disabled e).
Definition with_textContent (t : string) (e : Element) : Element :=
  Build_Element (classes e) (el_value e) t (checked e) (disabled e).
Definition with_disabled (d : bool) (e : Element) : Element :=
  Build_Element (classes e) (el_value e) (textContent e) (checked e) d.
Definition with_checked (c : bool) (e : Element) : Element :=
  Build_Element (classes e) (el_value e) (textContent e) c (disabled e).

Definition add_class (c : string) (e : Element) : Element :=
  with_classes ({[c]} ∪ classes e) e.
Definition remove_class (c : string) (e : Element) : Element :=
  with_classes (classes e ∖ {[c]}) e.

(** [document.getElementById(id)?.classList.add(c)] *)
Definition classList_add (id c : string) (s : State) : State :=
  set_elements (alter (add_class c) id (elements s)) s.

(** [document.getElementById(id)?.classList.remove(c)] *)
Definition classList_remove (id c : string) (s : State) : State :=
  set_elements (alter (remove_class c) id (elements s)) s.

Definition alert (msg : string) (s : State) : State :=
  set_alerts (alerts s ++ [msg]) s.

Definition console_log (msg : string) (s : State) : State :=
  set_log (log s ++ [msg]) s.

Definition showAwarenessSection (s : State) : State :=
  classList_add "step2" "active"
    (classList_add "awarenessSection" "active"
      (classList_remove "loginSection" "active" s)).

Definition goBack (s : State) : State :=
  classList_remove "step2" "active"
    (classList_add "loginSection" "active"
      (classList_remove "awarenessSection" "active" s)).

(** [setTimeout(() => showAwarenessSection(), 1000)] *)
Definition handleGoogleLogin (s : State) : State :=
  set_timers (timers s ++ [(now s + 1000)%N])
    (console_log "Google login initiated" s).

Definition showMobileLogin (s : State) : State :=
  classList_remove "mobileLoginForm" "hidden" s.

Definition sendOTP (s : State) : State :=
  match elements s !! "mobileNumber" with
  | None => s
  | Some mobileNumberInput =>
      let mobileNumber := el_value mobileNumberInput in
      if (10 <=? String.length mobileNumber)%nat then
        classList_remove "otpVerification" "hidden"
          (classList_add "mobileLoginForm" "hidden"
            (set_elements
               (alter (with_textContent mobileNumber) "sentNumber"
                  (elements s)) s))
      else alert "Please enter a valid mobile number" s
  end.

Definition verifyOTP (s : State) : State :=
  let otp := join "" (otpInputs s) in
  if (String.length otp =? 6)%nat then
    showAwarenessSection (console_log ("OTP verified: " ++ otp) s)
  else alert "Please enter complete OTP" s.

Definition proceedAsGuest (s : State) : State :=
  showAwarenessSection (console_log "Proceeding as guest" s).

Definition validateConsent (s : State) : State :=
  match elements s !! "dataConsent", elements s !! "termsConsent",
        elements s !! "proceedBtn" with
  | Some dataConsent, Some termsConsent, Some _ =>
      if checked dataConsent && checked termsConsent then
        classList_remove "proceedBtn" "opacity-50"
          (set_elements (alter (with_disabled false) "proceedBtn" (elements s))
             s)
      else
        classList_add "proceedBtn" "opacity-50"
          (set_elements (alter (with_disabled true) "proceedBtn" (elements s))
             s)
  | _, _, _ => s
  end.

(** The [change] listener of a consent box, run once the browser has set
    the box. *)
Definition consent_change (id : string) (now_checked : bool) (s : State)
    : State :=
  validateConsent
    (set_elements (alter (with_checked now_checked) id (elements s)) s).

Definition proceedToAssessment (s : State) : State :=
  set_href (Some "location-input.html")
    (classList_add "step3" "active"
      (console_log "Proceeding to assessment" s)).

(** Time passes: every timer that is due runs [showAwarenessSection]. *)
Definition elapse (dt : N) (s : State) : State :=
  let s := set_now (now s + dt)%N s in
  let due := List.filter (λ t, (t <=? now s)%N) (timers s) in
  let pending := List.filter (λ t, negb (t <=? now s)%N) (timers s) in
  fold_left (λ r _, showAwarenessSection r) due (set_timers pending s).

(** Whether the element [id], if it is on the page, carries the class. *)
Definition has_class (id c : string) (s : State) : option bool :=
  (λ e, bool_decide (c ∈ classes e)) <$> elements s !! id.

(** The number of characters in the OTP boxes. *)
Definition otp_characters (s : State) : nat :=
  sum_list (String.length <$> otpInputs s).

(** The awareness section is showing in [after], on the page that [before]
    had: of the sign-in section, the awareness section and the second step
    marker, those on the page are, in this order, no longer active, active
    and active. *)
Definition awareness_shown (before after : State) : Prop :=
  has_class "loginSection" "active" after
  = (λ _, false) <$> elements before !! "loginSection"
  ∧ has_class "awarenessSection" "active" after
    = (λ _, true) <$> elements before !! "awarenessSection"
  ∧ has_class "step2" "active" after
    = (λ _, true) <$> elements before !! "step2".

(** The page once the user has typed [boxes] into the OTP boxes. *)
Definition with_otp (boxes : list string) (s : State) : State :=
  Build_State (elements s) boxes (alerts s) (log s) (href s) (timers s)
    (now s).

(** What [validateConsent] does to the proceed button. *)
Definition consent_button (both : bool) (e : Element) : Element :=
  if both then remove_class "opacity-50" (with_disabled false e)
  else add_class "opacity-50" (with_disabled true e).

Definition plain (cl : gset string) (v : string) : Element :=
  Build_Element cl v "" false false.

(** An example of the page as it is first shown. *)
Definition example_state : State := {|
  elements :=
    <["loginSection" := plain {["active"]} ""]>
    (<["awarenessSection" := plain ∅ ""]>
    (<["step2" := plain ∅ ""]>
    (<["mobileLoginForm" := plain {["hidden"]} ""]>
    (<["otpVerification" := plain {["hidden"]} ""]>
    (<["mobileNumber" := plain ∅ "98765 43210"]>
    (<["sentNumber" := plain ∅ ""]>
    (<["dataConsent" := plain ∅ ""]>
    (<["termsConsent" := plain ∅ ""]>
    (<["proceedBtn" := Build_Element {["opacity-50"]} "" "Proceed" false true]>
       ∅)))))))));
  otpInputs := [""; ""; ""; ""; ""; ""];
  alerts := []; log := []; href := None; timers := []; now := 0
|}.

End Login.


(** ** The map style switch

    The [change] listener of the style switch and the [load] listener of
    the map. The script declares the two style addresses and the current
    style with [const] and [let] inside the [try] block that creates the
    map; the [load] listener is written inside that block, the [change]
    listener after it, in the body of the [DOMContentLoaded] callback.
    Names are resolved by block, as JavaScript does; no other script and
    no element id is taken to define a global with one of these names. *)

Module MapStyle.

Inductive Style := Streets | Satellite.

Definition same_style (a b : Style) : bool :=
  match a, b with
  | Streets, Streets | Satellite, Satellite => true
  | _, _ => false
  end.

(** The blocks in which the listeners are written: the body of the
    [DOMContentLoaded] callback and, inside it, the [try] block of the
    map. *)
Inductive Block := Callback | MapSetup.

(** The block that declares a name, for the names the two listeners
    use. *)
Definition declared (x : string) : option Block :=
  if existsb (String.eqb x)
       ["MAPTILER_API_KEY"; "streetsStyle"; "satelliteStyle"; "currentStyle"]
  then Some MapSetup
  else if existsb (String.eqb x)
            ["map"; "marker"; "formData"; "viewToggle"; "streetsLabel";
             "satelliteLabel"]
  then Some Callback
  else None.

(** Whether code written in the block [b] can use the name [x]: a name of
    the callback is visible in the [try] block, not the other way round. *)
Definition in_scope (x : string) (b : Block) : bool :=
  match declared x, b with
  | Some Callback, _ => true
  | Some MapSetup, MapSetup => true
  | _, _ => false
  end.

Inductive Error := ReferenceError (name : string).

(** Code written in the block [b] reads the variable [x], which holds
    [held]. *)
Definition read {A : Type} (x : string) (b : Block) (held : A) : Error + A :=
  if in_scope x b then inr held else inl (ReferenceError x).

(** The paint of the [3d-buildings] layer. *)
Record Buildings := { color : string; opacity : number }.

Record View := {
  currentStyle : Style;
  (** the styles [map.setStyle] was called with, in order *)
  setStyle_calls : list Style;
  (** the [3d-buildings] layer, when the map has it *)
  buildings : option Buildings;
  (** the classes of the two labels of the switch *)
  satelliteLabel : gset string;
  streetsLabel : gset string;
  (** the exceptions that left a listener, in order *)
  uncaught : list Error;
  (** the first argument of each [console.error], in order *)
  console_errors : list string
}.

(** The listener ends with the exception [e]. *)
Definition throw (e : Error) (v : View) : View :=
  {| currentStyle := currentStyle v;
     setStyle_calls := setStyle_calls v;
     buildings := buildings v;
     satelliteLabel := satelliteLabel v;
     streetsLabel := streetsLabel v;
     uncaught := uncaught v ++ [e];
     console_errors := console_errors v |}.

Definition console_error (msg : string) (v : View) : View :=
  {| currentStyle := currentStyle v;
     setStyle_calls := setStyle_calls v;
     buildings := buildings v;
     satelliteLabel := satelliteLabel v;
     streetsLabel := streetsLabel v;
     uncaught := uncaught v;
     console_errors := console_errors v ++ [msg] |}.

(** [classList.toggle(c, force)] *)
Definition toggle (c : string) (force : bool) (cl : gset string)
    : gset string :=
  if force then {[c]} ∪ cl else cl ∖ {[c]}.

Definition highlight (on : bool) (cl : gset string) : gset string :=
  toggle "text-gray-300" (negb on)
    (toggle "font-semibold" on (toggle "text-white" on cl)).

(** The [change] listener of [#view-toggle]. Its first statement after
    reading the box is [isSatelliteView ? satelliteStyle : streetsStyle],
    which reads one of the two names. *)
Definition view_toggle (isSatelliteView : bool) (v : View) : View :=
  let newStyle :=
    if isSatelliteView then read "satelliteStyle" Callback Satellite
    else read "streetsStyle" Callback Streets in
  match newStyle with
  | inl e => throw e v
  | inr newStyle =>
      match read "currentStyle" Callback (currentStyle v) with
      | inl e => throw e v
      | inr current =>
          let changed := negb (same_style current newStyle) in
          {| currentStyle := if changed then newStyle else currentStyle v;
             setStyle_calls :=
               if changed then setStyle_calls v ++ [newStyle]
               else setStyle_calls v;
             buildings := if changed then None else buildings v;
             satelliteLabel := highlight isSatelliteView (satelliteLabel v);
             streetsLabel := highlight (negb isSatelliteView) (streetsLabel v);
             uncaught := uncaught v;
             console_errors := console_errors v |}
      end
  end.

(** What [map.addLayer] does with the layer: it adds it, it throws, or it
    reports through the [error] event of the map. *)
Inductive AddLayer := Added | Throws | FiresError.

(** The [load] listener of the map. An exception of [addLayer] is caught
    by the listener, an [error] event by the listener of [error]; both
    write to [console.error]. *)
Definition map_load (outcome : AddLayer) (v : View) : View :=
  match read "currentStyle" MapSetup (currentStyle v),
        read "satelliteStyle" MapSetup Satellite with
  | inl e, _ | inr _, inl e => throw e v
  | inr current, inr satellite =>
      let isSatellite := same_style current satellite in
      match buildings v with
      | Some _ => v
      | None =>
          match outcome with
          | Added =>
              {| currentStyle := currentStyle v;
                 setStyle_calls := setStyle_calls v;
                 buildings :=
                   Some {| color :=
                             if isSatellite then "#ffffff" else "#aaaaaa";
                           opacity :=
                             if isSatellite then of_decimal false 7 (-1)
                             else of_decimal false 6 (-1) |};
                 satelliteLabel := satelliteLabel v;
                 streetsLabel := streetsLabel v;
                 uncaught := uncaught v;
                 console_errors := console_errors v |}
          | Throws => console_error "Could not add 3D building layer:" v
          | FiresError => console_error "Map error:" v
          end
      end
  end.

Inductive Event := Change (checked : bool) | Load (outcome : AddLayer).

Definition step (e : Event) (v : View) : View :=
  match e with
  | Change checked => view_toggle checked v
  | Load outcome => map_load outcome v
  end.

Definition run (es : list Event) (v : View) : View :=
  fold_left (λ w e, step e w) es v.

(** The view as the script creates it, given the classes the page gives
    the two labels. *)
Definition initial (satellite streets : gset string) : View := {|
  currentStyle := Satellite;
  setStyle_calls := [];
  buildings := None;
  satelliteLabel := satellite;
  streetsLabel := streets;
  uncaught := [];
  console_errors := []
|}.

(** The name a change of the switch reads first. *)
Definition style_name (checked : bool) : string :=
  if checked then "satelliteStyle" else "streetsStyle".

(** One [ReferenceError] for each change of the switch in [es]. *)
Definition reference_errors (es : list Event) : list Error :=
  omap (λ e, match e with
             | Change checked => Some (ReferenceError (style_name checked))
             | Load _ => None
             end) es.

(** The paint of the buildings over the satellite style. *)
Definition satellite_paint : Buildings :=
  {| color := "#ffffff"; opacity := of_decimal false 7 (-1) |}.

End MapStyle.


(** ** The radio options

    The click listener of the [.radio-option] boxes. Every box holds one
    radio button; a box shows as chosen through its class [selected]. The
    buttons of the boxes are the only inputs of the page with their names,
    and they have one form owner. *)

Module RadioOptions.

Record RadioOption := {
  (** the [name] attribute of the button, when it has one *)
  opt_name : option string;
  opt_value : string;
  selected : bool;
  opt_checked : bool
}.

(** [input.name]: the attribute, or the empty string without it. *)
Definition name_of (o : RadioOption) : string := default "" (opt_name o).

(** Whether the button of [o] matches [input[name="..."]] for [name]. *)
Definition matches (name : string) (o : RadioOption) : bool :=
  match opt_name o with
  | Some n => String.eqb n name
  | None => false
  end.

(** Whether the buttons of [a] and [b] are in one radio group: they have
    the same name, and it is not empty. *)
Definition same_group (a b : RadioOption) : bool :=
  negb (String.eqb (name_of a) "") && String.eqb (name_of a) (name_of b).

(** Whether [name] can stand between the quotes of the selector as it
    is: it has no quote, no backslash, no line break and no null
    character. *)
Definition selector_safe (name : string) : bool :=
  forallb (λ c, negb (existsb (Ascii.eqb c)
                        [ascii_of_nat 34; ascii_of_nat 92; ascii_of_nat 10;
                         ascii_of_nat 12; ascii_of_nat 13; ascii_of_nat 0]))
    (list_ascii_of_string name).

(** A click on the box at position [i]. The boxes of the buttons that
    match the selector built from the name of the clicked button lose
    [selected]; then the clicked box gets it and its button is checked,
    which unchecks the other buttons of its radio group. There is no
    result when there is no box at [i], and when the name is not safe in
    the selector, whose meaning is then another. *)
Definition click (i : nat) (options : list RadioOption)
    : option (list RadioOption) :=
  match options !! i with
  | None => None
  | Some option =>
      let name := name_of option in
      if selector_safe name then
        Some (imap (λ j o,
                {| opt_name := opt_name o; opt_value := opt_value o;
                   selected :=
                     if bool_decide (j = i) then true
                     else if matches name o then false
                     else selected o;
                   opt_checked :=
                     if bool_decide (j = i) then true
                     else if same_group option o then false
                     else opt_checked o |}) options)
      else None
  end.

(** The value of the first checked button with each name, as
    [document.querySelector('input[name=...]:checked')] finds it. *)
Definition checked_values (options : list RadioOption) : gmap string string :=
  foldr (λ o m, match opt_name o with
                | Some n => if opt_checked o then <[n := opt_value o]> m else m
                | None => m
                end)
    ∅ options.

End RadioOptions.

(** * Properties *)

(** ** Reading and writing elements *)

Lemma value_set_value id v p : value id (set_value id v p) = v.
Proof. unfold value, set_value. simpl. by rewrite lookup_insert_eq. Qed.

Lemma value_set_value_ne id id' v p :
  id ≠ id' → value id' (set_value id v p) = value id' p.
Proof.
  intros Hne. unfold value, set_value. simpl. by rewrite lookup_insert_ne.
Qed.

Lemma eqb_empty (s : string) : String.eqb s "" = true ↔ s = "".
Proof. apply String.eqb_eq. Qed.

Lemma eqb_nonempty (s : string) : String.eqb s "" = false ↔ s ≠ "".
Proof. apply String.eqb_neq. Qed.

(** ** Section navigation *)

(** C9. The step from the location section to the data section is refused,
    with an alert and both sections left as they are, when the latitude or
    the longitude field is empty; with both filled in, the location section
    is deactivated and the data section activated. *)
Theorem nextSection_guard (p : Page) :
  (value "latitude" p = "" ∨ value "longitude" p = "" →
     locationActive (nextSection p) = locationActive p
     ∧ dataActive (nextSection p) = dataActive p
     ∧ alerts (nextSection p) =
         (alerts p
            ++ ["Please provide valid coordinates before proceeding."])%list)
  ∧ (value "latitude" p ≠ "" → value "longitude" p ≠ "" →
     locationActive (nextSection p) = false
     ∧ dataActive (nextSection p) = true
     ∧ alerts (nextSection p) = alerts p).
Proof.
  unfold nextSection. split.
  - intros Hempty.
    assert ((String.eqb (value "latitude" p) ""
             || String.eqb (value "longitude" p) "")%bool = true) as ->.
    { apply orb_true_iff. destruct Hempty as [H | H]; [left | right];
        by apply eqb_empty. }
    done.
  - intros Hlat Hlng.
    apply eqb_nonempty in Hlat, Hlng. rewrite Hlat, Hlng. done.
Qed.

Lemma nextSection_guard_witness :
  (locationActive (nextSection (loaded [] ∅ [])) = true
   ∧ dataActive (nextSection (loaded [] ∅ [])) = false
   ∧ alerts (nextSection (loaded [] ∅ [])) =
       ["Please provide valid coordinates before proceeding."])
  ∧ (locationActive (nextSection example_page) = false
     ∧ dataActive (nextSection example_page) = true
     ∧ alerts (nextSection example_page) = []).
Proof.
  split.
  - apply (proj1 (nextSection_guard (loaded [] ∅ []))). left. reflexivity.
  - apply (proj2 (nextSection_guard example_page)); vm_compute; discriminate.
Defined.

(** ** Validation at submission *)

Lemma first_missing_none (p : Page) :
  value "latitude" p ≠ "" → value "longitude" p ≠ "" →
  value "fullName" p ≠ "" → value "rooftopArea" p ≠ "" →
  value "openSpaceArea" p ≠ "" →
  first_missing (collect p) = None.
Proof.
  intros H1 H2 H3 H4 H5. unfold first_missing, requiredFields, collect. simpl.
  apply eqb_nonempty in H1, H2, H3, H4, H5.
  by rewrite H1, H2, H3, H4, H5.
Qed.

(** C3. When one of latitude, longitude, full name, rooftop area and
    open-space area is empty, [submitData] posts no form, leaves the submit
    button alone and raises one alert, which names the first empty field in
    that order: [Please provide Latitude], [Please provide Longitude],
    [Please provide Full Name], [Please provide Rooftop Area] or
    [Please provide Open Space Area]. When all five are filled in, it raises
    no alert and submits the hidden form. *)
Theorem submitData_validation (p : Page) :
  (value "latitude" p = "" →
     submission_blocked "Please provide Latitude" p)
  ∧ (value "latitude" p ≠ "" → value "longitude" p = "" →
     submission_blocked "Please provide Longitude" p)
  ∧ (value "latitude" p ≠ "" → value "longitude" p ≠ "" →
     value "fullName" p = "" →
     submission_blocked "Please provide Full Name" p)
  ∧ (value "latitude" p ≠ "" → value "longitude" p ≠ "" →
     value "fullName" p ≠ "" → value "rooftopArea" p = "" →
     submission_blocked "Please provide Rooftop Area" p)
  ∧ (value "latitude" p ≠ "" → value "longitude" p ≠ "" →
     value "fullName" p ≠ "" → value "rooftopArea" p ≠ "" →
     value "openSpaceArea" p = "" →
     submission_blocked "Please provide Open Space Area" p)
  ∧ (value "latitude" p ≠ "" → value "longitude" p ≠ "" →
     value "fullName" p ≠ "" → value "rooftopArea" p ≠ "" →
     value "openSpaceArea" p ≠ "" →
       forms (submitData p) = (forms p ++ [hidden_form (collect p)])%list
       ∧ alerts (submitData p) = alerts p).
Proof.
  unfold submission_blocked, submitData, first_missing, requiredFields,
    collect.
  cbn [location basicDetails propertyDetails latitude longitude fullName
       rooftopArea openSpaceArea List.find fst snd].
  repeat split; intros;
    repeat match goal with
           | H : value _ p ≠ "" |- _ => apply eqb_nonempty in H; rewrite H
           | H : value _ p = "" |- _ => rewrite H; clear H
           end;
    reflexivity.
Qed.

Lemma submitData_validation_witness :
  submission_blocked "Please provide Latitude"
    (set_value "latitude" "" (set_value "fullName" "" example_page))
  ∧ submission_blocked "Please provide Longitude"
      (set_value "longitude" "" (set_value "openSpaceArea" "" example_page))
  ∧ submission_blocked "Please provide Full Name"
      (set_value "fullName" "" (set_value "rooftopArea" "" example_page))
  ∧ submission_blocked "Please provide Rooftop Area"
      (set_value "rooftopArea" "" (set_value "openSpaceArea" "" example_page))
  ∧ submission_blocked "Please provide Open Space Area"
      (set_value "openSpaceArea" "" example_page)
  ∧ forms (submitData example_page) = [hidden_form (collect example_page)]
  ∧ alerts (submitData example_page) = [].
Proof.
  split; [| split; [| split; [| split; [| split]]]].
  - apply (submitData_validation
             (set_value "latitude" "" (set_value "fullName" "" example_page))).
    reflexivity.
  - apply (submitData_validation
             (set_value "longitude" ""
                (set_value "openSpaceArea" "" example_page)));
      [discriminate | reflexivity].
  - apply (submitData_validation
             (set_value "fullName" ""
                (set_value "rooftopArea" "" example_page)));
      [discriminate | discriminate | reflexivity].
  - apply (submitData_validation
             (set_value "rooftopArea" ""
                (set_value "openSpaceArea" "" example_page)));
      [discriminate | discriminate | discriminate | reflexivity].
  - apply (submitData_validation (set_value "openSpaceArea" "" example_page));
      [discriminate | discriminate | discriminate | discriminate
      | reflexivity].
  - apply (submitData_validation example_page); discriminate.
Defined.

(** ** The submitted payload *)

(** C4. A submission that passes validation adds exactly one form, a POST
    to [/submit_form], whose hidden inputs are named, in order and without
    repetition, by the twelve fixed payload fields and by nothing else. *)
Theorem submitData_payload (p : Page) :
  value "latitude" p ≠ "" → value "longitude" p ≠ "" →
  value "fullName" p ≠ "" → value "rooftopArea" p ≠ "" →
  value "openSpaceArea" p ≠ "" →
  ∃ form,
    forms (submitData p) = (forms p ++ [form])%list
    ∧ method form = "POST"
    ∧ action form = "/submit_form"
    ∧ (inputs form).*1 = payload_fields
    ∧ NoDup payload_fields.
Proof.
  intros H1 H2 H3 H4 H5. exists (hidden_form (collect p)).
  split.
  { unfold submitData. by rewrite (first_missing_none p H1 H2 H3 H4 H5). }
  repeat split. unfold payload_fields.
  apply (bool_decide_unpack _). vm_compute. reflexivity.
Qed.

Lemma submitData_payload_witness :
  ∃ form,
    forms (submitData example_page) = [form]
    ∧ method form = "POST"
    ∧ action form = "/submit_form"
    ∧ (inputs form).*1 = payload_fields
    ∧ NoDup payload_fields.
Proof. apply (submitData_payload example_page); vm_compute; discriminate. Defined.

(** ** The open-space buckets *)

Lemma open_space_area_categories :
  open_space_area "none" = VNumber (of_Z 0)
  ∧ open_space_area "small" = VNumber (of_Z 10)
  ∧ open_space_area "medium" = VNumber (of_Z 60)
  ∧ open_space_area "large" = VNumber (of_Z 150).
Proof. repeat split; vm_compute; reflexivity. Qed.

Lemma open_space_area_other (category : string) :
  category ∉ ["none"; "small"; "medium"; "large"] →
  category ∉ object_prototype →
  open_space_area category = VNumber (of_Z 0).
Proof.
  intros Hcat Hproto. unfold open_space_area, get, open_space_buckets.
  apply not_elem_of_cons in Hcat as [Hnone Hcat].
  apply not_elem_of_cons in Hcat as [Hsmall Hcat].
  apply not_elem_of_cons in Hcat as [Hmedium Hcat].
  apply not_elem_of_cons in Hcat as [Hlarge _].
  rewrite !lookup_insert_ne, lookup_empty by done.
  by rewrite bool_decide_eq_false_2.
Qed.

(** C5. The open-space lookup reads the bucket object with [obj[key]], which
    also finds the members every object inherits: for the category
    [constructor], which is none of the four, the payload holds the
    inherited member and not the number 0. *)
Theorem open_space_area_constructor :
  ("constructor" ∉ ["none"; "small"; "medium"; "large"])
  ∧ open_space_area "constructor" = VInherited "constructor"
  ∧ open_space_area "constructor" ≠ VNumber (of_Z 0)
  ∧ ∃ form,
      forms (submitData (set_value "openSpaceArea" "constructor" example_page))
        = [form]
      ∧ ("open_space_area", VInherited "constructor") ∈ inputs form.
Proof.
  split; [apply (bool_decide_unpack _); vm_compute; reflexivity |].
  split; [vm_compute; reflexivity |].
  split; [vm_compute; discriminate |].
  eexists. split; [vm_compute; reflexivity |].
  do 7 apply list_elem_of_further. apply list_elem_of_here.
Qed.

(** ** The household size *)

Lemma split_before (sep : ascii) (s : string) :
  ∃ rest, split sep s = before sep s :: rest.
Proof.
  induction s as [| c r [rest IH]]; simpl; [by exists [] |].
  destruct (Ascii.eqb c sep); [by eexists |].
  rewrite IH. by eexists.
Qed.

Lemma before_free (sep : ascii) (s : string) : occurs sep (before sep s) = false.
Proof.
  induction s as [| c r IH]; simpl; [done |].
  destruct (Ascii.eqb c sep) eqn:E; simpl; [done |]. by rewrite E.
Qed.

Lemma trim_start_free (c : ascii) (s : string) :
  occurs c s = false → occurs c (trim_start s) = false.
Proof.
  induction s as [| a r IH]; simpl; [done |].
  intros H. apply orb_false_iff in H as [Ha Hr].
  destruct (is_space a); [by apply IH |]. simpl. by rewrite Ha, Hr.
Qed.

Lemma read_sign_free (s : string) :
  occurs "-" s = false → fst (read_sign s) = false.
Proof.
  destruct s as [| a r]; simpl; [done |].
  intros H. apply orb_false_iff in H as [Ha _].
  destruct (Ascii.eqb_spec a "-") as [-> | Hne]; [done |].
  destruct a as [[] [] [] [] [] [] [] []]; try reflexivity.
  by destruct Hne.
Qed.

Lemma binary_round_aux_zero (s s' : bool) (m e : Z) (l : SpecFloat.location) :
  binary_round_aux prec emax s m e l = S754_zero s' → s' = s.
Proof.
  unfold binary_round_aux.
  destruct (shr_fexp prec emax m e l) as [mrs' e'].
  destruct (shr_fexp prec emax _ e' loc_Exact) as [mrs'' e''].
  destruct (shr_m mrs''); [congruence | | discriminate].
  destruct (e'' <=? emax - prec); discriminate.
Qed.

Lemma of_decimal_zero (s s' : bool) (n : N) :
  of_decimal s n 0 = S754_zero s' → s' = s.
Proof.
  unfold of_decimal. destruct n as [| q]; [congruence |].
  simpl (0 <=? 0). cbv iota. unfold binary_round.
  destruct (shl_align _ _ _) as [mz ez]. apply binary_round_aux_zero.
Qed.

Lemma parseInt_before_dash (s : string) (sg : bool) :
  parseInt (before "-" s) = S754_zero sg → sg = false.
Proof.
  unfold parseInt.
  pose proof (read_sign_free (trim_start (before "-" s))
                (trim_start_free _ _ (before_free "-" s))) as Hsign.
  destruct (read_sign (trim_start (before "-" s))) as [sg' r0].
  simpl in Hsign. subst sg'.
  destruct (match r0 with
            | String "0" (String "x" r) | String "0" (String "X" r) => (16%N, r)
            | _ => (10%N, r0)
            end) as [radix r1].
  destruct (read_digits radix 0 r1) as [[v k] rest].
  destruct (k =? 0)%nat; [discriminate |]. apply of_decimal_zero.
Qed.

(** C10. The payload's [household_size] is computed from the household-size
    field: 0 when the field is empty; otherwise the number [parseInt] reads
    from the part of the field before its first [-], and 0 when [parseInt]
    reads no integer there; a range such as [2-4] submits 2. *)
Theorem household_size_payload (p : Page) (hs : string) :
  ("household_size", VNumber (household_size (value "householdSize" p)))
    ∈ dataToSubmit (collect p)
  ∧ household_size "" = of_Z 0
  ∧ (isNaN (parseInt (before "-" hs)) = true → household_size hs = of_Z 0)
  ∧ (hs ≠ "" → isNaN (parseInt (before "-" hs)) = false →
     household_size hs = parseInt (before "-" hs))
  ∧ household_size "2-4" = of_Z 2
  ∧ household_size "5" = of_Z 5
  ∧ household_size "12 people" = of_Z 12
  ∧ household_size "-5" = of_Z 0
  ∧ household_size "many" = of_Z 0.
Proof.
  split. { do 5 apply list_elem_of_further. apply list_elem_of_here. }
  split; [vm_compute; reflexivity |].
  assert (∀ t, t ≠ "" → household_size t
               = or_else (parseInt (before "-" t)) (of_Z 0)) as Hgen.
  { intros t Ht. unfold household_size. apply eqb_nonempty in Ht. rewrite Ht.
    destruct (split_before "-" t) as [rest ->]. done. }
  split.
  { intros Hnan. destruct (decide (hs = "")) as [-> | Hne];
      [vm_compute; reflexivity |].
    rewrite (Hgen hs Hne). by destruct (parseInt (before "-" hs)). }
  split.
  { intros Hne Hnum. rewrite (Hgen hs Hne).
    destruct (parseInt (before "-" hs)) as [sg | sg | | sg m e] eqn:E;
      try done.
    by rewrite (parseInt_before_dash hs sg E). }
  repeat split; vm_compute; reflexivity.
Qed.

Lemma household_size_payload_witness :
  ("household_size", VNumber (household_size (value "householdSize" example_page)))
    ∈ dataToSubmit (collect example_page)
  ∧ household_size "many-3" = of_Z 0
  ∧ household_size "3 or 4-6" = parseInt (before "-" "3 or 4-6").
Proof.
  destruct (household_size_payload example_page "many-3")
    as (Hfield & _ & Hnan & _).
  destruct (household_size_payload example_page "3 or 4-6")
    as (_ & _ & _ & Hnum & _).
  split; [exact Hfield |]. split.
  - apply Hnan. vm_compute. reflexivity.
  - apply Hnum; [discriminate | vm_compute; reflexivity].
Defined.

(** ** Rounding to a fixed number of decimals *)

Lemma magnitude_pos (x : number) :
  0 ≤ fst (magnitude x) ∧ 0 < snd (magnitude x).
Proof.
  destruct x as [| | | s m e]; simpl; try lia.
  destruct (0 <=? e) eqn:E; simpl.
  - apply Z.leb_le in E. split; [| lia].
    apply Z.mul_nonneg_nonneg; [lia |]. apply Z.pow_nonneg. lia.
  - apply Z.leb_gt in E. split; [lia |]. apply Z.pow_pos_nonneg; lia.
Qed.

Lemma nearest_scaled_bound (f : nat) (num den : Z) :
  0 ≤ num → 0 < den →
  0 ≤ nearest_scaled f (num, den)
  ∧ - den < 2 * (nearest_scaled f (num, den) * den - num * 10 ^ Z.of_nat f)
      ≤ den.
Proof.
  intros Hnum Hden. unfold nearest_scaled.
  assert (0 ≤ 10 ^ Z.of_nat f) as Hp by (apply Z.pow_nonneg; lia).
  set (P := 10 ^ Z.of_nat f) in *.
  assert (0 ≤ num * P) as Hnp by (apply Z.mul_nonneg_nonneg; lia).
  replace (2 * num * P) with (2 * (num * P)) by ring.
  set (a := 2 * (num * P) + den).
  pose proof (Z.div_mod a (2 * den) ltac:(lia)) as Hdm.
  pose proof (Z.mod_pos_bound a (2 * den) ltac:(lia)) as Hr.
  split.
  - apply Z.div_pos; lia.
  - subst a. lia.
Qed.

Lemma toFixed_rounds_to (f : nat) (x : number) :
  is_finite x = true → below_1e21 x = true → rounds_to f x (toFixed f x).
Proof.
  intros Hfin Hsmall. destruct (magnitude_pos x) as [Hnum Hden].
  destruct x as [s | | | s m e]; try discriminate.
  - exists 0. simpl. repeat split; lia.
  - unfold below_1e21 in Hsmall. unfold rounds_to, toFixed.
    destruct (magnitude (S754_finite s m e)) as [num den] eqn:Hmag.
    simpl fst in *. simpl snd in *.
    apply Z.ltb_lt in Hsmall.
    assert ((10 ^ 21 * den <=? num) = false) as -> by (apply Z.leb_gt; lia).
    exists (nearest_scaled f (num, den)).
    destruct (nearest_scaled_bound f num den Hnum Hden) as [H0 Hb].
    done.
Qed.

(** ** Rounding of a binary64 product *)







(** ** The rooftop area *)




(** ** Reverse geocoding *)



(** ** Timers *)

Lemma forward_requests_fetch_reverse lng lat p :
  forward_requests (fetch (ReverseGeocode lng lat) p) = forward_requests p.
Proof.
  unfold forward_requests, fetch. simpl.
  rewrite List.filter_app. simpl. apply app_nil_r.
Qed.

Lemma reverse_requests_fetch_reverse lng lat p :
  reverse_requests (fetch (ReverseGeocode lng lat) p)
  = (reverse_requests p ++ [ReverseGeocode lng lat])%list.
Proof. unfold reverse_requests, fetch. simpl. by rewrite List.filter_app. Qed.

Lemma reverse_requests_fetch_forward q p :
  reverse_requests (fetch (ForwardGeocode q) p) = reverse_requests p.
Proof.
  unfold reverse_requests, fetch. simpl.
  rewrite List.filter_app. simpl. apply app_nil_r.
Qed.

(** What the geocoding timer leaves alone. *)
Lemma fire_geocode_frame (p : Page) :
  forward_requests (fire_geocode p) = forward_requests p
  ∧ suggestionsHidden (fire_geocode p) = suggestionsHidden p
  ∧ debouncedAddressSearch (fire_geocode p) = debouncedAddressSearch p
  ∧ now (fire_geocode p) = now p
  ∧ marker (fire_geocode p) = marker p.
Proof.
  unfold fire_geocode.
  destruct (Debounce.due _ _) as [[t c] |]; [| done].
  unfold updateFromMarker. by rewrite forward_requests_fetch_reverse.
Qed.

(** What the search timer leaves alone. *)
Lemma fire_search_frame (p : Page) :
  reverse_requests (fire_search p) = reverse_requests p
  ∧ values (fire_search p) = values p
  ∧ debouncedUpdateFromMarker (fire_search p) = debouncedUpdateFromMarker p
  ∧ now (fire_search p) = now p
  ∧ marker (fire_search p) = marker p.
Proof.
  unfold fire_search.
  destruct (Debounce.due _ _) as [[t i] |]; [| done].
  unfold addressSearch. destruct (String.length i <? 3)%nat; [done |].
  by rewrite reverse_requests_fetch_forward.
Qed.

Lemma run_timers_order (p : Page) :
  run_timers p = fire_search (fire_geocode p)
  ∨ run_timers p = fire_geocode (fire_search p).
Proof.
  unfold run_timers.
  destruct (Debounce.due _ (debouncedUpdateFromMarker p)) as [[tg cg] |];
    [| by left].
  destruct (Debounce.due _ (debouncedAddressSearch p)) as [[ts i] |];
    [| by left].
  destruct (tg <=? ts)%N; [by left | by right].
Qed.

Lemma due_timeout {A} (now : N) (d : Debounce.t A) t a :
  Debounce.due now d = Some (t, a) ↔
  Debounce.timeout d = Some (t, a) ∧ (t <= now)%N.
Proof.
  unfold Debounce.due. destruct (Debounce.timeout d) as [[t' a'] |].
  - destruct (N.leb_spec t' now); split.
    + intros [= -> ->]. done.
    + intros [[= -> ->] _]. done.
    + done.
    + intros [[= -> ->] ?]. lia.
  - split; [done | by intros [? _]].
Qed.

(** The search timer, when it holds a short input, sends nothing and, when
    it is due, hides the suggestions. *)
Lemma fire_search_short (p : Page) t input :
  Debounce.timeout (debouncedAddressSearch p) = Some (t, input) →
  (String.length input < 3)%nat →
  forward_requests (fire_search p) = forward_requests p
  ∧ ((t <= now p)%N → suggestionsHidden (fire_search p) = true).
Proof.
  intros Htimer Hshort. unfold fire_search.
  destruct (Debounce.due _ _) as [[t' i] |] eqn:Hdue.
  - apply due_timeout in Hdue as [Hsame Hle].
    rewrite Htimer in Hsame. injection Hsame as <- <-.
    unfold addressSearch.
    assert ((String.length input <? 3)%nat = true) as ->
      by (apply Nat.ltb_lt; lia).
    done.
  - split; [done |]. intros Hle.
    assert (Debounce.due (now p) (debouncedAddressSearch p) = Some (t, input))
      as Habs by (by apply due_timeout).
    congruence.
Qed.

Lemma fire_search_due (p : Page) t input :
  Debounce.timeout (debouncedAddressSearch p) = Some (t, input) →
  (t <= now p)%N →
  fire_search p
  = addressSearch input
      (set_debouncedAddressSearch
         (Debounce.fired (debouncedAddressSearch p)) p).
Proof.
  intros Htimer Hle. unfold fire_search.
  by rewrite (proj2 (due_timeout (now p) _ t input) (conj Htimer Hle)).
Qed.

Lemma fire_search_pending (p : Page) t input :
  Debounce.timeout (debouncedAddressSearch p) = Some (t, input) →
  (now p < t)%N → fire_search p = p.
Proof.
  intros Htimer Hlt. unfold fire_search.
  destruct (Debounce.due _ _) as [[t' i] |] eqn:Hdue; [| done].
  apply due_timeout in Hdue as [Hsame Hle]. rewrite Htimer in Hsame.
  injection Hsame as <- <-. lia.
Qed.

Lemma fire_geocode_due (p : Page) t c :
  Debounce.timeout (debouncedUpdateFromMarker p) = Some (t, c) →
  (t <= now p)%N →
  fire_geocode p
  = updateFromMarker c
      (set_debouncedUpdateFromMarker
         (Debounce.fired (debouncedUpdateFromMarker p)) p).
Proof.
  intros Htimer Hle. unfold fire_geocode.
  by rewrite (proj2 (due_timeout (now p) _ t c) (conj Htimer Hle)).
Qed.

Lemma fire_geocode_pending (p : Page) t c :
  Debounce.timeout (debouncedUpdateFromMarker p) = Some (t, c) →
  (now p < t)%N → fire_geocode p = p.
Proof.
  intros Htimer Hlt. unfold fire_geocode.
  destruct (Debounce.due _ _) as [[t' i] |] eqn:Hdue; [| done].
  apply due_timeout in Hdue as [Hsame Hle]. rewrite Htimer in Hsame.
  injection Hsame as <- <-. lia.
Qed.

Lemma forward_requests_fetch_forward q p :
  forward_requests (fetch (ForwardGeocode q) p)
  = (forward_requests p ++ [ForwardGeocode q])%list.
Proof. unfold forward_requests, fetch. simpl. by rewrite List.filter_app. Qed.

(** ** Forward search *)

(** C8. Run on an input of fewer than 3 characters, the search function
    sends no request and hides the suggestions; on a longer input it sends
    the forward-geocoding request. So after such a short input is typed in
    the address field no forward request follows however much time passes,
    and once 300ms have passed the suggestions are hidden; after a longer
    input the one request is sent when 300ms have passed and not before. *)
Theorem addressSearch_minimum_length (input : string) (p : Page) (dt : N) :
  let q := step (Elapse dt) (step (AddressInput input) p) in
  ((String.length input < 3)%nat →
     requests (addressSearch input p) = requests p
     ∧ suggestionsHidden (addressSearch input p) = true
     ∧ forward_requests q = forward_requests p
     ∧ (well_formed p → (300 <= dt)%N → suggestionsHidden q = true))
  ∧ ((3 ≤ String.length input)%nat →
     requests (addressSearch input p)
       = (requests p ++ [ForwardGeocode input])%list
     ∧ (well_formed p → (dt < 300)%N →
        forward_requests q = forward_requests p)
     ∧ (well_formed p → (300 <= dt)%N →
        forward_requests q
          = (forward_requests p ++ [ForwardGeocode input])%list)).
Proof.
  intros q.
  set (p2 := set_now (now p + dt)%N (step (AddressInput input) p)).
  assert (Debounce.timeout (debouncedAddressSearch p2)
          = Some ((now p + Debounce.delay (debouncedAddressSearch p))%N, input))
    as Htimer by done.
  assert (forward_requests p2 = forward_requests p) as Hreq by done.
  assert (now p2 = (now p + dt)%N) as Hnow by done.
  destruct (fire_geocode_frame p2) as (Hgf & Hgh & Hgd & Hgn & _).
  split.
  - intros Hshort. unfold addressSearch at 1 2.
    assert ((String.length input <? 3)%nat = true) as ->
      by (apply Nat.ltb_lt; lia).
    split; [done |]. split; [done |].
    subst q. change (step (Elapse dt) (step (AddressInput input) p))
      with (run_timers p2).
    destruct (run_timers_order p2) as [-> | ->].
    + rewrite <- Hgd in Htimer.
      destruct (fire_search_short _ _ _ Htimer Hshort) as [Hf Hh].
      split; [congruence |].
      intros [_ Hdelay] Hdt. apply Hh. rewrite Hgn, Hnow, Hdelay. lia.
    + destruct (fire_search_short _ _ _ Htimer Hshort) as [Hf Hh].
      destruct (fire_geocode_frame (fire_search p2)) as (Hgf' & Hgh' & _).
      split; [congruence |].
      intros [_ Hdelay] Hdt. rewrite Hgh'. apply Hh.
      rewrite Hnow, Hdelay. lia.
  - intros Hlong. unfold addressSearch at 1.
    assert ((String.length input <? 3)%nat = false) as Hlen
      by (apply Nat.ltb_ge; lia).
    rewrite Hlen. split; [done |].
    subst q. change (step (Elapse dt) (step (AddressInput input) p))
      with (run_timers p2).
    split; intros [_ Hdelay] Hdt; rewrite Hdelay in Htimer.
    + destruct (run_timers_order p2) as [-> | ->].
      * rewrite <- Hgd in Htimer.
        rewrite (fire_search_pending _ _ _ Htimer) by (rewrite Hgn, Hnow; lia).
        congruence.
      * rewrite (fire_search_pending _ _ _ Htimer) by (rewrite Hnow; lia).
        congruence.
    + destruct (run_timers_order p2) as [-> | ->].
      * rewrite <- Hgd in Htimer.
        rewrite (fire_search_due _ _ _ Htimer) by (rewrite Hgn, Hnow; lia).
        unfold addressSearch. rewrite Hlen.
        rewrite forward_requests_fetch_forward. by rewrite <- Hreq, <- Hgf.
      * destruct (fire_geocode_frame (fire_search p2)) as (-> & _).
        rewrite (fire_search_due _ _ _ Htimer) by (rewrite Hnow; lia).
        unfold addressSearch. rewrite Hlen.
        rewrite forward_requests_fetch_forward. by rewrite <- Hreq.
Qed.

Lemma addressSearch_minimum_length_witness :
  (requests (addressSearch "MG" example_page) = []
   ∧ suggestionsHidden (addressSearch "MG" example_page) = true
   ∧ forward_requests
       (step (Elapse 1000) (step (AddressInput "MG") example_page)) = []
   ∧ suggestionsHidden
       (step (Elapse 1000) (step (AddressInput "MG") example_page)) = true)
  ∧ requests (addressSearch "MG Road" example_page) = [ForwardGeocode "MG Road"]
  ∧ forward_requests
      (step (Elapse 299) (step (AddressInput "MG Road") example_page)) = []
  ∧ forward_requests
      (step (Elapse 300) (step (AddressInput "MG Road") example_page))
    = [ForwardGeocode "MG Road"].
Proof.
  destruct (addressSearch_minimum_length "MG" example_page 1000)
    as (Hshort & _).
  destruct (addressSearch_minimum_length "MG Road" example_page 299)
    as (_ & Hearly).
  destruct (addressSearch_minimum_length "MG Road" example_page 300)
    as (_ & Hlate).
  split.
  - destruct Hshort as (H1 & H2 & H3 & H4); [simpl; lia |].
    split; [exact H1 |]. split; [exact H2 |]. split; [exact H3 |].
    apply H4; [by split | lia].
  - destruct Hearly as (H1 & H2 & _); [simpl; lia |].
    destruct Hlate as (_ & _ & H3); [simpl; lia |].
    split; [exact H1 |]. split.
    + apply H2; [by split | lia].
    + apply H3; [by split | lia].
Defined.

(** ** Coordinates within range *)

Lemma digits2_pos_bound (m : positive) : Zpos m < 2 ^ Zpos (digits2_pos m).
Proof.
  induction m as [m IH | m IH |]; simpl digits2_pos;
    rewrite ?Pos2Z.inj_succ, ?Z.pow_succ_r by lia; lia.
Qed.

(** A well-formed binary64 number that the comparisons place between
    [-b] and [b], for a bound [b] with a negative exponent, is finite and
    far below [10^21]. *)
Lemma within_bound_small (x : number) (M : positive) (E : Z) :
  E < 0 →
  valid_binary prec emax x = true →
  leb x (S754_finite false M E) = true →
  geb x (S754_finite true M E) = true →
  is_finite x = true ∧ below_1e21 x = true.
Proof.
  intros HE Hvalid Hle Hge.
  destruct x as [s | s | | s m e]; try done.
  - by destruct s.
  - split; [done |].
    assert (e ≤ E) as He.
    { destruct s.
      - unfold geb, SFleb, SFcompare in Hge.
        destruct (Z.compare_spec E e); lia || discriminate.
      - unfold leb, SFleb, SFcompare in Hle.
        destruct (Z.compare_spec e E); lia || discriminate. }
    simpl in Hvalid. unfold bounded, canonical_mantissa, fexp in Hvalid.
    apply andb_true_iff in Hvalid as [Hcanon _].
    apply Z.eqb_eq in Hcanon.
    assert (Zpos (digits2_pos m) ≤ prec) as Hdigits by lia.
    pose proof (digits2_pos_bound m) as Hm.
    assert (2 ^ Zpos (digits2_pos m) ≤ 2 ^ prec) as Hpow
      by (apply Z.pow_le_mono_r; lia).
    unfold below_1e21, magnitude.
    assert ((0 <=? e) = false) as -> by (apply Z.leb_gt; lia).
    simpl fst. simpl snd. apply Z.ltb_lt.
    assert (0 < 2 ^ (- e)) as Hden by (apply Z.pow_pos_nonneg; lia).
    assert (2 ^ prec < 10 ^ 21) as Hbig by (vm_compute; reflexivity).
    nia.
Qed.

Lemma valid_coordinate_small (lat lng : number) :
  valid_binary prec emax lat = true → valid_binary prec emax lng = true →
  valid_coordinate lat lng = true →
  (is_finite lat = true ∧ below_1e21 lat = true)
  ∧ (is_finite lng = true ∧ below_1e21 lng = true).
Proof.
  intros Hlat Hlng Hvalid. unfold valid_coordinate in Hvalid.
  repeat (apply andb_true_iff in Hvalid as [Hvalid ?]).
  split.
  - apply (within_bound_small lat 6333186975989760 (-46)); done.
  - apply (within_bound_small lng 6333186975989760 (-45)); done.
Qed.

(** ** Keeping marker and fields together *)

Lemma updateFromMarker_fields (c : LngLat) (p : Page) :
  value "latitude" (updateFromMarker c p) = toFixed 5 (lat c)
  ∧ value "longitude" (updateFromMarker c p) = toFixed 5 (lng c)
  ∧ value "coords" (updateFromMarker c p)
    = coords_label (toFixed 5 (lat c)) (toFixed 5 (lng c))
  ∧ marker (updateFromMarker c p) = marker p
  ∧ reverse_requests (updateFromMarker c p)
    = (reverse_requests p
         ++ [ReverseGeocode (toFixed 5 (lng c)) (toFixed 5 (lat c))])%list.
Proof.
  unfold updateFromMarker. rewrite reverse_requests_fetch_reverse.
  unfold fetch, value. simpl.
  repeat split; by rewrite ?lookup_insert_ne, ?lookup_insert_eq by done.
Qed.

Lemma value_same_values (id : string) (p q : Page) :
  values p = values q → value id p = value id q.
Proof. unfold value. by intros ->. Qed.

(** A typed text that passes the guard moves the marker, rewrites the
    label and restarts the timer; the two fields keep what was typed. *)
Lemma coord_input_valid (f : CoordField) (text : string) (p : Page) c :
  coordinate_set (CoordInput f text) p = Some c →
  step (CoordInput f text) p
  = set_debouncedUpdateFromMarker
      (Debounce.call (now p) c (debouncedUpdateFromMarker p))
      (set_value "coords" (coords_label (toFixed 5 (lat c)) (toFixed 5 (lng c)))
         (set_marker c (set_value (field_id f) text p)))
  ∧ c = {| lng := parseFloat (value "longitude" (step (CoordInput f text) p));
           lat := parseFloat (value "latitude" (step (CoordInput f text) p)) |}.
Proof.
  simpl coordinate_set. simpl step. unfold updateMarkerFromInputs.
  intros Hset. destruct (valid_coordinate _ _); [| discriminate].
  injection Hset as <-. split; [done |].
  simpl lng. simpl lat. unfold value. simpl.
  by rewrite !(lookup_insert_ne _ "coords") by done.
Qed.

(** Typing a latitude with seven decimals leaves those seven decimals in
    the field. *)
Lemma typed_latitude_is_not_rounded : ¬ fields_follow_every_source.
Proof.
  intros Hclaim.
  destruct (Hclaim (CoordInput Latitude "12.3456789") example_page
              {| lng := parseFloat "77.59460";
                 lat := parseFloat "12.3456789" |})
    as (Hlat & _); [vm_compute; reflexivity .. |].
  vm_compute in Hlat. discriminate.
Qed.

(** C2. An event that sets a coordinate puts the marker on exactly that
    pair. A map click, the end of a drag, a position found by the browser
    and a chosen suggestion also write the two fields, at once, with the
    pair rounded to five decimals. Typing in a field that leaves a valid
    pair keeps the typed text in that field and rewrites only the label;
    the two fields receive the rounded pair when the 500ms timer has run.
    For well-formed numbers within the valid ranges the written text is the
    nearest multiple of 0.00001. *)
Theorem coordinate_sync (e : Event) (p : Page) (c : LngLat) :
  coordinate_set e p = Some c →
  marker (step e p) = c
  ∧ (typed e = false →
     value "latitude" (step e p) = toFixed 5 (lat c)
     ∧ value "longitude" (step e p) = toFixed 5 (lng c))
  ∧ (∀ f text, e = CoordInput f text →
     value (field_id f) (step e p) = text
     ∧ value "coords" (step e p)
       = coords_label (toFixed 5 (lat c)) (toFixed 5 (lng c))
     ∧ (well_formed p → ∀ dt, (500 <= dt)%N →
        value "latitude" (step (Elapse dt) (step e p)) = toFixed 5 (lat c)
        ∧ value "longitude" (step (Elapse dt) (step e p)) = toFixed 5 (lng c)
        ∧ marker (step (Elapse dt) (step e p)) = c))
  ∧ (valid_binary prec emax (lat c) = true →
     valid_binary prec emax (lng c) = true →
     valid_coordinate (lat c) (lng c) = true →
     rounds_to 5 (lat c) (toFixed 5 (lat c))
     ∧ rounds_to 5 (lng c) (toFixed 5 (lng c))).
Proof.
  intros Hset.
  assert (∀ q, marker q = c →
            marker (updateFromMarker c (updateTo3DView c q)) = c
            ∧ value "latitude" (updateFromMarker c (updateTo3DView c q))
              = toFixed 5 (lat c)
            ∧ value "longitude" (updateFromMarker c (updateTo3DView c q))
              = toFixed 5 (lng c)) as Hdirect.
  { intros q Hq.
    destruct (updateFromMarker_fields c (updateTo3DView c q))
      as (Hlat & Hlng & _ & Hm & _).
    by rewrite Hm. }
  split; [| split; [| split]].
  - destruct e as [c' | c' | f text | [| | lo la] | | i | | | | | |];
      simpl in Hset; try discriminate.
    + injection Hset as ->. by apply Hdirect.
    + injection Hset as ->. by apply Hdirect.
    + by rewrite (proj1 (coord_input_valid f text p c Hset)).
    + injection Hset as <-. by apply Hdirect.
    + simpl. destruct (suggestions p !! i) as [place |]; [| discriminate].
      injection Hset as <-. unfold suggestion_click. by apply Hdirect.
  - intros Hnot.
    destruct e as [c' | c' | f text | [| | lo la] | | i | | | | | |];
      simpl in Hset; try discriminate.
    + injection Hset as ->. by apply Hdirect.
    + injection Hset as ->. by apply Hdirect.
    + injection Hset as <-. by apply Hdirect.
    + simpl. destruct (suggestions p !! i) as [place |]; [| discriminate].
      injection Hset as <-. unfold suggestion_click.
      change (value ?id (set_suggestionsHidden true ?q)) with (value id q).
      by apply Hdirect.
  - intros f text ->.
    destruct (coord_input_valid f text p c Hset) as [Hstep _].
    rewrite Hstep. split; [| split].
    + change (value ?id (set_debouncedUpdateFromMarker _ ?q)) with (value id q).
      rewrite value_set_value_ne by (by destruct f).
      change (value ?id (set_marker _ ?q)) with (value id q).
      apply value_set_value.
    + change (value ?id (set_debouncedUpdateFromMarker _ ?q)) with (value id q).
      apply value_set_value.
    + intros [Hdelay _] dt Hdt.
      match goal with |- context [step (Elapse dt) ?q] =>
        set (p1 := q); set (p2 := set_now (now p1 + dt)%N p1) end.
      change (step (Elapse dt) p1) with (run_timers p2).
      assert (Debounce.timeout (debouncedUpdateFromMarker p2)
              = Some ((now p + 500)%N, c)) as Htimer
        by (simpl; by rewrite Hdelay).
      assert (marker p2 = c) as Hmarker by done.
      assert (now p + 500 <= now p2)%N as Hdue by (simpl; lia).
      destruct (run_timers_order p2) as [-> | ->].
      * destruct (fire_search_frame (fire_geocode p2)) as (_ & Hv & _ & _ & Hm).
        rewrite !(value_same_values _ _ _ Hv), Hm.
        rewrite (fire_geocode_due _ _ _ Htimer Hdue).
        destruct (updateFromMarker_fields c
                    (set_debouncedUpdateFromMarker
                       (Debounce.fired (debouncedUpdateFromMarker p2)) p2))
          as (Hlat & Hlng & _ & Hm' & _).
        by rewrite Hlat, Hlng, Hm'.
      * destruct (fire_search_frame p2) as (_ & _ & Hd & Hn & Hm).
        rewrite <- Hd in Htimer. rewrite <- Hn in Hdue.
        rewrite (fire_geocode_due _ _ _ Htimer Hdue).
        destruct (updateFromMarker_fields c
                    (set_debouncedUpdateFromMarker
                       (Debounce.fired
                          (debouncedUpdateFromMarker (fire_search p2)))
                       (fire_search p2)))
          as (Hlat & Hlng & _ & Hm' & _).
        rewrite Hlat, Hlng, Hm'. simpl. by rewrite Hm.
  - intros Hvlat Hvlng Hvalid.
    destruct (valid_coordinate_small _ _ Hvlat Hvlng Hvalid)
      as [[? ?] [? ?]].
    split; by apply toFixed_rounds_to.
Qed.

Lemma coordinate_sync_witness :
  (marker (step (MapClick (place_center example_feature)) example_page)
     = place_center example_feature
   ∧ value "latitude"
       (step (MapClick (place_center example_feature)) example_page)
     = "12.97160")
  ∧ (value "latitude" (step (CoordInput Latitude "12.3456789") example_page)
       = "12.3456789"
     ∧ value "latitude"
         (step (Elapse 500)
            (step (CoordInput Latitude "12.3456789") example_page))
       = "12.34568")
  ∧ rounds_to 5 (parseFloat "12.3456789") "12.34568".
Proof.
  destruct (coordinate_sync (MapClick (place_center example_feature))
              example_page (place_center example_feature) eq_refl)
    as (Hmarker & Hfields & _).
  destruct (coordinate_sync (CoordInput Latitude "12.3456789") example_page
              {| lng := parseFloat "77.59460";
                 lat := parseFloat "12.3456789" |})
    as (_ & _ & Htyped & Hround); [vm_compute; reflexivity |].
  split; [| split].
  - split; [exact Hmarker |].
    destruct Hfields as [Hlat _]; [reflexivity |]. exact Hlat.
  - destruct (Htyped Latitude "12.3456789" eq_refl) as (Htext & _ & Hlater).
    split; [exact Htext |].
    destruct (Hlater (conj eq_refl eq_refl) 500%N) as (Hlat & _); [lia |].
    exact Hlat.
  - destruct Hround as [Hlat _]; [vm_compute; reflexivity .. |]. exact Hlat.
Defined.

(** ** Debounced reverse geocoding *)

(** Two map clicks at the same instant send two requests. *)
Lemma map_clicks_are_not_debounced : ¬ debounced_for_every_source.
Proof.
  intros Hclaim.
  pose proof (Hclaim example_page
                (MapClick (place_center example_feature))
                (MapClick {| lng := of_Z 77; lat := of_Z 13 |})
                _ _ (conj eq_refl eq_refl) eq_refl eq_refl) as Hle.
  vm_compute in Hle. lia.
Qed.

Lemma fire_search_well_formed (p : Page) :
  well_formed p → well_formed (fire_search p).
Proof.
  intros [Hg Hs]. destruct (fire_search_frame p) as (_ & _ & Hd & _).
  split; [by rewrite Hd |].
  unfold fire_search. destruct (Debounce.due _ _) as [[t i] |]; [| done].
  unfold addressSearch. by destruct (String.length i <? 3)%nat.
Qed.

Lemma coord_input_pending (f : CoordField) (text : string) (p : Page) :
  well_formed p →
  is_Some (coordinate_set (CoordInput f text) p) →
  pending_for (reverse_requests p) (now p) (step (CoordInput f text) p).
Proof.
  intros [Hg Hs] [c Hset].
  destruct (coord_input_valid f text p c Hset) as [Hstep Hc].
  unfold pending_for. rewrite <- Hc. rewrite Hstep. repeat split; try done.
  simpl. by rewrite Hg.
Qed.

(** While the timer is pending, time passing runs at most the search
    timer. *)
Lemma elapse_pending (sent : list Request) (since gap : N) (q : Page) :
  pending_for sent since q → (gap < 500)%N →
  step (Elapse gap) q = fire_search (set_now (since + gap)%N q).
Proof.
  intros (Hwf & Hsent & Hnow & Htimer) Hgap. simpl step. rewrite Hnow.
  set (q2 := set_now (since + gap)%N q).
  assert (Debounce.timeout (debouncedUpdateFromMarker q2)
          = Debounce.timeout (debouncedUpdateFromMarker q)) as Hsame by done.
  assert (now q2 < since + 500)%N as Hlt by (simpl; lia).
  rewrite <- Hsame in Htimer.
  destruct (run_timers_order q2) as [-> | ->].
  - by rewrite (fire_geocode_pending _ _ _ Htimer Hlt).
  - destruct (fire_search_frame q2) as (_ & _ & Hd & Hn & _).
    rewrite <- Hd in Htimer. rewrite <- Hn in Hlt.
    by rewrite (fire_geocode_pending _ _ _ Htimer Hlt).
Qed.

Lemma keystroke_pending (sent : list Request) (since : N) (q : Page)
    (gap : N) (f : CoordField) (text : string) :
  pending_for sent since q → (gap < 500)%N →
  is_Some (coordinate_set (CoordInput f text) (step (Elapse gap) q)) →
  pending_for sent (since + gap)%N
    (step (CoordInput f text) (step (Elapse gap) q)).
Proof.
  intros Hpending Hgap Hset.
  rewrite (elapse_pending sent since gap q Hpending Hgap) in *.
  destruct Hpending as (Hwf & Hsent & Hnow & Htimer).
  set (q2 := set_now (since + gap)%N q) in *.
  destruct (fire_search_frame q2) as (Hr & _ & _ & Hn & _).
  assert (well_formed (fire_search q2)) as Hwf'
    by (by apply fire_search_well_formed).
  pose proof (coord_input_pending f text _ Hwf' Hset) as Hnew.
  rewrite Hr, Hn in Hnew. rewrite <- Hsent. exact Hnew.
Qed.

Lemma burst_pending (ks : list Keystroke) (sent : list Request) (since : N)
    (q : Page) :
  pending_for sent since q → burst q ks = true →
  ∃ last, pending_for sent last (run (flat_map keystroke_events ks) q).
Proof.
  revert since q. induction ks as [| [[gap f] text] ks IH]; intros since q.
  - intros Hpending _. by exists since.
  - intros Hpending Hburst. simpl in Hburst.
    apply andb_true_iff in Hburst as [Hburst Hrest].
    apply andb_true_iff in Hburst as [Hgap Hset].
    apply N.ltb_lt in Hgap. apply bool_decide_eq_true in Hset.
    apply (IH (since + gap)%N); [| done].
    by apply keystroke_pending.
Qed.

(** Once the pending timer is due, it sends the one request, for the pair
    the fields read, and is cleared. *)
Lemma elapse_due (sent : list Request) (since dt : N) (q : Page) :
  pending_for sent since q → (500 <= dt)%N →
  reverse_requests (step (Elapse dt) q)
  = (sent ++ [ReverseGeocode
                (toFixed 5 (parseFloat (value "longitude" q)))
                (toFixed 5 (parseFloat (value "latitude" q)))])%list
  ∧ Debounce.timeout (debouncedUpdateFromMarker (step (Elapse dt) q)) = None.
Proof.
  intros (Hwf & Hsent & Hnow & Htimer) Hdt. simpl step. rewrite Hnow.
  set (q2 := set_now (since + dt)%N q).
  set (c := {| lng := parseFloat (value "longitude" q);
               lat := parseFloat (value "latitude" q) |}) in *.
  assert (Debounce.timeout (debouncedUpdateFromMarker q2)
          = Some ((since + 500)%N, c)) as Htimer2 by done.
  assert (since + 500 <= now q2)%N as Hdue by (simpl; lia).
  assert (reverse_requests q2 = sent) as Hsent2 by done.
  destruct (run_timers_order q2) as [-> | ->].
  - destruct (fire_search_frame (fire_geocode q2)) as (-> & _ & -> & _).
    rewrite (fire_geocode_due _ _ _ Htimer2 Hdue).
    destruct (updateFromMarker_fields c
                (set_debouncedUpdateFromMarker
                   (Debounce.fired (debouncedUpdateFromMarker q2)) q2))
      as (_ & _ & _ & _ & ->).
    by rewrite <- Hsent2.
  - destruct (fire_search_frame q2) as (Hr & _ & Hd & Hn & _).
    rewrite <- Hd in Htimer2. rewrite <- Hn in Hdue.
    rewrite (fire_geocode_due _ _ _ Htimer2 Hdue).
    destruct (updateFromMarker_fields c
                (set_debouncedUpdateFromMarker
                   (Debounce.fired
                      (debouncedUpdateFromMarker (fire_search q2)))
                   (fire_search q2)))
      as (_ & _ & _ & _ & ->).
    split; [| done]. by rewrite <- Hsent2, <- Hr.
Qed.

(** With no geocoding timer set, time passing sends no reverse request. *)
Lemma elapse_idle (dt : N) (q : Page) :
  Debounce.timeout (debouncedUpdateFromMarker q) = None →
  reverse_requests (step (Elapse dt) q) = reverse_requests q.
Proof.
  intros Hnone. simpl step. set (q2 := set_now (now q + dt)%N q).
  assert (∀ r, Debounce.timeout (debouncedUpdateFromMarker r) = None →
               fire_geocode r = r) as Hidle.
  { intros r Hr. unfold fire_geocode, Debounce.due. by rewrite Hr. }
  destruct (run_timers_order q2) as [-> | ->].
  - rewrite (Hidle q2 Hnone). by destruct (fire_search_frame q2) as (-> & _).
  - destruct (fire_search_frame q2) as (Hr & _ & Hd & _).
    rewrite Hidle by (by rewrite Hd). by rewrite Hr.
Qed.

(** An event of a source other than typing sends its request at once. *)
Lemma direct_source_request (e : Event) (p : Page) (c : LngLat) :
  typed e = false → coordinate_set e p = Some c →
  reverse_requests (step e p)
  = (reverse_requests p
       ++ [ReverseGeocode (toFixed 5 (lng c)) (toFixed 5 (lat c))])%list.
Proof.
  intros Hnot Hset.
  assert (∀ q, reverse_requests q = reverse_requests p →
            reverse_requests (updateFromMarker c (updateTo3DView c q))
            = (reverse_requests p
                 ++ [ReverseGeocode (toFixed 5 (lng c))
                       (toFixed 5 (lat c))])%list) as Hdirect.
  { intros q Hq.
    destruct (updateFromMarker_fields c (updateTo3DView c q))
      as (_ & _ & _ & _ & ->). by rewrite <- Hq. }
  destruct e as [c' | c' | f text | [| | lo la] | | i | | | | | |];
    simpl in Hset; try discriminate.
  - injection Hset as ->. by apply Hdirect.
  - injection Hset as ->. by apply Hdirect.
  - injection Hset as <-. by apply Hdirect.
  - simpl. destruct (suggestions p !! i) as [place |]; [| discriminate].
    injection Hset as <-. unfold suggestion_click.
    change (reverse_requests (set_suggestionsHidden true ?q))
      with (reverse_requests q).
    by apply Hdirect.
Qed.

(** C1. Only typing in the coordinate fields is debounced. In a burst of
    typed texts, each leaving a valid pair and each less than 500ms after
    the one before, no reverse-geocoding request is sent while the burst
    lasts; once 500ms have passed after the last of them exactly one is
    sent, for the pair the fields then read, and none follows it. A map
    click, the end of a drag, a position found by the browser and a chosen
    suggestion each send their request at once. *)
Theorem reverse_geocoding_debounce (p : Page) (f : CoordField)
    (text : string) (ks : list Keystroke) (dt : N) :
  (∀ e c, typed e = false → coordinate_set e p = Some c →
     reverse_requests (step e p)
     = (reverse_requests p
          ++ [ReverseGeocode (toFixed 5 (lng c)) (toFixed 5 (lat c))])%list)
  ∧ (well_formed p →
     is_Some (coordinate_set (CoordInput f text) p) →
     burst (step (CoordInput f text) p) ks = true →
     (500 <= dt)%N →
     let q := run (CoordInput f text :: flat_map keystroke_events ks) p in
     reverse_requests q = reverse_requests p
     ∧ reverse_requests (step (Elapse dt) q)
       = (reverse_requests p
            ++ [ReverseGeocode
                  (toFixed 5 (parseFloat (value "longitude" q)))
                  (toFixed 5 (parseFloat (value "latitude" q)))])%list
     ∧ ∀ dt', reverse_requests (step (Elapse dt') (step (Elapse dt) q))
              = reverse_requests (step (Elapse dt) q)).
Proof.
  split; [intros e c; apply direct_source_request |].
  intros Hwf Hfirst Hburst Hdt q.
  pose proof (coord_input_pending f text p Hwf Hfirst) as Hpending.
  destruct (burst_pending ks _ _ _ Hpending Hburst) as [last Hlast].
  change (run (flat_map keystroke_events ks) (step (CoordInput f text) p))
    with q in Hlast.
  destruct (elapse_due _ _ dt q Hlast Hdt) as [Hsent Hcleared].
  split; [by destruct Hlast as (_ & ? & _) |].
  split; [exact Hsent |].
  intros dt'. by apply elapse_idle.
Qed.

Lemma reverse_geocoding_debounce_witness :
  reverse_requests
    (step (MapClick (place_center example_feature)) example_page)
    = [ReverseGeocode "77.59460" "12.97160"]
  ∧ reverse_requests
      (run [CoordInput Latitude "1"; Elapse 200; CoordInput Latitude "12";
            Elapse 499; CoordInput Latitude "12.5"] example_page) = []
  ∧ reverse_requests
      (step (Elapse 500)
         (run [CoordInput Latitude "1"; Elapse 200; CoordInput Latitude "12";
               Elapse 499; CoordInput Latitude "12.5"] example_page))
    = [ReverseGeocode "77.59460" "12.50000"].
Proof.
  destruct (reverse_geocoding_debounce example_page Latitude "1"
              [(200%N, Latitude, "12"); (499%N, Latitude, "12.5")] 500)
    as [Hdirect Hburst].
  split.
  - exact (Hdirect (MapClick (place_center example_feature))
             (place_center example_feature) eq_refl eq_refl).
  - destruct Hburst as (Hquiet & Hone & _).
    + by split.
    + vm_compute. eexists. reflexivity.
    + vm_compute. reflexivity.
    + lia.
    + split; [exact Hquiet |]. exact Hone.
Defined.

(** ** Pages the script can reach *)

Lemma loaded_well_formed html radios water :
  well_formed (loaded html radios water).
Proof. by split. Qed.

Lemma fire_geocode_well_formed (p : Page) :
  well_formed p → well_formed (fire_geocode p).
Proof.
  intros [Hg Hs]. unfold fire_geocode.
  by destruct (Debounce.due _ _) as [[t c] |].
Qed.

Lemma step_well_formed (e : Event) (p : Page) :
  well_formed p → well_formed (step e p).
Proof.
  intros Hwf. pose proof Hwf as [Hg Hs].
  destruct e as [c | c | f text | [| | lo la] | text | i | r | r | | | | dt];
    simpl; try done.
  - unfold updateMarkerFromInputs. by destruct (valid_coordinate _ _).
  - by destruct (suggestions p !! i).
  - unfold updateFromMarker_response.
    by destruct r as [| | [[|] |]].
  - unfold addressSearch_response. by destruct r as [| | [[|] |]].
  - unfold nextSection. by destruct (_ || _)%bool.
  - unfold submitData. by destruct (first_missing _).
  - assert (well_formed (set_now (now p + dt)%N p)) as Hwf2 by done.
    destruct (run_timers_order (set_now (now p + dt)%N p)) as [-> | ->].
    + by apply fire_search_well_formed, fire_geocode_well_formed.
    + by apply fire_geocode_well_formed, fire_search_well_formed.
Qed.

Lemma run_well_formed (es : list Event) (p : Page) :
  well_formed p → well_formed (run es p).
Proof.
  revert p. induction es as [| e es IH]; intros p Hwf; [done |].
  apply IH. by apply step_well_formed.
Qed.

(** * Further properties of the handlers *)

(** ** What the timers leave alone *)

Lemma fire_geocode_untouched (p : Page) :
  marker (fire_geocode p) = marker p
  ∧ camera (fire_geocode p) = camera p
  ∧ forms (fire_geocode p) = forms p
  ∧ submitBtn (fire_geocode p) = submitBtn p
  ∧ alerts (fire_geocode p) = alerts p
  ∧ suggestions (fire_geocode p) = suggestions p
  ∧ suggestionsHidden (fire_geocode p) = suggestionsHidden p
  ∧ locationActive (fire_geocode p) = locationActive p
  ∧ dataActive (fire_geocode p) = dataActive p.
Proof. unfold fire_geocode. by destruct (Debounce.due _ _) as [[t c] |]. Qed.

Lemma fire_search_untouched (p : Page) :
  marker (fire_search p) = marker p
  ∧ camera (fire_search p) = camera p
  ∧ forms (fire_search p) = forms p
  ∧ submitBtn (fire_search p) = submitBtn p
  ∧ alerts (fire_search p) = alerts p
  ∧ suggestions (fire_search p) = suggestions p
  ∧ locationActive (fire_search p) = locationActive p
  ∧ dataActive (fire_search p) = dataActive p.
Proof.
  unfold fire_search. destruct (Debounce.due _ _) as [[t i] |]; [| done].
  unfold addressSearch. by destruct (String.length i <? 3)%nat.
Qed.


(** ** Short queries are never sent *)

Lemma fire_geocode_requests (p : Page) :
  requests (fire_geocode p) = requests p
  ∨ ∃ lng lat,
      requests (fire_geocode p) = (requests p ++ [ReverseGeocode lng lat])%list.
Proof.
  unfold fire_geocode. destruct (Debounce.due _ _) as [[t c] |]; [| by left].
  right. by eexists _, _.
Qed.

Lemma fire_search_requests (p : Page) :
  requests (fire_search p) = requests p
  ∨ ∃ q, (3 ≤ String.length q)%nat
      ∧ requests (fire_search p) = (requests p ++ [ForwardGeocode q])%list.
Proof.
  unfold fire_search. destruct (Debounce.due _ _) as [[t i] |]; [| by left].
  unfold addressSearch. destruct (Nat.ltb_spec (String.length i) 3);
    [by left |]. right. by exists i.
Qed.

Lemma query_long_enough_timers (p : Page) :
  Forall (λ r, query_long_enough r = true) (requests p) →
  Forall (λ r, query_long_enough r = true) (requests (run_timers p)).
Proof.
  intros Hok.
  assert (∀ q, Forall (λ r, query_long_enough r = true) (requests q) →
            Forall (λ r, query_long_enough r = true)
              (requests (fire_geocode q))) as Hg.
  { intros q Hq. destruct (fire_geocode_requests q) as [-> | (lo & la & ->)];
      [done |]. apply Forall_app. split; [done |]. by constructor. }
  assert (∀ q, Forall (λ r, query_long_enough r = true) (requests q) →
            Forall (λ r, query_long_enough r = true)
              (requests (fire_search q))) as Hs.
  { intros q Hq. destruct (fire_search_requests q) as [-> | (i & Hi & ->)];
      [done |]. apply Forall_app. split; [done |].
    constructor; [| done]. unfold query_long_enough. by apply Nat.leb_le. }
  destruct (run_timers_order p) as [-> | ->]; auto.
Qed.

Lemma query_long_enough_step (e : Event) (p : Page) :
  Forall (λ r, query_long_enough r = true) (requests p) →
  Forall (λ r, query_long_enough r = true) (requests (step e p)).
Proof.
  intros Hok.
  assert (∀ lng lat,
            Forall (λ r, query_long_enough r = true)
              (requests p ++ [ReverseGeocode lng lat])) as Hreverse.
  { intros lo la. apply Forall_app. split; [done |]. by constructor. }
  destruct e as [c | c | f text | [| | lo la] | text | i | r | r | | | | dt];
    simpl; try done; try apply Hreverse.
  - unfold updateMarkerFromInputs. by destruct (valid_coordinate _ _).
  - destruct (suggestions p !! i) as [place |]; [| done]. apply Hreverse.
  - unfold updateFromMarker_response. by destruct r as [| | [[|] |]].
  - unfold addressSearch_response. by destruct r as [| | [[|] |]].
  - unfold nextSection. by destruct (_ || _)%bool.
  - unfold submitData. by destruct (first_missing _).
  - by apply query_long_enough_timers.
Qed.

(** X1. Whatever the events and whatever is typed in the address field, no
    forward-geocoding request with a query of fewer than 3 characters is
    ever sent: if all requests sent so far have long enough queries, so do
    all requests after any run of events. *)
Theorem short_queries_are_never_sent (es : list Event) (p : Page) :
  Forall (λ r, query_long_enough r = true) (requests p) →
  Forall (λ r, query_long_enough r = true) (requests (run es p)).
Proof.
  revert p. induction es as [| e es IH]; intros p Hok; [done |].
  apply IH. by apply query_long_enough_step.
Qed.

Lemma short_queries_are_never_sent_witness :
  Forall (λ r, query_long_enough r = true)
    (requests
       (run [AddressInput "M"; Elapse 300; AddressInput "MG R"; Elapse 100;
             AddressInput "MG"; Elapse 400; AddressInput "MG Road";
             Elapse 300] example_page)).
Proof.
  apply (short_queries_are_never_sent _ example_page). constructor.
Defined.

(** ** The marker moves only with a coordinate *)

(** X2. An event that sets no coordinate leaves the marker and the camera
    where they are: an invalid or out-of-range text in a coordinate field,
    a refused or unsupported geolocation, a timer, a response, navigation
    and submission never move them. *)
Theorem marker_moves_only_with_coordinate (e : Event) (p : Page) :
  coordinate_set e p = None →
  marker (step e p) = marker p ∧ camera (step e p) = camera p.
Proof.
  intros Hnone.
  destruct e as [c | c | f text | [| | lo la] | text | i | r | r | | | | dt];
    simpl in Hnone; try discriminate; simpl; try done.
  - unfold updateMarkerFromInputs.
    by destruct (valid_coordinate _ _).
  - by destruct (suggestions p !! i).
  - unfold updateFromMarker_response. by destruct r as [| | [[|] |]].
  - unfold addressSearch_response. by destruct r as [| | [[|] |]].
  - unfold nextSection. by destruct (_ || _)%bool.
  - unfold submitData. by destruct (first_missing _).
  - set (q := set_now (now p + dt)%N p).
    destruct (run_timers_order q) as [-> | ->].
    + destruct (fire_search_untouched (fire_geocode q)) as (-> & -> & _).
      by destruct (fire_geocode_untouched q) as (-> & -> & _).
    + destruct (fire_geocode_untouched (fire_search q)) as (-> & -> & _).
      by destruct (fire_search_untouched q) as (-> & -> & _).
Qed.

Lemma marker_moves_only_with_coordinate_witness :
  marker (step (CoordInput Latitude "91") example_page) = marker example_page
  ∧ camera (step (CoordInput Latitude "91") example_page)
    = camera example_page.
Proof.
  apply (marker_moves_only_with_coordinate (CoordInput Latitude "91")).
  vm_compute. reflexivity.
Defined.

(** ** Only submission posts the form *)

(** X3. No event other than the submission posts a form or touches the
    submit button, and a submission posts at most one form. *)
Theorem only_submission_posts (e : Event) (p : Page) :
  (e ≠ SubmitData →
     forms (step e p) = forms p ∧ submitBtn (step e p) = submitBtn p)
  ∧ (length (forms (step e p)) ≤ length (forms p) + 1)%nat.
Proof.
  assert (e ≠ SubmitData →
          forms (step e p) = forms p ∧ submitBtn (step e p) = submitBtn p)
    as Hother.
  { intros Hne.
    destruct e as [c | c | f text | [| | lo la] | text | i | r | r | | | | dt];
      simpl; try done.
    - unfold updateMarkerFromInputs. by destruct (valid_coordinate _ _).
    - by destruct (suggestions p !! i).
    - unfold updateFromMarker_response. by destruct r as [| | [[|] |]].
    - unfold addressSearch_response. by destruct r as [| | [[|] |]].
    - unfold nextSection. by destruct (_ || _)%bool.
    - set (q := set_now (now p + dt)%N p).
      destruct (run_timers_order q) as [-> | ->].
      + destruct (fire_search_untouched (fire_geocode q))
          as (_ & _ & -> & -> & _).
        by destruct (fire_geocode_untouched q) as (_ & _ & -> & -> & _).
      + destruct (fire_geocode_untouched (fire_search q))
          as (_ & _ & -> & -> & _).
        by destruct (fire_search_untouched q) as (_ & _ & -> & -> & _). }
  split; [exact Hother |].
  destruct e; try (destruct Hother as [-> _]; [discriminate | lia]).
  simpl. unfold submitData. destruct (first_missing _); simpl; [lia |].
  rewrite length_app. simpl. lia.
Qed.

Lemma only_submission_posts_witness :
  forms (step (Elapse 1000) (step (CoordInput Latitude "12") example_page))
    = []
  ∧ submitBtn
      (step (Elapse 1000) (step (CoordInput Latitude "12") example_page))
    = ("", false).
Proof.
  apply (only_submission_posts (Elapse 1000)
           (step (CoordInput Latitude "12") example_page)).
  discriminate.
Defined.

(** ** The two sections *)

(** X4. If exactly one of the two sections is active, this stays so after
    any run of events: navigation swaps them, a refused step forward and
    every other event leave them alone. *)
Theorem one_section_stays_active (es : list Event) (p : Page) :
  one_section_active p → one_section_active (run es p).
Proof.
  revert p. induction es as [| e es IH]; intros p Hone; [done |].
  apply IH. unfold one_section_active in *.
  destruct e as [c | c | f text | [| | lo la] | text | i | r | r | | | | dt];
    simpl; try done.
  - unfold updateMarkerFromInputs. by destruct (valid_coordinate _ _).
  - by destruct (suggestions p !! i).
  - unfold updateFromMarker_response. by destruct r as [| | [[|] |]].
  - unfold addressSearch_response. by destruct r as [| | [[|] |]].
  - unfold nextSection. by destruct (_ || _)%bool.
  - unfold submitData. by destruct (first_missing _).
  - set (q := set_now (now p + dt)%N p).
    destruct (run_timers_order q) as [-> | ->].
    + destruct (fire_search_untouched (fire_geocode q))
        as (_ & _ & _ & _ & _ & _ & -> & ->).
      by destruct (fire_geocode_untouched q)
        as (_ & _ & _ & _ & _ & _ & _ & -> & ->).
    + destruct (fire_geocode_untouched (fire_search q))
        as (_ & _ & _ & _ & _ & _ & _ & -> & ->).
      by destruct (fire_search_untouched q)
        as (_ & _ & _ & _ & _ & _ & -> & ->).
Qed.

Lemma one_section_stays_active_witness :
  one_section_active
    (run [NextSection; CoordInput Latitude "12"; PreviousSection; NextSection;
          Elapse 700; SubmitData] example_page).
Proof. apply (one_section_stays_active _ example_page). reflexivity. Defined.

(** X5. With both coordinates present, stepping forward and then back, or
    back and then forward, returns the page to exactly the state it was
    in. *)
Theorem previousSection_undoes_nextSection (p : Page) :
  value "latitude" p ≠ "" → value "longitude" p ≠ "" →
  (locationActive p = true → dataActive p = false →
     previousSection (nextSection p) = p)
  ∧ (locationActive p = false → dataActive p = true →
     nextSection (previousSection p) = p).
Proof.
  intros Hlat Hlng. apply eqb_nonempty in Hlat, Hlng.
  split; intros Hloc Hdata.
  - unfold nextSection. rewrite Hlat, Hlng. destruct p. simpl in *.
    by subst.
  - unfold nextSection.
    change (value ?id (previousSection p)) with (value id p).
    rewrite Hlat, Hlng. destruct p. simpl in *. by subst.
Qed.

Lemma previousSection_undoes_nextSection_witness :
  previousSection (nextSection example_page) = example_page
  ∧ nextSection (previousSection (nextSection example_page))
    = nextSection example_page.
Proof.
  split.
  - apply (previousSection_undoes_nextSection example_page); done.
  - apply (previousSection_undoes_nextSection (nextSection example_page));
      done.
Defined.

(** ** The suggestion list *)



(** X7. Choosing an entry of the list a search response has shown puts the
    marker on the centre of that feature, writes the two coordinate fields
    with the centre rounded to five decimals, sends the reverse-geocoding
    request for it and hides the list, which keeps its entries. *)
Theorem suggestion_selection (fs : list Feature) (i : nat) (place : Feature)
    (p : Page) :
  fs !! i = Some place →
  let q := step (SuggestionClick i) (step (SearchResponse (Json (Some fs))) p) in
  marker q = place_center place
  ∧ value "latitude" q = toFixed 5 (lat (place_center place))
  ∧ value "longitude" q = toFixed 5 (lng (place_center place))
  ∧ reverse_requests q
    = (reverse_requests p
         ++ [ReverseGeocode (toFixed 5 (lng (place_center place)))
               (toFixed 5 (lat (place_center place)))])%list
  ∧ suggestionsHidden q = true
  ∧ suggestions q = fs.
Proof.
  intros Hplace q. subst q.
  destruct fs as [| f fs']; [done |].
  simpl step at 2. unfold addressSearch_response.
  simpl step. rewrite Hplace. unfold suggestion_click.
  match goal with |- context [updateFromMarker ?c ?r] =>
    destruct (updateFromMarker_fields c r) as (Hlat & Hlng & _ & Hm & Hr) end.
  repeat split; done.
Qed.

Lemma suggestion_selection_witness :
  marker
    (step (SuggestionClick 0)
       (step (SearchResponse (Json (Some [example_feature]))) example_page))
    = place_center example_feature
  ∧ suggestionsHidden
      (step (SuggestionClick 0)
         (step (SearchResponse (Json (Some [example_feature]))) example_page))
    = true.
Proof.
  destruct (suggestion_selection [example_feature] 0 example_feature
              example_page eq_refl) as (Hm & _ & _ & _ & Hh & _).
  by split.
Defined.

(** ** A pending lookup is not cancelled *)

(** When the geocoding timer is due, time passing runs [updateFromMarker]
    for the pair the timer holds. *)
Lemma elapse_fires (q : Page) (t dt : N) (c : LngLat) :
  Debounce.timeout (debouncedUpdateFromMarker q) = Some (t, c) →
  (t <= now q + dt)%N →
  reverse_requests (step (Elapse dt) q)
  = (reverse_requests q
       ++ [ReverseGeocode (toFixed 5 (lng c)) (toFixed 5 (lat c))])%list
  ∧ value "latitude" (step (Elapse dt) q) = toFixed 5 (lat c)
  ∧ value "longitude" (step (Elapse dt) q) = toFixed 5 (lng c)
  ∧ marker (step (Elapse dt) q) = marker q.
Proof.
  intros Htimer Hdue. simpl step. set (q2 := set_now (now q + dt)%N q).
  assert (Debounce.timeout (debouncedUpdateFromMarker q2) = Some (t, c))
    as Htimer2 by done.
  assert (t <= now q2)%N as Hdue2 by done.
  destruct (run_timers_order q2) as [-> | ->].
  - destruct (fire_search_frame (fire_geocode q2)) as (-> & Hv & _ & _ & ->).
    rewrite !(value_same_values _ _ _ Hv).
    rewrite (fire_geocode_due _ _ _ Htimer2 Hdue2).
    match goal with |- context [updateFromMarker c ?r] =>
      destruct (updateFromMarker_fields c r) as (-> & -> & _ & -> & ->) end.
    done.
  - destruct (fire_search_frame q2) as (Hr & _ & Hd & Hn & Hm).
    rewrite <- Hd in Htimer2. rewrite <- Hn in Hdue2.
    rewrite (fire_geocode_due _ _ _ Htimer2 Hdue2).
    match goal with |- context [updateFromMarker c ?r] =>
      destruct (updateFromMarker_fields c r) as (-> & -> & _ & -> & ->) end.
    change (reverse_requests (set_debouncedUpdateFromMarker _ ?r))
      with (reverse_requests r).
    change (marker (set_debouncedUpdateFromMarker _ ?r)) with (marker r).
    by rewrite Hm, Hr.
Qed.

(** A typed text that fails the guard changes the field and nothing
    else. *)
Lemma coord_input_invalid (f : CoordField) (text : string) (p : Page) :
  coordinate_set (CoordInput f text) p = None →
  step (CoordInput f text) p = set_value (field_id f) text p.
Proof.
  cbn [coordinate_set step]. unfold updateMarkerFromInputs.
  by destruct (valid_coordinate _ _).
Qed.

(** X8. An invalid text typed after a valid one does not cancel the pending
    lookup. When a valid pair has been typed and, less than 500ms later, a
    text that fails the guard (empty, not a number, out of range) is typed,
    the timer still runs 500ms after the valid keystroke: the request for
    the earlier valid pair is sent and both fields are overwritten with
    that pair, rounded; the marker stays on it. *)
Theorem invalid_text_keeps_pending_lookup (p : Page) (f f' : CoordField)
    (text text' : string) (gap dt : N) (c : LngLat) :
  well_formed p →
  coordinate_set (CoordInput f text) p = Some c →
  (gap < 500)%N →
  coordinate_set (CoordInput f' text')
    (step (Elapse gap) (step (CoordInput f text) p)) = None →
  (500 <= gap + dt)%N →
  let q := run [CoordInput f text; Elapse gap; CoordInput f' text'; Elapse dt]
             p in
  reverse_requests q
  = (reverse_requests p
       ++ [ReverseGeocode (toFixed 5 (lng c)) (toFixed 5 (lat c))])%list
  ∧ value "latitude" q = toFixed 5 (lat c)
  ∧ value "longitude" q = toFixed 5 (lng c)
  ∧ marker q = c.
Proof.
  intros Hwf Hset Hgap Hinvalid Hdt q. subst q.
  change (run [CoordInput f text; Elapse gap; CoordInput f' text'; Elapse dt] p)
    with (step (Elapse dt) (step (CoordInput f' text')
            (step (Elapse gap) (step (CoordInput f text) p)))).
  pose proof (coord_input_pending f text p Hwf (ex_intro _ c Hset))
    as Hpending.
  destruct (coord_input_valid f text p c Hset) as [Hstep Hc].
  rewrite (coord_input_invalid _ _ _ Hinvalid).
  rewrite (elapse_pending _ _ gap _ Hpending Hgap).
  destruct Hpending as (_ & Hsent & Hnow & Htimer). rewrite <- Hc in Htimer.
  set (p1 := step (CoordInput f text) p) in *.
  set (p2 := fire_search (set_now (now p + gap)%N p1)) in *.
  destruct (fire_search_frame (set_now (now p + gap)%N p1))
    as (Hr2 & _ & Hd2 & Hn2 & Hm2).
  set (p3 := set_value (field_id f') text' p2).
  assert (Debounce.timeout (debouncedUpdateFromMarker p3)
          = Some ((now p + 500)%N, c)) as Htimer3.
  { change (debouncedUpdateFromMarker p3) with (debouncedUpdateFromMarker p2).
    subst p2. by rewrite Hd2. }
  assert (now p3 = (now p + gap)%N) as Hnow3.
  { change (now p3) with (now p2). subst p2. by rewrite Hn2. }
  destruct (elapse_fires p3 _ dt c Htimer3) as (-> & -> & -> & ->);
    [rewrite Hnow3; lia |].
  assert (marker p1 = c) as Hmarker by (subst p1; by rewrite Hstep).
  assert (reverse_requests p3 = reverse_requests p) as ->.
  { transitivity (reverse_requests p2); [done |]. subst p2.
    rewrite Hr2. exact Hsent. }
  assert (marker p3 = c) as ->.
  { transitivity (marker p2); [done |]. subst p2. rewrite Hm2. exact Hmarker. }
  done.
Qed.

Lemma invalid_text_keeps_pending_lookup_witness :
  reverse_requests
    (run [CoordInput Latitude "12.5"; Elapse 200; CoordInput Latitude "";
          Elapse 300] example_page)
    = [ReverseGeocode "77.59460" "12.50000"]
  ∧ value "latitude"
      (run [CoordInput Latitude "12.5"; Elapse 200; CoordInput Latitude "";
            Elapse 300] example_page)
    = "12.50000".
Proof.
  destruct (invalid_text_keeps_pending_lookup example_page Latitude Latitude
              "12.5" "" 200 300
              {| lng := parseFloat "77.59460"; lat := parseFloat "12.5" |})
    as (Hr & Hlat & _).
  - by split.
  - vm_compute. reflexivity.
  - lia.
  - vm_compute. reflexivity.
  - lia.
  - split; [exact Hr | exact Hlat].
Defined.

(** ** Debounced address search *)

Lemma address_input_pending (text : string) (p : Page) :
  well_formed p →
  search_pending_for (forward_requests p) (now p) text
    (step (AddressInput text) p).
Proof. intros [Hg Hs]. repeat split; try done. simpl. by rewrite Hs. Qed.

(** While the search timer is pending, time passing runs at most the
    geocoding timer. *)
Lemma elapse_search_pending (sent : list Request) (since gap : N)
    (text : string) (q : Page) :
  search_pending_for sent since text q → (gap < 300)%N →
  step (Elapse gap) q = fire_geocode (set_now (since + gap)%N q).
Proof.
  intros (Hwf & Hsent & Hnow & Htimer) Hgap. simpl step. rewrite Hnow.
  set (q2 := set_now (since + gap)%N q).
  assert (Debounce.timeout (debouncedAddressSearch q2)
          = Some ((since + 300)%N, text)) as Htimer2 by done.
  assert (now q2 < since + 300)%N as Hlt by (simpl; lia).
  destruct (run_timers_order q2) as [-> | ->].
  - destruct (fire_geocode_frame q2) as (_ & _ & Hd & Hn & _).
    rewrite <- Hd in Htimer2. rewrite <- Hn in Hlt.
    by rewrite (fire_search_pending _ _ _ Htimer2 Hlt).
  - by rewrite (fire_search_pending _ _ _ Htimer2 Hlt).
Qed.

Lemma address_keystroke_pending (sent : list Request) (since gap : N)
    (text text' : string) (q : Page) :
  search_pending_for sent since text q → (gap < 300)%N →
  search_pending_for sent (since + gap)%N text'
    (step (AddressInput text') (step (Elapse gap) q)).
Proof.
  intros Hpending Hgap.
  rewrite (elapse_search_pending sent since gap text q Hpending Hgap).
  destruct Hpending as (Hwf & Hsent & Hnow & Htimer).
  set (q2 := set_now (since + gap)%N q).
  destruct (fire_geocode_frame q2) as (Hf & _ & _ & Hn & _).
  assert (well_formed (fire_geocode q2)) as Hwf'
    by (by apply fire_geocode_well_formed).
  pose proof (address_input_pending text' _ Hwf') as Hnew.
  rewrite Hf, Hn in Hnew. rewrite <- Hsent. exact Hnew.
Qed.

Lemma last_text (text t : string) (l : list string) :
  default text (last (t :: l)) = default t (last l).
Proof.
  revert text t. induction l as [| u l IH]; intros text t; [done |].
  change (last (t :: u :: l)) with (last (u :: l)).
  by rewrite (IH text u), (IH t u).
Qed.

Lemma address_burst_pending (ks : list (N * string)) (sent : list Request)
    (since : N) (text : string) (q : Page) :
  search_pending_for sent since text q → quick ks = true →
  ∃ since', search_pending_for sent since' (default text (last ks.*2))
              (run (flat_map address_events ks) q).
Proof.
  revert since text q.
  induction ks as [| [gap t] ks IH]; intros since text q Hpending Hquick.
  - by exists since.
  - simpl in Hquick. apply andb_true_iff in Hquick as [Hgap Hrest].
    apply N.ltb_lt in Hgap.
    change (((gap, t) :: ks).*2) with (t :: ks.*2). rewrite last_text.
    apply (IH (since + gap)%N t); [| done].
    by apply (address_keystroke_pending sent since gap text).
Qed.

(** Once the pending search timer is due, it runs the search function on
    the text typed last, and is cleared. *)
Lemma elapse_search_due (sent : list Request) (since dt : N) (text : string)
    (q : Page) :
  search_pending_for sent since text q → (300 <= dt)%N →
  forward_requests (step (Elapse dt) q) = (sent ++ search_request text)%list
  ∧ ((String.length text < 3)%nat →
     suggestionsHidden (step (Elapse dt) q) = true)
  ∧ Debounce.timeout (debouncedAddressSearch (step (Elapse dt) q)) = None.
Proof.
  intros (Hwf & Hsent & Hnow & Htimer) Hdt. simpl step. rewrite Hnow.
  set (q2 := set_now (since + dt)%N q).
  assert (Debounce.timeout (debouncedAddressSearch q2)
          = Some ((since + 300)%N, text)) as Htimer2 by done.
  assert (since + 300 <= now q2)%N as Hdue by (simpl; lia).
  assert (forward_requests q2 = sent) as Hsent2 by done.
  assert (∀ r, forward_requests r = sent →
            forward_requests
              (addressSearch text
                 (set_debouncedAddressSearch
                    (Debounce.fired (debouncedAddressSearch r)) r))
            = (sent ++ search_request text)%list
            ∧ ((String.length text < 3)%nat →
               suggestionsHidden
                 (addressSearch text
                    (set_debouncedAddressSearch
                       (Debounce.fired (debouncedAddressSearch r)) r)) = true)
            ∧ Debounce.timeout
                (debouncedAddressSearch
                   (addressSearch text
                      (set_debouncedAddressSearch
                         (Debounce.fired (debouncedAddressSearch r)) r)))
              = None) as Hrun.
  { intros r Hr. unfold addressSearch, search_request.
    destruct (Nat.ltb_spec (String.length text) 3).
    - split; [by rewrite app_nil_r |]. done.
    - rewrite forward_requests_fetch_forward.
      split; [by rewrite <- Hr |]. split; [lia | done]. }
  destruct (run_timers_order q2) as [-> | ->].
  - destruct (fire_geocode_frame q2) as (Hf & _ & Hd & Hn & _).
    rewrite <- Hd in Htimer2. rewrite <- Hn in Hdue.
    rewrite (fire_search_due _ _ _ Htimer2 Hdue).
    apply Hrun. by rewrite Hf.
  - rewrite (fire_search_due _ _ _ Htimer2 Hdue).
    match goal with |- context [fire_geocode ?r] =>
      destruct (fire_geocode_frame r) as (-> & -> & -> & _) end.
    by apply Hrun.
Qed.

(** With no search timer set, time passing sends no forward request. *)
Lemma elapse_search_idle (dt : N) (q : Page) :
  Debounce.timeout (debouncedAddressSearch q) = None →
  forward_requests (step (Elapse dt) q) = forward_requests q.
Proof.
  intros Hnone. simpl step. set (q2 := set_now (now q + dt)%N q).
  assert (∀ r, Debounce.timeout (debouncedAddressSearch r) = None →
               fire_search r = r) as Hidle.
  { intros r Hr. unfold fire_search, Debounce.due. by rewrite Hr. }
  destruct (run_timers_order q2) as [-> | ->].
  - destruct (fire_geocode_frame q2) as (Hf & _ & Hd & _).
    rewrite Hidle by (by rewrite Hd). by rewrite Hf.
  - rewrite (Hidle q2 Hnone). by destruct (fire_geocode_frame q2) as (-> & _).
Qed.

(** X9. The address search is debounced with a 300ms window. In a burst of
    keystrokes in the address field, each less than 300ms after the one
    before, no forward-geocoding request is sent while the burst lasts;
    once 300ms have passed after the last keystroke, one request is sent
    for the text typed last if it has at least 3 characters, none if it is
    shorter (the suggestions are then hidden), and none follows. *)
Theorem address_search_debounce (p : Page) (text : string)
    (ks : list (N * string)) (dt : N) :
  well_formed p → quick ks = true → (300 <= dt)%N →
  let q := run (AddressInput text :: flat_map address_events ks) p in
  let final := default text (last ks.*2) in
  forward_requests q = forward_requests p
  ∧ forward_requests (step (Elapse dt) q)
    = (forward_requests p ++ search_request final)%list
  ∧ ((String.length final < 3)%nat →
     suggestionsHidden (step (Elapse dt) q) = true)
  ∧ ∀ dt', forward_requests (step (Elapse dt') (step (Elapse dt) q))
           = forward_requests (step (Elapse dt) q).
Proof.
  intros Hwf Hquick Hdt q final.
  pose proof (address_input_pending text p Hwf) as Hpending.
  destruct (address_burst_pending ks _ _ _ _ Hpending Hquick)
    as [since Hlast].
  change (run (flat_map address_events ks) (step (AddressInput text) p))
    with q in Hlast. fold final in Hlast.
  destruct (elapse_search_due _ _ dt _ q Hlast Hdt) as (Hsent & Hhide & Hnone).
  split; [by destruct Hlast as (_ & ? & _) |].
  split; [exact Hsent |]. split; [exact Hhide |].
  intros dt'. by apply elapse_search_idle.
Qed.

Lemma address_search_debounce_witness :
  forward_requests
    (run [AddressInput "M"; Elapse 100; AddressInput "MG"; Elapse 299;
          AddressInput "MG Road"] example_page) = []
  ∧ forward_requests
      (step (Elapse 300)
         (run [AddressInput "M"; Elapse 100; AddressInput "MG"; Elapse 299;
               AddressInput "MG Road"] example_page))
    = [ForwardGeocode "MG Road"].
Proof.
  destruct (address_search_debounce example_page "M"
              [(100%N, "MG"); (299%N, "MG Road")] 300)
    as (Hquiet & Hone & _).
  - by split.
  - reflexivity.
  - lia.
  - split; [exact Hquiet | exact Hone].
Defined.

(** ** More on the payload *)

Lemma binary_round_aux_sign (s : bool) (m e : Z) (l : SpecFloat.location) :
  binary_round_aux prec emax s m e l = S754_nan
  ∨ sign_bit (binary_round_aux prec emax s m e l) = s.
Proof.
  unfold binary_round_aux.
  destruct (shr_fexp prec emax m e l) as [mrs' e'].
  destruct (shr_fexp prec emax _ e' loc_Exact) as [mrs'' e''].
  destruct (shr_m mrs''); [by right | | by left].
  destruct (e'' <=? emax - prec); by right.
Qed.

Lemma parseInt_before_dash_sign (s : string) :
  parseInt (before "-" s) = S754_nan
  ∨ sign_bit (parseInt (before "-" s)) = false.
Proof.
  unfold parseInt.
  pose proof (read_sign_free (trim_start (before "-" s))
                (trim_start_free _ _ (before_free "-" s))) as Hsign.
  destruct (read_sign (trim_start (before "-" s))) as [sg r0].
  simpl in Hsign. subst sg.
  destruct (match r0 with
            | String "0" (String "x" r) | String "0" (String "X" r) => (16%N, r)
            | _ => (10%N, r0)
            end) as [radix r1].
  destruct (read_digits radix 0 r1) as [[v k] rest].
  destruct (k =? 0)%nat; [by left |].
  unfold of_decimal. destruct v as [| q]; [by right |].
  simpl (0 <=? 0). cbv iota. unfold binary_round.
  destruct (shl_align _ _ _) as [mz ez]. apply binary_round_aux_sign.
Qed.

(** X10. Whatever the household-size field holds, the submitted
    [household_size] is a number that is neither NaN nor negative: text
    that is not a number, and text that starts with a minus sign, give 0. *)
Theorem household_size_is_a_count (hs : string) :
  isNaN (household_size hs) = false ∧ sign_bit (household_size hs) = false.
Proof.
  assert (∀ t, isNaN (or_else (parseInt (before "-" t)) (of_Z 0)) = false
               ∧ sign_bit (or_else (parseInt (before "-" t)) (of_Z 0)) = false)
    as Hgen.
  { intros t. destruct (parseInt_before_dash_sign t) as [-> | Hsign]; [done |].
    by destruct (parseInt (before "-" t)). }
  unfold household_size.
  destruct (String.eqb hs "").
  - destruct (split_before "-" "0") as [rest ->]. apply Hgen.
  - destruct (split_before "-" hs) as [rest ->]. apply Hgen.
Qed.

(** X11. Validation only asks that the rooftop area is not empty: a form
    whose rooftop area does not start with a number passes validation and
    is submitted with [rooftop_area] set to the text NaN. *)
Theorem rooftop_area_not_a_number (p : Page) :
  value "latitude" p ≠ "" → value "longitude" p ≠ "" →
  value "fullName" p ≠ "" → value "rooftopArea" p ≠ "" →
  value "openSpaceArea" p ≠ "" →
  isNaN (parseFloat (value "rooftopArea" p)) = true →
  ∃ form,
    forms (submitData p) = (forms p ++ [form])%list
    ∧ ("rooftop_area", VString "NaN") ∈ inputs form.
Proof.
  intros H1 H2 H3 H4 H5 Hnan. exists (hidden_form (collect p)). split.
  { unfold submitData. by rewrite (first_missing_none p H1 H2 H3 H4 H5). }
  do 6 apply list_elem_of_further.
  assert (rooftop_area (rooftopArea (propertyDetails (collect p))) = "NaN")
    as ->; [| apply list_elem_of_here].
  simpl. unfold rooftop_area. apply eqb_nonempty in H4. rewrite H4.
  by destruct (parseFloat (value "rooftopArea" p)).
Qed.

Lemma rooftop_area_not_a_number_witness :
  ∃ form,
    forms (submitData (set_value "rooftopArea" "about 90" example_page))
      = [form]
    ∧ ("rooftop_area", VString "NaN") ∈ inputs form.
Proof.
  apply (rooftop_area_not_a_number
           (set_value "rooftopArea" "about 90" example_page));
    vm_compute; (discriminate || reflexivity).
Defined.

Lemma split_without_separator (sep : ascii) (s : string) :
  occurs sep s = false → split sep s = [s].
Proof.
  induction s as [| c r IH]; simpl; [done |].
  intros H. apply orb_false_iff in H as [Hc Hr].
  by rewrite Hc, (IH Hr).
Qed.

Lemma split_at_separator (sep : ascii) (s r : string) :
  occurs sep s = false →
  split sep (s ++ String sep r) = s :: split sep r.
Proof.
  induction s as [| c s IH]; simpl.
  - intros _. by rewrite Ascii.eqb_refl.
  - intros H. apply orb_false_iff in H as [Hc Hs].
    by rewrite Hc, (IH Hs).
Qed.

(** X12. The checked water sources are written to
    [existing_water_sources] joined by commas. When at least one box is
    checked and no value contains a comma, splitting the field at its
    commas gives back exactly the checked values, in order; with no box
    checked the field is empty and splits into one empty value. *)
Theorem water_sources_round_trip (p : Page) :
  ("existing_water_sources", VString (join "," (waterSources p)))
    ∈ dataToSubmit (collect p)
  ∧ (waterSources p ≠ [] →
     Forall (λ w, occurs "," w = false) (waterSources p) →
     split "," (join "," (waterSources p)) = waterSources p)
  ∧ (waterSources p = [] → split "," (join "," (waterSources p)) = [""]).
Proof.
  split. { do 9 apply list_elem_of_further. apply list_elem_of_here. }
  split; [| by intros ->].
  generalize (waterSources p). intros ws.
  induction ws as [| w ws IH]; [done |]. intros _ Hfree.
  apply Forall_cons in Hfree as [Hw Hws].
  destruct ws as [| w' ws].
  - by apply split_without_separator.
  - change (join "," (w :: w' :: ws))
      with (w ++ String "," (join "," (w' :: ws)))%string.
    rewrite (split_at_separator _ _ _ Hw). f_equal. by apply IH.
Qed.

Lemma water_sources_round_trip_witness :
  split "," (join "," (waterSources example_page)) = ["borewell"; "municipal"]
  ∧ split "," (join "," (waterSources (loaded [] ∅ []))) = [""].
Proof.
  destruct (water_sources_round_trip example_page) as (_ & Hsome & _).
  destruct (water_sources_round_trip (loaded [] ∅ [])) as (_ & _ & Hnone).
  split.
  - apply Hsome; [discriminate | by repeat constructor].
  - by apply Hnone.
Defined.

(** ** The area calculator *)

Lemma is_positive_sign (x : number) :
  is_positive x = true → isNaN x = false ∧ sign_bit x = false.
Proof. by destruct x as [[] | [] | | [] m e]. Qed.

Lemma dimension_falsy (id : string) (p : Page) :
  truthy (parseFloat (value id p)) = false →
  dimension id p = S754_zero false.
Proof. intros H. unfold dimension, or_else. by rewrite H. Qed.

Lemma mul_zero_not_positive (x : number) :
  is_positive (mul (S754_zero false) x) = false
  ∧ is_positive (mul x (S754_zero false)) = false.
Proof. by destruct x as [[] | [] | | [] m e]. Qed.

Lemma mul_sign (x y : number) :
  truthy x = true → truthy y = true →
  mul x y = S754_nan ∨ sign_bit (mul x y) = xorb (sign_bit x) (sign_bit y).
Proof.
  destruct x as [sx | sx | | sx mx ex]; try done;
    destruct y as [sy | sy | | sy my ey]; try done; intros _ _;
    try (by right).
  apply binary_round_aux_sign.
Qed.

(** X13. The area calculator writes nothing, and leaves the whole page as
    it is, when the length or the width is empty, not a number or zero, and
    when exactly one of them is negative. It never changes an element other
    than the rooftop area, and what it writes there is the product of the
    two dimensions, which is then positive. *)
Theorem calculateArea_guard (p : Page) :
  (truthy (parseFloat (value "length" p)) = false
   ∨ truthy (parseFloat (value "width" p)) = false
   ∨ sign_bit (dimension "length" p) ≠ sign_bit (dimension "width" p) →
     calculateArea p = p)
  ∧ (∀ id, id ≠ "rooftopArea" → value id (calculateArea p) = value id p)
  ∧ (value "rooftopArea" (calculateArea p) ≠ value "rooftopArea" p →
     is_positive (mul (dimension "length" p) (dimension "width" p)) = true
     ∧ value "rooftopArea" (calculateArea p)
       = toString (mul (dimension "length" p) (dimension "width" p))).
Proof.
  split; [| split].
  - intros Hcase. unfold calculateArea.
    assert (is_positive (mul (dimension "length" p) (dimension "width" p))
            = false) as ->; [| done].
    destruct Hcase as [Hl | [Hw | Hsign]].
    + rewrite (dimension_falsy _ _ Hl). apply mul_zero_not_positive.
    + rewrite (dimension_falsy _ _ Hw). apply mul_zero_not_positive.
    + destruct (truthy (dimension "length" p)) eqn:Hl;
        destruct (truthy (dimension "width" p)) eqn:Hw.
      * destruct (mul_sign _ _ Hl Hw) as [-> | Hs]; [done |].
        destruct (is_positive (mul _ _)) eqn:Hpos; [| done].
        apply is_positive_sign in Hpos as [_ Hpos]. rewrite Hpos in Hs.
        destruct (sign_bit (dimension "length" p)),
          (sign_bit (dimension "width" p)); done.
      * destruct (dimension "width" p) as [[] | | |]; try done;
          by destruct (dimension "length" p) as [[] | [] | | [] m e].
      * destruct (dimension "length" p) as [[] | | |]; try done;
          by destruct (dimension "width" p) as [[] | [] | | [] m e].
      * destruct (dimension "width" p) as [[] | | |]; try done;
          by destruct (dimension "length" p) as [[] | [] | | [] m e].
  - intros id Hne. unfold calculateArea.
    destruct (is_positive _); [| done]. by apply value_set_value_ne.
  - unfold calculateArea. destruct (is_positive _); [| done].
    intros _. split; [done |]. apply value_set_value.
Qed.

Lemma calculateArea_guard_witness :
  calculateArea (set_value "width" "8" example_page)
    = set_value "width" "8" example_page
  ∧ calculateArea
      (set_value "length" "-3" (set_value "width" "8" example_page))
    = set_value "length" "-3" (set_value "width" "8" example_page)
  ∧ value "rooftopArea"
      (calculateArea
         (set_value "length" "7.5" (set_value "width" "4" example_page)))
    = "30".
Proof.
  destruct (calculateArea_guard (set_value "width" "8" example_page))
    as (Hempty & _).
  destruct (calculateArea_guard
              (set_value "length" "-3" (set_value "width" "8" example_page)))
    as (Hsign & _).
  destruct (calculateArea_guard
              (set_value "length" "7.5" (set_value "width" "4" example_page)))
    as (_ & _ & Hwrite).
  split; [apply Hempty; left; vm_compute; reflexivity |].
  split; [apply Hsign; right; right; vm_compute; discriminate |].
  destruct Hwrite as [_ Hvalue]; [vm_compute; discriminate |].
  rewrite Hvalue. vm_compute. reflexivity.
Defined.

(** X14. The listeners of the two dimension fields and the calculator use
    different guards. They write the same area when both dimensions and
    their product are positive. With two negative dimensions whose product
    is positive the calculator writes the product and the listener writes
    nothing; with two positive dimensions whose product is not positive
    (it underflows to zero) the listener writes it and the calculator
    writes nothing. *)
Theorem dimension_input_and_calculateArea (id text : string) (p : Page) :
  let q := set_value id text p in
  let len := dimension "length" q in
  let wid := dimension "width" q in
  (is_positive len = true → is_positive wid = true →
   is_positive (mul len wid) = true →
     dimension_input id text p = calculateArea q)
  ∧ (sign_bit len = true → sign_bit wid = true →
     is_positive (mul len wid) = true →
       dimension_input id text p = q
       ∧ calculateArea q = set_value "rooftopArea" (toString (mul len wid)) q)
  ∧ (is_positive len = true → is_positive wid = true →
     is_positive (mul len wid) = false →
       dimension_input id text p
         = set_value "rooftopArea" (toString (mul len wid)) q
       ∧ calculateArea q = q).
Proof.
  intros q len wid. unfold dimension_input, calculateArea.
  fold q. fold len. fold wid. split; [| split].
  - by intros -> -> ->.
  - intros Hl Hw ->. split; [| done].
    assert (is_positive len = false) as ->; [| done].
    destruct (is_positive len) eqn:Hpos; [| done].
    apply is_positive_sign in Hpos as [_ Hpos]. congruence.
  - by intros -> -> ->.
Qed.

Lemma dimension_input_and_calculateArea_witness :
  dimension_input "length" "12.5" (set_value "width" "8" example_page)
    = calculateArea
        (set_value "length" "12.5" (set_value "width" "8" example_page))
  ∧ (dimension_input "length" "-2" (set_value "width" "-3" example_page)
       = set_value "length" "-2" (set_value "width" "-3" example_page)
     ∧ value "rooftopArea"
         (calculateArea
            (set_value "length" "-2" (set_value "width" "-3" example_page)))
       = "6")
  ∧ (value "rooftopArea"
       (dimension_input "length" "1e-200"
          (set_value "width" "1e-200" example_page)) = "0"
     ∧ calculateArea
         (set_value "length" "1e-200"
            (set_value "width" "1e-200" example_page))
       = set_value "length" "1e-200"
           (set_value "width" "1e-200" example_page)).
Proof.
  destruct (dimension_input_and_calculateArea "length" "12.5"
              (set_value "width" "8" example_page)) as (Hsame & _).
  destruct (dimension_input_and_calculateArea "length" "-2"
              (set_value "width" "-3" example_page)) as (_ & Hneg & _).
  destruct (dimension_input_and_calculateArea "length" "1e-200"
              (set_value "width" "1e-200" example_page)) as (_ & _ & Htiny).
  split; [apply Hsame; vm_compute; reflexivity |]. split.
  - destruct Hneg as [Hl Hc]; [vm_compute; reflexivity .. |].
    split; [exact Hl |]. rewrite Hc. vm_compute. reflexivity.
  - destruct Htiny as [Hl Hc]; [vm_compute; reflexivity .. |].
    split; [| exact Hc]. rewrite Hl. vm_compute. reflexivity.
Defined.

(** * The sign-in page *)

Module LoginFacts.
Import Login.

Lemma length_append (a b : string) :
  String.length (a ++ b) = (String.length a + String.length b)%nat.
Proof. induction a as [| c a IH]; simpl; [done |]. by rewrite IH. Qed.

Lemma length_join_empty (l : list string) :
  String.length (join "" l) = sum_list (String.length <$> l).
Proof.
  induction l as [| a l IH]; [done |].
  destruct l as [| b l]; [simpl; lia |].
  change (join "" (a :: b :: l)) with (a ++ "" ++ join "" (b :: l))%string.
  rewrite !length_append, IH. simpl. lia.
Qed.

(** What the two section switches do to each element. *)
Lemma lookup_showAwarenessSection (s : State) (i : string) :
  elements (showAwarenessSection s) !! i
  = (if decide (i = "step2") then add_class "active"
     else if decide (i = "awarenessSection") then add_class "active"
     else if decide (i = "loginSection") then remove_class "active"
     else id) <$> elements s !! i.
Proof.
  unfold showAwarenessSection, classList_add, classList_remove. simpl.
  repeat case_decide; subst;
    rewrite ?lookup_alter_eq, ?lookup_alter_ne by done;
    rewrite ?lookup_alter_eq, ?lookup_alter_ne by done;
    rewrite ?lookup_alter_eq, ?lookup_alter_ne by done;
    try done. by rewrite option_fmap_id.
Qed.

Lemma lookup_goBack (s : State) (i : string) :
  elements (goBack s) !! i
  = (if decide (i = "step2") then remove_class "active"
     else if decide (i = "loginSection") then add_class "active"
     else if decide (i = "awarenessSection") then remove_class "active"
     else id) <$> elements s !! i.
Proof.
  unfold goBack, classList_add, classList_remove. simpl.
  repeat case_decide; subst;
    rewrite ?lookup_alter_eq, ?lookup_alter_ne by done;
    rewrite ?lookup_alter_eq, ?lookup_alter_ne by done;
    rewrite ?lookup_alter_eq, ?lookup_alter_ne by done;
    try done. by rewrite option_fmap_id.
Qed.

Lemma showAwarenessSection_frame (s : State) :
  showAwarenessSection s = set_elements (elements (showAwarenessSection s)) s.
Proof. done. Qed.

Lemma goBack_frame (s : State) :
  goBack s = set_elements (elements (goBack s)) s.
Proof. done. Qed.

Lemma remove_add_class (c : string) (e : Element) :
  c ∉ classes e → remove_class c (add_class c e) = e.
Proof.
  intros Hc. destruct e as [cl v t ch d].
  unfold remove_class, add_class, with_classes. simpl in *. f_equal.
  apply set_eq. intros x.
  rewrite elem_of_difference, elem_of_union, elem_of_singleton. split.
  - by intros [[-> | Hx] Hne].
  - intros Hx. split; [by right | by intros ->].
Qed.

Lemma add_remove_class (c : string) (e : Element) :
  c ∈ classes e → add_class c (remove_class c e) = e.
Proof.
  intros Hc. destruct e as [cl v t ch d].
  unfold remove_class, add_class, with_classes. simpl in *. f_equal.
  apply set_eq. intros x.
  rewrite elem_of_union, elem_of_difference, elem_of_singleton. split.
  - by intros [-> | [Hx _]].
  - intros Hx. destruct (decide (x = c)) as [-> | Hne]; [by left | by right].
Qed.

Lemma add_class_twice (c : string) (e : Element) :
  add_class c (add_class c e) = add_class c e.
Proof.
  destruct e as [cl v t ch d]. unfold add_class, with_classes. simpl.
  f_equal. apply set_eq. intros x. rewrite !elem_of_union. tauto.
Qed.

Lemma remove_class_twice (c : string) (e : Element) :
  remove_class c (remove_class c e) = remove_class c e.
Proof.
  destruct e as [cl v t ch d]. unfold remove_class, with_classes. simpl.
  f_equal. apply set_eq. intros x. rewrite !elem_of_difference. tauto.
Qed.

(** X16. Going back undoes the step to the awareness section: from a page
    whose sign-in section is active and whose awareness section and second
    step marker are not, [showAwarenessSection] followed by [goBack] gives
    back exactly the page, whichever of the three elements exist. *)
Theorem goBack_undoes_showAwarenessSection (s : State) :
  (∀ e, elements s !! "loginSection" = Some e → "active" ∈ classes e) →
  (∀ e, elements s !! "awarenessSection" = Some e → "active" ∉ classes e) →
  (∀ e, elements s !! "step2" = Some e → "active" ∉ classes e) →
  goBack (showAwarenessSection s) = s.
Proof.
  intros Hlogin Hawareness Hstep.
  rewrite goBack_frame.
  assert (elements (goBack (showAwarenessSection s)) = elements s) as ->;
    [| by destruct s].
  apply map_eq. intros i.
  rewrite lookup_goBack, lookup_showAwarenessSection.
  destruct (elements s !! i) as [e |] eqn:He; [| done]. simpl. f_equal.
  repeat case_decide; subst; try done.
  - apply remove_add_class. by apply Hstep.
  - apply add_remove_class. by apply Hlogin.
  - apply remove_add_class. by apply Hawareness.
Qed.

(** Showing the awareness section twice is the same as showing it once. *)
Lemma showAwarenessSection_twice (s : State) :
  showAwarenessSection (showAwarenessSection s) = showAwarenessSection s.
Proof.
  rewrite (showAwarenessSection_frame (showAwarenessSection s)).
  rewrite (showAwarenessSection_frame s) at 3.
  assert (elements (showAwarenessSection (showAwarenessSection s))
          = elements (showAwarenessSection s)) as ->; [| done].
  apply map_eq. intros i. rewrite !lookup_showAwarenessSection.
  destruct (elements s !! i) as [e |]; [| done]. simpl. f_equal.
  repeat case_decide; subst; try done;
    auto using add_class_twice, remove_class_twice.
Qed.

Lemma goBack_undoes_showAwarenessSection_witness :
  goBack (showAwarenessSection example_state) = example_state.
Proof.
  apply (goBack_undoes_showAwarenessSection example_state);
    intros e He; vm_compute in He; injection He as <-;
    apply (bool_decide_unpack _); vm_compute; reflexivity.
Defined.

(** ** Consent *)

Lemma consent_button_twice (both : bool) (e : Element) :
  consent_button both (consent_button both e) = consent_button both e.
Proof.
  destruct e as [cl v t ch d], both;
    unfold consent_button, remove_class, add_class, with_classes,
      with_disabled; simpl; f_equal; apply set_eq; intros x.
  - rewrite !elem_of_difference. tauto.
  - rewrite !elem_of_union. tauto.
Qed.

Lemma validateConsent_elements (s : State) (d t b : Element) :
  elements s !! "dataConsent" = Some d →
  elements s !! "termsConsent" = Some t →
  elements s !! "proceedBtn" = Some b →
  validateConsent s
  = set_elements
      (alter (consent_button (checked d && checked t)) "proceedBtn"
         (elements s)) s.
Proof.
  intros Hd Ht Hb. unfold validateConsent. rewrite Hd, Ht, Hb.
  unfold consent_button, classList_add, classList_remove.
  destruct (checked d && checked t); unfold set_elements; simpl;
    by rewrite alter_alter_eq.
Qed.

(** X17. After the consent check, with the two boxes and the button on
    the page, the button is disabled exactly when not both boxes are
    checked, and it carries the dimming class exactly when it is disabled;
    no other element changes, and checking again changes nothing. With one
    of the three elements missing the check does nothing. *)
Theorem validateConsent_button (s : State) :
  (∀ d t b,
     elements s !! "dataConsent" = Some d →
     elements s !! "termsConsent" = Some t →
     elements s !! "proceedBtn" = Some b →
     ∃ b',
       elements (validateConsent s) !! "proceedBtn" = Some b'
       ∧ disabled b' = negb (checked d && checked t)
       ∧ ("opacity-50" ∈ classes b' ↔ disabled b' = true)
       ∧ (∀ i, i ≠ "proceedBtn" →
          elements (validateConsent s) !! i = elements s !! i)
       ∧ validateConsent (validateConsent s) = validateConsent s)
  ∧ (elements s !! "dataConsent" = None
     ∨ elements s !! "termsConsent" = None
     ∨ elements s !! "proceedBtn" = None →
     validateConsent s = s).
Proof.
  split.
  - intros d t b Hd Ht Hb.
    rewrite (validateConsent_elements s d t b Hd Ht Hb).
    set (s' := set_elements _ s).
    exists (consent_button (checked d && checked t) b).
    assert (elements s' !! "proceedBtn"
            = Some (consent_button (checked d && checked t) b)) as Hb'.
    { simpl. by rewrite lookup_alter_eq, Hb. }
    assert (∀ i, i ≠ "proceedBtn" → elements s' !! i = elements s !! i)
      as Hother.
    { intros i Hi. simpl. by rewrite lookup_alter_ne. }
    split; [exact Hb' |]. split; [| split; [| split; [exact Hother |]]].
    + unfold consent_button. by destruct (checked d && checked t).
    + unfold consent_button, remove_class, add_class.
      destruct (checked d && checked t); simpl.
      * rewrite elem_of_difference, elem_of_singleton. split; [tauto | done].
      * rewrite elem_of_union, elem_of_singleton. split; [done | by left].
    + rewrite (validateConsent_elements s' d t
                 (consent_button (checked d && checked t) b));
        [| by rewrite Hother, Hd | by rewrite Hother, Ht | exact Hb'].
      subst s'. unfold set_elements. simpl. f_equal.
      rewrite alter_alter_eq. apply alter_ext. intros e _. simpl.
      apply consent_button_twice.
  - unfold validateConsent.
    intros [-> | [-> | ->]]; [done | |].
    + by destruct (elements s !! "dataConsent").
    + by destruct (elements s !! "dataConsent"),
        (elements s !! "termsConsent").
Qed.

Lemma validateConsent_button_witness :
  (disabled
     <$> elements
           (consent_change "termsConsent" true
              (consent_change "dataConsent" true example_state))
         !! "proceedBtn") = Some false
  ∧ validateConsent (set_elements ∅ example_state)
    = set_elements ∅ example_state.
Proof.
  split.
  - set (s := set_elements
                (alter (with_checked true) "termsConsent"
                   (elements (consent_change "dataConsent" true
                                example_state)))
                (consent_change "dataConsent" true example_state)).
    change (consent_change "termsConsent" true
              (consent_change "dataConsent" true example_state))
      with (validateConsent s).
    destruct (validateConsent_button s) as [Hpresent _].
    edestruct Hpresent as (b' & -> & Hd & _);
      [vm_compute; reflexivity .. |].
    simpl. f_equal. exact Hd.
  - apply (validateConsent_button (set_elements ∅ example_state)).
    by left.
Defined.

(** ** Signing in *)

Lemma showAwarenessSection_shown (s : State) :
  awareness_shown s (showAwarenessSection s).
Proof.
  unfold awareness_shown, has_class. rewrite !lookup_showAwarenessSection.
  repeat split; repeat (case_decide; [done |]);
    (destruct (elements s !! _) as [e |]; [| done]); simpl; f_equal.
  - apply bool_decide_eq_false. rewrite elem_of_difference, elem_of_singleton.
    tauto.
  - apply bool_decide_eq_true. apply elem_of_union. left.
    by apply elem_of_singleton.
  - apply bool_decide_eq_true. apply elem_of_union. left.
    by apply elem_of_singleton.
Qed.

Lemma awareness_shown_elements (s r r' : State) :
  elements r' = elements r → awareness_shown s r → awareness_shown s r'.
Proof. unfold awareness_shown, has_class. by intros ->. Qed.

Lemma awareness_shown_before (s s' r : State) :
  elements s' = elements s → awareness_shown s r → awareness_shown s' r.
Proof. unfold awareness_shown. by intros ->. Qed.

Lemma showAwarenessSection_elements (s s' : State) :
  elements s' = elements s →
  elements (showAwarenessSection s') = elements (showAwarenessSection s).
Proof.
  unfold showAwarenessSection, classList_add, classList_remove. simpl.
  by intros ->.
Qed.

(** However many timers are due, the awareness section is shown as by
    one. *)
Lemma due_timers_show_once (due : list N) (s : State) :
  fold_left (λ r _, showAwarenessSection r) due (showAwarenessSection s)
  = showAwarenessSection s.
Proof.
  induction due as [| t due IH]; [done |]. simpl.
  by rewrite showAwarenessSection_twice.
Qed.

(** What [elapse] does to the elements: nothing with no timer due, and
    otherwise what [showAwarenessSection] does. *)
Lemma elements_elapse (dt : N) (s : State) :
  elements (elapse dt s)
  = if forallb (λ t, negb (t <=? now s + dt)%N) (timers s) then elements s
    else elements (showAwarenessSection s).
Proof.
  unfold elapse. cbn [now set_now timers].
  induction (timers s) as [| t ts IH]; [done |].
  cbn [List.filter forallb].
  destruct (t <=? now s + dt)%N; cbn [negb andb fold_left].
  - by rewrite due_timers_show_once.
  - revert IH. generalize (List.filter (λ t, (t <=? now s + dt)%N) ts).
    intros due IH.
    destruct due as [| d due].
    + simpl in *. by destruct (forallb _ ts).
    + cbn [fold_left] in *. rewrite due_timers_show_once in *.
      by destruct (forallb _ ts).
Qed.

Lemma timers_elapse (dt : N) (s : State) :
  timers (elapse dt s)
  = List.filter (λ t, negb (t <=? now s + dt)%N) (timers s).
Proof.
  unfold elapse. cbn [now set_now timers].
  generalize (List.filter (λ t, (t <=? now s + dt)%N) (timers s)).
  generalize (List.filter (λ t, negb (t <=? now s + dt)%N) (timers s)).
  intros pending due.
  assert (∀ r, timers (fold_left (λ r _, showAwarenessSection r) due r)
               = timers r) as ->; [| done].
  induction due as [| d due IH]; intros r; [done |]. simpl. by rewrite IH.
Qed.

Lemma now_elapse (dt : N) (s : State) :
  now (elapse dt s) = (now s + dt)%N.
Proof.
  unfold elapse. cbn [now set_now timers].
  generalize (List.filter (λ t, (t <=? now s + dt)%N) (timers s)).
  generalize (List.filter (λ t, negb (t <=? now s + dt)%N) (timers s)).
  intros pending due.
  assert (∀ r, now (fold_left (λ r _, showAwarenessSection r) due r)
               = now r) as ->; [| done].
  induction due as [| d due IH]; intros r; [done |]. simpl. by rewrite IH.
Qed.

(** ** The OTP *)

(** X15. The OTP check counts characters and nothing else. When the boxes
    hold six characters in all, whatever the characters are and however
    they are spread over the boxes, the code is accepted: the sign-in
    section, if on the page, is no longer active, the awareness section
    and the second step marker, if on the page, are active, every other
    element is as it was, the console gets the code and there is no alert.
    Otherwise the only effect is the alert. *)
Theorem verifyOTP_counts_characters (s : State) :
  (otp_characters s = 6%nat →
     awareness_shown s (verifyOTP s)
     ∧ (∀ i, i ≠ "loginSection" → i ≠ "awarenessSection" → i ≠ "step2" →
          elements (verifyOTP s) !! i = elements s !! i)
     ∧ elements (verifyOTP s) = elements (showAwarenessSection s)
     ∧ alerts (verifyOTP s) = alerts s
     ∧ log (verifyOTP s)
       = (log s ++ [("OTP verified: " ++ join "" (otpInputs s))%string])%list)
  ∧ (otp_characters s ≠ 6%nat →
     verifyOTP s = alert "Please enter complete OTP" s).
Proof.
  unfold verifyOTP, otp_characters. rewrite length_join_empty.
  split; intros Hcount.
  - rewrite Hcount. cbn [Nat.eqb].
    split; [| split; [| done]].
    + apply (awareness_shown_elements s (showAwarenessSection s));
        [done | apply showAwarenessSection_shown].
    + intros i H1 H2 H3.
      change (elements (showAwarenessSection s) !! i = elements s !! i).
      rewrite lookup_showAwarenessSection.
      repeat (case_decide; [done |]). by rewrite option_fmap_id.
  - apply Nat.eqb_neq in Hcount. by rewrite Hcount.
Qed.

Lemma verifyOTP_counts_characters_witness :
  (has_class "loginSection" "active"
     (verifyOTP (with_otp ["12"; ""; "abcd"; ""; ""; ""] example_state))
   = Some false
   ∧ has_class "awarenessSection" "active"
       (verifyOTP (with_otp ["12"; ""; "abcd"; ""; ""; ""] example_state))
     = Some true
   ∧ has_class "step2" "active"
       (verifyOTP (with_otp ["12"; ""; "abcd"; ""; ""; ""] example_state))
     = Some true)
  ∧ alerts (verifyOTP (with_otp ["12"; ""; "abcd"; ""; ""; ""] example_state))
    = []
  ∧ verifyOTP (with_otp ["1"; "2"; "3"; "4"; "5"; ""] example_state)
    = alert "Please enter complete OTP"
        (with_otp ["1"; "2"; "3"; "4"; "5"; ""] example_state).
Proof.
  destruct (verifyOTP_counts_characters
              (with_otp ["12"; ""; "abcd"; ""; ""; ""] example_state))
    as [Hsix _].
  destruct (Hsix eq_refl) as (Hshown & _ & _ & Halerts & _).
  destruct (verifyOTP_counts_characters
              (with_otp ["1"; "2"; "3"; "4"; "5"; ""] example_state))
    as [_ Hfive].
  split; [exact Hshown |]. split; [exact Halerts |].
  apply Hfive. discriminate.
Defined.

(** ** Signing in *)

(** X18. Signing in with Google shows the awareness section one second
    after the click and not before. With no timer pending, less than
    1000ms after the click no element has changed; from 1000ms on the
    sign-in section, if on the page, is no longer active and the awareness
    section and the second step marker are active, as for a guest at once,
    and the timer is gone. A second click, at the same instant or less
    than a second after the first, changes nothing of this: no element
    changes before the first click is a second old, from then on the
    awareness section is shown, and the timer of the second click leaves
    the page as it is. *)
Theorem google_login_takes_a_second (s : State) (gap dt : N) :
  timers s = [] →
  ((dt < 1000)%N →
     elements (elapse dt (handleGoogleLogin s)) = elements s
     ∧ timers (elapse dt (handleGoogleLogin s)) = [(now s + 1000)%N])
  ∧ ((1000 <= dt)%N →
     awareness_shown s (elapse dt (handleGoogleLogin s))
     ∧ elements (elapse dt (handleGoogleLogin s)) = elements (proceedAsGuest s)
     ∧ timers (elapse dt (handleGoogleLogin s)) = []
     ∧ elements (elapse dt (handleGoogleLogin (handleGoogleLogin s)))
       = elements (proceedAsGuest s))
  ∧ ((gap < 1000)%N →
     ((gap + dt < 1000)%N →
        elements
          (elapse dt (handleGoogleLogin (elapse gap (handleGoogleLogin s))))
        = elements s)
     ∧ ((1000 <= gap + dt)%N →
        awareness_shown s
          (elapse dt (handleGoogleLogin (elapse gap (handleGoogleLogin s))))
        ∧ elements
            (elapse dt (handleGoogleLogin (elapse gap (handleGoogleLogin s))))
          = elements (proceedAsGuest s)
        ∧ ∀ later : N,
            elements
              (elapse later
                 (elapse dt
                    (handleGoogleLogin (elapse gap (handleGoogleLogin s)))))
            = elements (proceedAsGuest s))).
Proof.
  intros Hnone.
  assert (∀ r, elements (handleGoogleLogin r) = elements r) as Hclick
    by done.
  assert (∀ r, timers (handleGoogleLogin r)
               = (timers r ++ [(now r + 1000)%N])%list) as Htimers by done.
  assert (∀ r, now (handleGoogleLogin r) = now r) as Hnow by done.
  assert (elements (proceedAsGuest s) = elements (showAwarenessSection s))
    as Hguest by done.
  split; [| split].
  - intros Hdt. rewrite elements_elapse, timers_elapse, Htimers, Hnow, Hnone.
    cbn [app forallb List.filter].
    assert ((now s + 1000 <=? now s + dt)%N = false) as ->
      by (apply N.leb_gt; lia).
    done.
  - intros Hdt.
    assert (elements (elapse dt (handleGoogleLogin s))
            = elements (showAwarenessSection s)) as Hshown.
    { rewrite elements_elapse, Htimers, Hnow, Hnone.
      cbn [app forallb].
      assert ((now s + 1000 <=? now s + dt)%N = true) as ->
        by (apply N.leb_le; lia).
      done. }
    split; [| split; [| split]].
    + apply (awareness_shown_elements s (showAwarenessSection s));
        [done | apply showAwarenessSection_shown].
    + by rewrite Hguest.
    + rewrite timers_elapse, Htimers, Hnow, Hnone. cbn [app List.filter].
      assert ((now s + 1000 <=? now s + dt)%N = true) as ->
        by (apply N.leb_le; lia).
      done.
    + rewrite elements_elapse, !Htimers, !Hnow, Hnone.
      cbn [app forallb].
      assert ((now s + 1000 <=? now s + dt)%N = true) as ->
        by (apply N.leb_le; lia).
      done.
  - intros Hgap.
    assert (timers (handleGoogleLogin (elapse gap (handleGoogleLogin s)))
            = [(now s + 1000)%N; (now s + gap + 1000)%N]) as Htwo.
    { rewrite Htimers, timers_elapse, now_elapse, Htimers, !Hnow, Hnone.
      cbn [app List.filter].
      assert ((now s + 1000 <=? now s + gap)%N = false) as ->
        by (apply N.leb_gt; lia).
      done. }
    assert (elements (handleGoogleLogin (elapse gap (handleGoogleLogin s)))
            = elements s) as Hsame.
    { rewrite Hclick, elements_elapse, Htimers, Hnow, Hnone.
      cbn [app forallb].
      assert ((now s + 1000 <=? now s + gap)%N = false) as ->
        by (apply N.leb_gt; lia).
      done. }
    assert (now (handleGoogleLogin (elapse gap (handleGoogleLogin s)))
            = (now s + gap)%N) as Hthen
      by (by rewrite Hnow, now_elapse, Hnow).
    split.
    + intros Hearly. rewrite elements_elapse, Htwo, Hthen.
      cbn [forallb].
      assert ((now s + 1000 <=? now s + gap + dt)%N = false) as ->
        by (apply N.leb_gt; lia).
      assert ((now s + gap + 1000 <=? now s + gap + dt)%N = false) as ->
        by (apply N.leb_gt; lia).
      done.
    + intros Hlate.
      assert (elements
                (elapse dt
                   (handleGoogleLogin (elapse gap (handleGoogleLogin s))))
              = elements (showAwarenessSection s)) as Hshown.
      { rewrite elements_elapse, Htwo, Hthen. cbn [forallb].
        assert ((now s + 1000 <=? now s + gap + dt)%N = true) as ->
          by (apply N.leb_le; lia).
        cbn [negb andb]. by apply showAwarenessSection_elements. }
      split; [| split].
      * apply (awareness_shown_elements s (showAwarenessSection s));
          [done | apply showAwarenessSection_shown].
      * by rewrite Hguest.
      * intros later. rewrite Hguest, elements_elapse.
        destruct (forallb _ _); [done |].
        rewrite (showAwarenessSection_elements (showAwarenessSection s))
          by done.
        by rewrite showAwarenessSection_twice.
Qed.

Lemma google_login_takes_a_second_witness :
  elements (elapse 999 (handleGoogleLogin example_state))
  = elements example_state
  ∧ has_class "awarenessSection" "active"
      (elapse 1000 (handleGoogleLogin example_state))
    = Some true
  ∧ elements
      (elapse 499
         (handleGoogleLogin (elapse 500 (handleGoogleLogin example_state))))
    = elements example_state
  ∧ has_class "awarenessSection" "active"
      (elapse 500
         (handleGoogleLogin (elapse 500 (handleGoogleLogin example_state))))
    = Some true
  ∧ has_class "loginSection" "active"
      (elapse 500
         (handleGoogleLogin (elapse 500 (handleGoogleLogin example_state))))
    = Some false.
Proof.
  destruct (google_login_takes_a_second example_state 500 999 eq_refl)
    as [Hearly _].
  destruct (google_login_takes_a_second example_state 500 1000 eq_refl)
    as (_ & Hlate & _).
  destruct (google_login_takes_a_second example_state 500 499 eq_refl)
    as (_ & _ & Hbefore).
  destruct (google_login_takes_a_second example_state 500 500 eq_refl)
    as (_ & _ & Hafter).
  destruct Hearly as [Hearly _]; [lia |].
  destruct Hlate as [(_ & Hshown & _) _]; [lia |].
  destruct Hbefore as [Hbefore _]; [lia |].
  assert ((500 + 499 < 1000)%N) as Hlt by lia.
  apply Hbefore in Hlt.
  destruct Hafter as [_ Hafter]; [lia |].
  destruct Hafter as [(Hlogin & Hawareness & _) _]; [lia |].
  split; [exact Hearly |]. split; [exact Hshown |].
  split; [exact Hlt |]. split; [exact Hawareness |]. exact Hlogin.
Defined.

(** ** The mobile number *)

(** X19. [sendOTP] asks only for ten characters. With no mobile-number
    input on the page it does nothing. With fewer than 10 characters in
    the input its only effect is the alert. With 10 or more, whatever they
    are, there is no alert: the mobile form gets hidden, the OTP panel
    shown and the number displayed, each if it is on the page. *)
Theorem sendOTP_needs_ten_characters (s : State) :
  (elements s !! "mobileNumber" = None → sendOTP s = s)
  ∧ (∀ input, elements s !! "mobileNumber" = Some input →
     (String.length (el_value input) < 10)%nat →
     sendOTP s = alert "Please enter a valid mobile number" s)
  ∧ (∀ input, elements s !! "mobileNumber" = Some input →
     (10 ≤ String.length (el_value input))%nat →
     alerts (sendOTP s) = alerts s
     ∧ has_class "mobileLoginForm" "hidden" (sendOTP s)
       = (λ _, true) <$> elements s !! "mobileLoginForm"
     ∧ has_class "otpVerification" "hidden" (sendOTP s)
       = (λ _, false) <$> elements s !! "otpVerification"
     ∧ textContent <$> elements (sendOTP s) !! "sentNumber"
       = (λ _, el_value input) <$> elements s !! "sentNumber").
Proof.
  unfold sendOTP. split; [by intros -> |]. split.
  - intros input -> Hshort.
    assert ((10 <=? String.length (el_value input))%nat = false) as ->
      by (apply Nat.leb_gt; lia).
    done.
  - intros input -> Hlong.
    assert ((10 <=? String.length (el_value input))%nat = true) as ->
      by (apply Nat.leb_le; lia).
    unfold has_class, classList_remove, classList_add. simpl.
    split; [done |]. split; [| split].
    + rewrite lookup_alter_ne, lookup_alter_eq, lookup_alter_ne by done.
      destruct (elements s !! "mobileLoginForm") as [e |]; [| done].
      simpl. f_equal. apply bool_decide_eq_true.
      apply elem_of_union. left. by apply elem_of_singleton.
    + rewrite lookup_alter_eq, !lookup_alter_ne by done.
      destruct (elements s !! "otpVerification") as [e |]; [| done].
      simpl. f_equal. apply bool_decide_eq_false.
      rewrite elem_of_difference, elem_of_singleton. tauto.
    + rewrite !lookup_alter_ne, lookup_alter_eq by done.
      by destruct (elements s !! "sentNumber").
Qed.

Lemma sendOTP_needs_ten_characters_witness :
  sendOTP (set_elements ∅ example_state) = set_elements ∅ example_state
  ∧ alerts (sendOTP example_state) = []
  ∧ has_class "otpVerification" "hidden" (sendOTP example_state) = Some false
  ∧ sendOTP
      (set_elements (<["mobileNumber" := plain ∅ "98765"]> ∅) example_state)
    = alert "Please enter a valid mobile number"
        (set_elements (<["mobileNumber" := plain ∅ "98765"]> ∅) example_state).
Proof.
  destruct (sendOTP_needs_ten_characters (set_elements ∅ example_state))
    as (Hnone & _).
  destruct (sendOTP_needs_ten_characters example_state) as (_ & _ & Hlong).
  destruct (sendOTP_needs_ten_characters
              (set_elements (<["mobileNumber" := plain ∅ "98765"]> ∅)
                 example_state)) as (_ & Hshort & _).
  split; [by apply Hnone |].
  destruct (Hlong (plain ∅ "98765 43210")) as (Ha & _ & Ho & _);
    [vm_compute; reflexivity | simpl; lia |].
  split; [exact Ha |]. split; [rewrite Ho; vm_compute; reflexivity |].
  apply (Hshort (plain ∅ "98765")); [vm_compute; reflexivity | simpl; lia].
Defined.

End LoginFacts.


(** * The map style switch *)

Module MapStyleFacts.
Import MapStyle.

Lemma run_snoc (es : list Event) (e : Event) (v : View) :
  run (es ++ [e]) v = step e (run es v).
Proof. unfold run. by rewrite fold_left_app. Qed.

Lemma reference_errors_snoc (es : list Event) (e : Event) :
  reference_errors (es ++ [e])
  = (reference_errors es ++ reference_errors [e])%list.
Proof. unfold reference_errors. by rewrite omap_app. Qed.

(** X20. A change of the style switch does not switch the style. The
    listener is written outside the block that declares [satelliteStyle],
    [streetsStyle] and [currentStyle], so its first read of one of them
    raises a [ReferenceError], for [satelliteStyle] when the box is checked
    and for [streetsStyle] when it is not: the current style, the calls of
    [setStyle], the buildings and the classes of both labels stay as they
    were, whichever way the box is set. The [load] listener, written
    inside that block, can read the names. *)
Theorem view_toggle_throws (checked : bool) (v : View) :
  view_toggle checked v = throw (ReferenceError (style_name checked)) v
  ∧ uncaught (view_toggle checked v)
    = (uncaught v ++ [ReferenceError (style_name checked)])%list
  ∧ currentStyle (view_toggle checked v) = currentStyle v
  ∧ setStyle_calls (view_toggle checked v) = setStyle_calls v
  ∧ buildings (view_toggle checked v) = buildings v
  ∧ satelliteLabel (view_toggle checked v) = satelliteLabel v
  ∧ streetsLabel (view_toggle checked v) = streetsLabel v
  ∧ in_scope (style_name checked) Callback = false
  ∧ in_scope (style_name checked) MapSetup = true
  ∧ in_scope "currentStyle" Callback = false
  ∧ in_scope "currentStyle" MapSetup = true.
Proof. by destruct checked. Qed.

Lemma step_keeps (e : Event) (v : View) :
  setStyle_calls (step e v) = setStyle_calls v
  ∧ currentStyle (step e v) = currentStyle v
  ∧ satelliteLabel (step e v) = satelliteLabel v
  ∧ streetsLabel (step e v) = streetsLabel v
  ∧ uncaught (step e v) = (uncaught v ++ reference_errors [e])%list.
Proof.
  destruct e as [checked | outcome].
  - by destruct checked.
  - unfold step, map_load, read. cbn [in_scope declared existsb String.eqb].
    change (in_scope "currentStyle" MapSetup) with true.
    change (in_scope "satelliteStyle" MapSetup) with true.
    cbn iota. change (reference_errors [Load outcome]) with (@nil Error).
    rewrite app_nil_r.
    by destruct (buildings v), outcome.
Qed.

Lemma step_buildings (e : Event) (v : View) (b : Buildings) :
  currentStyle v = Satellite →
  buildings (step e v) = Some b →
  buildings v = Some b ∨ (b = satellite_paint ∧ e = Load Added).
Proof.
  intros Hcurrent. destruct e as [checked | outcome].
  - destruct checked; intros Hb; by left.
  - unfold step, map_load, read.
    change (in_scope "currentStyle" MapSetup) with true.
    change (in_scope "satelliteStyle" MapSetup) with true.
    cbn iota. rewrite Hcurrent.
    destruct (buildings v) as [b' |] eqn:Hb;
      [intros Hb'; left; congruence |].
    destruct outcome; simpl; rewrite ?Hb; try done.
    intros [= <-]. by right.
Qed.

Lemma step_buildings_kept (e : Event) (v : View) :
  is_Some (buildings v) ∨ e = Load Added → is_Some (buildings (step e v)).
Proof.
  destruct e as [checked | outcome].
  - intros [H | H]; [| done]. by destruct checked.
  - unfold step, map_load, read.
    change (in_scope "currentStyle" MapSetup) with true.
    change (in_scope "satelliteStyle" MapSetup) with true.
    cbn iota.
    destruct (buildings v) as [b' |] eqn:Hb.
    + intros _. by rewrite Hb.
    + intros [[b Hb'] | [= ->]]; [done |]. by eexists.
Qed.

(** X21. From the view the script creates, after any run of switch
    changes and map loads, the style has never been switched: [setStyle]
    was never called, the current style is still the satellite one, both
    labels have the classes the page gave them, and every change of the
    switch has raised its [ReferenceError], in order, and nothing else
    has. The map has the 3D buildings exactly when a load has added them,
    and then they have the paint for the satellite style, white at
    opacity 0.7. *)
Theorem style_switch_never_switches (es : list Event)
    (satellite streets : gset string) :
  setStyle_calls (run es (initial satellite streets)) = []
  ∧ currentStyle (run es (initial satellite streets)) = Satellite
  ∧ satelliteLabel (run es (initial satellite streets)) = satellite
  ∧ streetsLabel (run es (initial satellite streets)) = streets
  ∧ uncaught (run es (initial satellite streets)) = reference_errors es
  ∧ (is_Some (buildings (run es (initial satellite streets)))
     ↔ Load Added ∈ es)
  ∧ (∀ b, buildings (run es (initial satellite streets)) = Some b →
       b = satellite_paint).
Proof.
  induction es as [| e es IH] using rev_ind.
  - repeat split; try done.
    + by intros [b Hb].
    + by intros H%elem_of_nil.
  - destruct IH as (Hcalls & Hcurrent & Hsat & Hstr & Herr & Hsome & Hpaint).
    rewrite run_snoc.
    destruct (step_keeps e (run es (initial satellite streets)))
      as (-> & -> & -> & -> & ->).
    rewrite reference_errors_snoc, Herr.
    repeat split; try done.
    + intros [b Hb]. apply elem_of_app.
      destruct (step_buildings e _ b Hcurrent Hb) as [Hold | [_ ->]].
      * left. apply Hsome. by eexists.
      * right. apply list_elem_of_here.
    + intros [Hin | Hin%list_elem_of_singleton]%elem_of_app;
        apply step_buildings_kept.
      * left. by apply Hsome.
      * by right.
    + intros b Hb.
      destruct (step_buildings e _ b Hcurrent Hb) as [Hold | [-> _]];
        [by apply Hpaint | done].
Qed.

End MapStyleFacts.


(** * The radio options *)

Module RadioOptionsFacts.
Import RadioOptions.

Lemma click_safe (i : nat) (options : list RadioOption)
    (option : RadioOption) :
  options !! i = Some option → selector_safe (name_of option) = true →
  is_Some (click i options).
Proof. intros Hi Hsafe. unfold click. by rewrite Hi, Hsafe. Qed.

Lemma lookup_click (i j : nat) (options after : list RadioOption)
    (option o : RadioOption) :
  options !! i = Some option → click i options = Some after →
  options !! j = Some o →
  after !! j
  = Some {| opt_name := opt_name o; opt_value := opt_value o;
            selected :=
              if bool_decide (j = i) then true
              else if matches (name_of option) o then false
              else selected o;
            opt_checked :=
              if bool_decide (j = i) then true
              else if same_group option o then false
              else opt_checked o |}.
Proof.
  intros Hi Hclick Hj. unfold click in Hclick. rewrite Hi in Hclick.
  destruct (selector_safe _); [| done]. injection Hclick as <-.
  by rewrite list_lookup_imap, Hj.
Qed.

Lemma length_click (i : nat) (options after : list RadioOption) :
  click i options = Some after → length after = length options.
Proof.
  unfold click. destruct (options !! i); [| done].
  destruct (selector_safe _); [| done]. intros [= <-]. apply length_imap.
Qed.

Lemma matches_name (name : string) (o : RadioOption) :
  matches name o = true ↔ opt_name o = Some name.
Proof.
  unfold matches. destruct (opt_name o) as [n |]; [| done].
  rewrite String.eqb_eq. split; congruence.
Qed.

Lemma matches_named (name : string) (o : RadioOption) :
  name ≠ "" → matches name o = String.eqb (name_of o) name.
Proof.
  intros Hname. unfold matches, name_of.
  destruct (opt_name o) as [n |]; simpl; [done |]. by destruct name.
Qed.

(** X22. A click on a box whose button has a name that is safe in the
    selector leaves the boxes as many as before, with the names and
    values they had, and the clicked box is selected and its button
    checked. When the name is not empty, in the group of the clicked box
    exactly that box is selected and exactly its button is checked. A box
    whose button has another name is as it was. When the clicked button
    has no name or an empty one, no other button is unchecked, and the
    boxes that lose [selected] are those of the buttons with an empty
    [name] attribute. *)
Theorem click_selects_one (i : nat) (options : list RadioOption)
    (option : RadioOption) :
  options !! i = Some option →
  selector_safe (name_of option) = true →
  ∃ after, click i options = Some after
    ∧ length after = length options
    ∧ ∀ j o, options !! j = Some o →
        ∃ o', after !! j = Some o'
          ∧ opt_name o' = opt_name o ∧ opt_value o' = opt_value o
          ∧ (j = i → selected o' = true ∧ opt_checked o' = true)
          ∧ (name_of option ≠ "" → name_of o = name_of option →
             selected o' = bool_decide (j = i)
             ∧ opt_checked o' = bool_decide (j = i))
          ∧ (name_of o ≠ name_of option → o' = o)
          ∧ (name_of option = "" → j ≠ i →
             opt_checked o' = opt_checked o
             ∧ selected o'
               = if bool_decide (opt_name o = Some "") then false
                 else selected o).
Proof.
  intros Hi Hsafe.
  destruct (click_safe i options option Hi Hsafe) as [after Hclick].
  exists after. split; [done |]. split; [by apply (length_click i) |].
  intros j o Hj. eexists.
  split; [by apply (lookup_click i j options after option o) |].
  cbn [opt_name opt_value selected opt_checked].
  split; [done |]. split; [done |]. split; [| split; [| split]].
  - intros ->. by rewrite !bool_decide_eq_true_2 by done.
  - intros Hname Ho. rewrite matches_named by done.
    unfold same_group. rewrite Ho, String.eqb_refl.
    apply String.eqb_neq in Hname. rewrite Hname.
    by destruct (bool_decide (j = i)).
  - intros Ho.
    assert (j ≠ i) as Hji.
    { intros ->. rewrite Hi in Hj. by injection Hj as ->. }
    rewrite bool_decide_eq_false_2 by done.
    assert (matches (name_of option) o = false) as ->.
    { apply not_true_is_false. rewrite matches_name. intros Hsome.
      apply Ho. unfold name_of at 1. by rewrite Hsome. }
    assert (same_group option o = false) as ->.
    { unfold same_group. apply andb_false_iff. right.
      apply String.eqb_neq. congruence. }
    by destruct o.
  - intros Hname Hji. rewrite bool_decide_eq_false_2 by done.
    unfold same_group. rewrite Hname. simpl. split; [done |].
    unfold matches. destruct (opt_name o) as [n |].
    + destruct (String.eqb_spec n "") as [-> | Hn].
      * by rewrite bool_decide_eq_true_2 by done.
      * rewrite bool_decide_eq_false_2; [done | congruence].
    + by rewrite bool_decide_eq_false_2 by done.
Qed.

Lemma click_selects_one_witness :
  ∃ after,
    click 1
      [ Build_RadioOption (Some "roofType") "flat" true true;
        Build_RadioOption (Some "roofType") "sloped" false false;
        Build_RadioOption (Some "propertyType") "Commercial" true true ]
    = Some after
    ∧ length after = 3%nat
    ∧ (∃ o', after !! 0%nat = Some o'
         ∧ selected o' = false ∧ opt_checked o' = false)
    ∧ (∃ o', after !! 1%nat = Some o'
         ∧ selected o' = true ∧ opt_checked o' = true)
    ∧ after !! 2%nat
      = Some (Build_RadioOption (Some "propertyType") "Commercial" true true).
Proof.
  destruct (click_selects_one 1
              [ Build_RadioOption (Some "roofType") "flat" true true;
                Build_RadioOption (Some "roofType") "sloped" false false;
                Build_RadioOption (Some "propertyType") "Commercial" true
                  true ]
              _ eq_refl eq_refl) as (after & Hclick & Hlength & Hall).
  exists after. split; [exact Hclick |]. split; [exact Hlength |].
  destruct (Hall 0%nat _ eq_refl) as (o0 & Ho0 & _ & _ & _ & Hgroup & _).
  destruct (Hall 1%nat _ eq_refl) as (o1 & Ho1 & _ & _ & Hclicked & _).
  destruct (Hall 2%nat _ eq_refl) as (o2 & Ho2 & _ & _ & _ & _ & Hother & _).
  split; [| split].
  - exists o0. split; [exact Ho0 |]. apply Hgroup; [discriminate | reflexivity].
  - exists o1. split; [exact Ho1 |]. by apply Hclicked.
  - rewrite Ho2. f_equal. apply Hother. discriminate.
Defined.

Lemma checked_values_first (name : string) (options : list RadioOption)
    (i : nat) (option : RadioOption) :
  options !! i = Some option →
  opt_name option = Some name → opt_checked option = true →
  (∀ j o, (j < i)%nat → options !! j = Some o →
     opt_name o = Some name → opt_checked o = false) →
  checked_values options !! name = Some (opt_value option).
Proof.
  revert i. induction options as [| o options IH]; intros i Hi Hname Hc Hfirst;
    [done |].
  destruct i as [| i]; simpl in *.
  - injection Hi as ->. by rewrite Hname, Hc, lookup_insert_eq.
  - assert (checked_values options !! name = Some (opt_value option)) as Hrest.
    { apply (IH i); [done .. |]. intros j o' Hj.
      apply (Hfirst (S j)). lia. }
    destruct (opt_name o) as [n |] eqn:Hn; [| done].
    destruct (opt_checked o) eqn:Ho; [| done].
    destruct (decide (n = name)) as [-> | Hne].
    + by rewrite (Hfirst 0%nat o ltac:(lia) eq_refl Hn) in Ho.
    + by rewrite lookup_insert_ne.
Qed.

(** X23. The submission reads the group of the clicked box as the value
    of that box. After a click on a box whose button has a name that is
    not empty and is safe in the selector, the first checked button with
    that name is the clicked one; so on a page whose checked buttons are
    those of the boxes, the form data holds the value of the clicked box
    for that name, or the fallback when that value is empty. *)
Theorem click_sets_form_value (i : nat) (options : list RadioOption)
    (option : RadioOption) (name fallback : string) (p : Page) :
  options !! i = Some option →
  opt_name option = Some name →
  name ≠ "" →
  selector_safe name = true →
  ∃ after, click i options = Some after
    ∧ checked_values after !! name = Some (opt_value option)
    ∧ (radios p = checked_values after →
       checked_radio name fallback p
       = (if String.eqb (opt_value option) "" then fallback
          else opt_value option)).
Proof.
  intros Hi Hattr Hname Hsafe.
  assert (name_of option = name) as Hof by (unfold name_of; by rewrite Hattr).
  destruct (click_safe i options option Hi) as [after Hclick];
    [by rewrite Hof |].
  exists after. split; [done |].
  assert (checked_values after !! name = Some (opt_value option)) as Hvalue.
  { pose proof (lookup_click i i options after option option Hi Hclick Hi)
      as Ho'.
    apply (checked_values_first _ _ i _ Ho'); cbn [opt_name opt_checked].
    - done.
    - by rewrite bool_decide_eq_true_2 by done.
    - intros j o Hlt Hj Ho.
      destruct (lookup_lt_is_Some_2 options j) as [o0 Ho0].
      { apply lookup_lt_Some in Hi. lia. }
      rewrite (lookup_click i j options after option o0 Hi Hclick Ho0) in Hj.
      injection Hj as <-. cbn [opt_name opt_checked] in *.
      rewrite bool_decide_eq_false_2 by lia.
      unfold same_group. rewrite Hof. unfold name_of. rewrite Ho.
      simpl. rewrite String.eqb_refl.
      apply String.eqb_neq in Hname. by rewrite Hname. }
  split; [exact Hvalue |].
  intros Hradios. unfold checked_radio. by rewrite Hradios, Hvalue.
Qed.

Lemma click_sets_form_value_witness :
  click 1
    [ Build_RadioOption (Some "roofType") "flat" true true;
      Build_RadioOption (Some "roofType") "sloped" false false ]
  = Some [ Build_RadioOption (Some "roofType") "flat" false false;
           Build_RadioOption (Some "roofType") "sloped" true true ]
  ∧ checked_radio "roofType" "mixed"
      (loaded []
         (checked_values
            [ Build_RadioOption (Some "roofType") "flat" false false;
              Build_RadioOption (Some "roofType") "sloped" true true ]) [])
    = "sloped".
Proof.
  assert ("roofType" ≠ "") as Hname by discriminate.
  destruct (click_sets_form_value 1
              [ Build_RadioOption (Some "roofType") "flat" true true;
                Build_RadioOption (Some "roofType") "sloped" false false ]
              (Build_RadioOption (Some "roofType") "sloped" false false)
              "roofType" "mixed"
              (loaded []
                 (checked_values
                    [ Build_RadioOption (Some "roofType") "flat" false false;
                      Build_RadioOption (Some "roofType") "sloped" true
                        true ]) [])
              eq_refl eq_refl Hname eq_refl) as (after & Hclick & _ & Hform).
  split; [reflexivity |].
  assert (after
          = [ Build_RadioOption (Some "roofType") "flat" false false;
              Build_RadioOption (Some "roofType") "sloped" true true ])
    as Hafter by (vm_compute in Hclick; congruence).
  apply Hform. rewrite Hafter. reflexivity.
Defined.

End RadioOptionsFacts.
